(** * Captains-Toolkit: the CTS inventory and citation validation engine

    A shallow embedding of [cts/xml/texts.py] and [cts/xml/inventory.py]:
    the inventory tree (Inventory, TextGroup, Work, Edition/Translation,
    Document, Citation), the constructors that build it from a parsed XML
    element tree, title resolution, rewrite rules and the citation test.

    Python values are modelled as follows.
    - [str] is [string], a sequence of code points below 256; a value that
      may be [None] is an [option].
    - A [dict] is an association list in insertion order with unique keys
      ([dict_set] overwrites in place, appends otherwise): iteration over
      a dict and [list(d.keys())] follow insertion order (Python 3.7 and
      later), which is the document order the title policy relies on.
    - A call that may raise returns a [result]; [try]/[except] is a match
      on it.
    - [xml.etree.ElementTree] elements are a tree of tag, attributes, text
      and children; [find]/[findall] with a plain tag look at the direct
      children.  Parsing a file and evaluating a path expression belong to
      the Python library and are parameters of the development. *)

From Stdlib Require Import String Ascii List Bool Arith ZArith Lia.
From Stdlib Require Import DecimalString DecimalNat.
Import ListNotations.
Open Scope string_scope.
Open Scope list_scope.
Open Scope nat_scope.

Set Implicit Arguments.

(** ** Python primitives *)

Module Py.

(** The exception classes the modelled code can raise. *)
Inductive exn : Type :=
| TypeError
| AttributeError
| ValueError
| NameError
| KeyError
| IndexError
| IOError
| NoTitleException.

Inductive result (A : Type) : Type :=
| Ok (a : A)
| Raise (e : exn).

Arguments Ok {A} a.
Arguments Raise {A} e.

Definition bind {A B : Type} (m : result A) (k : A -> result B) : result B :=
  match m with
  | Ok a => k a
  | Raise e => Raise e
  end.

Definition returns {A : Type} (m : result A) : Prop :=
  exists a, m = Ok a.

Definition raises {A : Type} (m : result A) (e : exn) : Prop :=
  m = Raise e.

(** [for x in l: acc.append(f(x))], stopping at the first exception. *)
Fixpoint mapM {A B : Type} (f : A -> result B) (l : list A) : result (list B) :=
  match l with
  | [] => Ok []
  | x :: l' =>
      bind (f x) (fun y => bind (mapM f l') (fun ys => Ok (y :: ys)))
  end.

(** *** Strings *)

Definition option_string_eqb (a b : option string) : bool :=
  match a, b with
  | None, None => true
  | Some x, Some y => String.eqb x y
  | _, _ => false
  end.

(** [a + b] on values that are [str] or [None]. *)
Definition add (a b : option string) : result string :=
  match a, b with
  | Some x, Some y => Ok (x ++ y)%string
  | _, _ => Raise TypeError
  end.

(** [str(v)] as [format] prints it. *)
Definition str (v : option string) : string :=
  match v with
  | Some s => s
  | None => "None"
  end.

Definition str_of_nat (n : nat) : string :=
  NilZero.string_of_uint (Nat.to_uint n).

(** [s.replace("", new)]: [new] before every character and at the end. *)
Fixpoint replace_empty (new s : string) : string :=
  match s with
  | EmptyString => new
  | String c s' => (new ++ String c (replace_empty new s'))%string
  end.

(** [s.replace(old, new)] for a non-empty [old]: a left-to-right scan;
    [skip] counts the characters of a match still to be dropped. *)
Fixpoint replace_scan (old new : string) (skip : nat) (s : string) : string :=
  match s with
  | EmptyString => EmptyString
  | String c s' =>
      match skip with
      | S k => replace_scan old new k s'
      | O =>
          if String.prefix old s
          then (new ++ replace_scan old new (String.length old - 1) s')%string
          else String c (replace_scan old new 0 s')
      end
  end.

(** [s.replace(old, new)]: every non-overlapping occurrence, leftmost
    first. *)
Definition replace (old new s : string) : string :=
  match old with
  | EmptyString => replace_empty new s
  | String _ _ => replace_scan old new 0 s
  end.

(** [s.split(sep)] for a one-character separator; [cur] is the piece
    being read. *)
Fixpoint split_scan (sep : ascii) (cur : string) (s : string) : list string :=
  match s with
  | EmptyString => [cur]
  | String c s' =>
      if Ascii.eqb c sep
      then cur :: split_scan sep EmptyString s'
      else split_scan sep (cur ++ String c EmptyString)%string s'
  end.

Definition split (sep : ascii) (s : string) : list string :=
  split_scan sep EmptyString s.

(** [sep.join(l)]. *)
Definition join (sep : string) (l : list string) : string :=
  String.concat sep l.

(** [os.path.basename(p)] on a POSIX path: what follows the last slash. *)
Definition basename (p : string) : string :=
  last (split "/"%char p) EmptyString.

(** [old in s]. *)
Fixpoint contains (old s : string) : bool :=
  String.prefix old s ||
  match s with
  | EmptyString => false
  | String _ s' => contains old s'
  end.

(** A decimal digit, [0] to [9]. *)
Definition decimal (c : ascii) : bool :=
  let n := nat_of_ascii c in (48 <=? n) && (n <=? 57).

(** [c.isdigit()] for a code point below 256: the decimal digits and the
    superscripts two, three and one. *)
Definition isdigit_char (c : ascii) : bool :=
  let n := nat_of_ascii c in
  decimal c || (n =? 178) || (n =? 179) || (n =? 185).

Fixpoint all_chars (p : ascii -> bool) (s : string) : bool :=
  match s with
  | EmptyString => true
  | String c s' => p c && all_chars p s'
  end.

(** [s.isdigit()]: not empty, and every character a digit. *)
Definition isdigit (s : string) : bool :=
  negb (String.eqb s EmptyString) && all_chars isdigit_char s.

(** The digits read so far are worth [acc]. *)
Fixpoint int_scan (acc : nat) (s : string) : result nat :=
  match s with
  | EmptyString => Ok acc
  | String c s' =>
      if decimal c
      then int_scan (10 * acc + (nat_of_ascii c - 48)) s'
      else Raise ValueError
  end.

(** The default of [sys.get_int_max_str_digits()]: the longest string of
    digits that [int] converts, leading zeros counted. *)
Definition int_max_str_digits : nat := 4300.

(** [int(s)] for a string without sign, blank or underscore: the value of
    its decimal digits; [ValueError] on the empty string, on any other
    character, and on more digits than the interpreter converts. *)
Definition int (s : string) : result nat :=
  match s with
  | EmptyString => Raise ValueError
  | String _ _ =>
      bind (int_scan 0 s)
           (fun value =>
              if int_max_str_digits <? String.length s
              then Raise ValueError
              else Ok value)
  end.

(** *** Dictionaries, in insertion order *)

Section Dict.
Variables K V : Type.
Variable eqb : K -> K -> bool.

Definition dict : Type := list (K * V).

Fixpoint dict_lookup (d : dict) (k : K) : option V :=
  match d with
  | [] => None
  | (k', v) :: d' => if eqb k' k then Some v else dict_lookup d' k
  end.

(** [d[k] = v] *)
Fixpoint dict_set (d : dict) (k : K) (v : V) : dict :=
  match d with
  | [] => [(k, v)]
  | (k', v') :: d' =>
      if eqb k' k then (k', v) :: d' else (k', v') :: dict_set d' k v
  end.

(** [list(d.keys())] *)
Definition dict_keys (d : dict) : list K := map fst d.

(** [k in l] *)
Definition mem (k : K) (l : list K) : bool := existsb (fun k' => eqb k' k) l.

(** [d[k]] *)
Definition dict_getitem (d : dict) (k : K) : result V :=
  match dict_lookup d k with
  | Some v => Ok v
  | None => Raise KeyError
  end.

(** [l[0]] *)
Definition first (A : Type) (l : list A) : result A :=
  match l with
  | x :: _ => Ok x
  | [] => Raise IndexError
  end.

(** [d.get(k, default)] *)
Definition dict_get (d : dict) (k : K) (default : V) : V :=
  match dict_lookup d k with
  | Some v => v
  | None => default
  end.
End Dict.

End Py.

Import Py.

Declare Scope py_scope.
Notation "x <- m ;; k" := (bind m (fun x => k))
  (at level 61, m at next level, right associativity) : py_scope.
Notation "' p <- m ;; k" := (bind m (fun p => k))
  (at level 61, p pattern, m at next level, right associativity) : py_scope.
Open Scope py_scope.

(** ** [xml.etree.ElementTree] elements *)

Module ET.

#[warning="-register-all"]
Inductive Element : Type :=
  mkElement (tag : string) (attrib : dict string string)
            (text : option string) (children : list Element).

Definition tag (e : Element) : string :=
  match e with mkElement t _ _ _ => t end.
Definition attrib (e : Element) : dict string string :=
  match e with mkElement _ a _ _ => a end.
Definition text (e : Element) : option string :=
  match e with mkElement _ _ x _ => x end.
Definition children (e : Element) : list Element :=
  match e with mkElement _ _ _ c => c end.

(** [e.get(key)] *)
Definition get (e : Element) (key : string) : option string :=
  dict_lookup String.eqb (attrib e) key.

Definition has_tag (name : string) (e : Element) : bool :=
  String.eqb (tag e) name.

(** [e.findall(name)] for a plain tag: the direct children carrying it,
    in document order. *)
Definition findall (e : Element) (name : string) : list Element :=
  filter (has_tag name) (children e).

(** [e.find(name)] for a plain tag: the first such child, or [None]. *)
Definition find (e : Element) (name : string) : option Element :=
  List.find (has_tag name) (children e).

(** What a constructor receives as its [xml] argument: an element, a
    [str] (a path to parse), or [None]. *)
Inductive xml_arg : Type :=
| XElement (e : Element)
| XStr (s : string)
| XNone.

Definition of_find (o : option Element) : xml_arg :=
  match o with
  | Some e => XElement e
  | None => XNone
  end.

(** [xml.get(key)] on the raw argument: only an element has [get]. *)
Definition arg_get (xml : xml_arg) (key : string) : result (option string) :=
  match xml with
  | XElement e => Ok (get e key)
  | XStr _ | XNone => Raise AttributeError
  end.

(** The CTS namespace every inventory tag lives in. *)
Definition ti (name : string) : string :=
  ("{http://chs.harvard.edu/xmlns/cts3/ti}" ++ name)%string.

Definition xml_lang : string := "{http://www.w3.org/XML/1998/namespace}lang".

End ET.

Import ET.

(** ** [cts.shell]: console messages *)

Module Shell.

(** Modelled from the spec: [cts/shell.py] is not among the sources; its
    [Error] and [Warning] wrap the diagnostic text that the validation
    reports. *)
Inductive ConsoleObject : Type :=
| Error (msg : string)
| Warning (msg : string).

End Shell.

Import Shell.

(** ** [cts/xml/texts.py] *)

Module Regex.

(** [[a-zA-Z0-9]] *)
Definition alnum (c : ascii) : bool :=
  let n := nat_of_ascii c in
  (((48 <=? n) && (n <=? 57)) || ((65 <=? n) && (n <=? 90))
   || ((97 <=? n) && (n <=? 122)))%nat.

(** [re.compile("([a-zA-Z0-9]+\:)").findall(s)]: the maximal runs of
    letters and digits that a colon follows, colon included, left to
    right; [run] is the run being read. *)
Fixpoint findall_scan (run : string) (s : string) : list string :=
  match s with
  | EmptyString => []
  | String c s' =>
      if alnum c then findall_scan (run ++ String c EmptyString)%string s'
      else if Ascii.eqb c ":"%char && negb (String.eqb run EmptyString)
           then (run ++ ":")%string :: findall_scan EmptyString s'
           else findall_scan EmptyString s'
  end.

Definition shortcut_namespace_findall (s : option string) : result (list string) :=
  match s with
  | Some x => Ok (findall_scan EmptyString x)
  | None => Raise TypeError
  end.

End Regex.

(** [replace_all(haystack, needles)] *)
Definition replace_all (haystack : string) (needles : dict string string) : string :=
  fold_left (fun h kv => replace (fst kv) (snd kv) h) needles haystack.

(** [replace_all] on a haystack that may be [None]: the loop body calls
    [haystack.replace], so [None] survives only an empty rule table. *)
Definition replace_all_opt (haystack : option string) (needles : dict string string)
  : result (option string) :=
  match haystack, needles with
  | Some h, _ => Ok (Some (replace_all h needles))
  | None, [] => Ok None
  | None, _ :: _ => Raise AttributeError
  end.

(** *** class Citation *)

Module Citation.

(** A [<citation/>] level; [children] is the next, finer level. *)
#[warning="-register-all"]
Inductive t : Type :=
  Build (xml : Element) (label xpath scope : option string)
        (namespaces : dict string string) (strict : bool)
        (children : option t).

Definition xml (c : t) : Element :=
  match c with Build x _ _ _ _ _ _ => x end.
Definition label (c : t) : option string :=
  match c with Build _ l _ _ _ _ _ => l end.
Definition xpath (c : t) : option string :=
  match c with Build _ _ x _ _ _ _ => x end.
Definition scope (c : t) : option string :=
  match c with Build _ _ _ s _ _ _ => s end.
Definition namespaces (c : t) : dict string string :=
  match c with Build _ _ _ _ n _ _ => n end.
Definition strict (c : t) : bool :=
  match c with Build _ _ _ _ _ s _ => s end.
Definition children (c : t) : option t :=
  match c with Build _ _ _ _ _ _ ch => ch end.

(** Number of levels of the chain that starts at [c]. *)
Fixpoint depth (c : t) : nat :=
  match c with
  | Build _ _ _ _ _ _ None => 1
  | Build _ _ _ _ _ _ (Some ch) => S (depth ch)
  end.

(** [__init__] on an element, with [_retrieveChildren] inlined as the
    inner loop: the first [citation] child, built with the same namespace
    table and the same strictness. *)
Fixpoint of_element (namespaces : dict string string) (strict : bool)
         (e : Element) {struct e} : t :=
  match e with
  | mkElement _ _ _ ch =>
      Build e (get e "label") (get e "xpath") (get e "scope") namespaces strict
        ((fix _retrieveChildren (l : list Element) : option t :=
            match l with
            | [] => None
            | c :: l' =>
                if has_tag (ti "citation") c
                then Some (of_element namespaces strict c)
                else _retrieveChildren l'
            end) ch)
  end.

Section WithParser.

(** [ElementTree.parse(path).getroot()], and [tree.findall(path)] on a
    parsed document, both of the Python library. *)
Variable ElementTree_parse : string -> result Element.
Variable ElementTree_findall : Element -> string -> result (list Element).

(** [Citation(xml, namespaces, strict)] *)
Definition __init__ (xml : xml_arg) (namespaces : dict string string)
           (strict : bool) : result t :=
  root <- match xml with
          | XElement e => Ok e
          | XStr s => ElementTree_parse s
          | XNone => Raise TypeError
          end ;;
  Ok (of_element namespaces strict root).

(** [full_xpath(removeRoot, string)] *)
Definition full_xpath (self : t) (removeRoot : bool) (string_ : option string)
  : result string :=
  xpath <- match string_ with
           | Some s => Ok s
           | None => add (scope self) (xpath self)
           end ;;
  let xpath := replace "@n='?'" "@n" xpath in
  let xpath := if removeRoot
               then join "/" ("." :: skipn 2 (split "/"%char xpath))
               else xpath in
  Ok (replace_all xpath (namespaces self)).

(** [_testNamespace(name, string, original_string, level, failure_condition)] *)
Definition _testNamespace (name : string) (string_ original_string : option string)
           (level : nat) (failure_condition : string)
  : result (list ConsoleObject) :=
  found <- Regex.shortcut_namespace_findall string_ ;;
  let match_ := length found in
  if String.eqb failure_condition "equal" && (match_ =? 0)
  then Ok [Error (name ++ "'s attribute for Citation Level " ++ str_of_nat level
                  ++ " has no namespaces shortcuts like 'tei:' ("
                  ++ str original_string ++ ")")%string]
  else if String.eqb failure_condition "greater" && (0 <? match_)
  then Ok [Error (name ++ "'s attribute for Citation Level " ++ str_of_nat level
                  ++ " has namespaces shortcuts with no bindings ("
                  ++ str original_string ++ ")")%string]
  else Ok [].

(** [testNamespace(level)] *)
Definition testNamespace (self : t) (level : nat) : result (list ConsoleObject) :=
  let errors := [] in
  e1 <- _testNamespace "scope" (scope self) (scope self) level "equal" ;;
  let errors := errors ++ e1 in
  x2 <- full_xpath self false (scope self) ;;
  e2 <- _testNamespace "scope" (Some x2) (scope self) level "greater" ;;
  let errors := errors ++ e2 in
  e3 <- _testNamespace "xpath" (xpath self) (xpath self) level "equal" ;;
  let errors := errors ++ e3 in
  x4 <- full_xpath self false (xpath self) ;;
  e4 <- _testNamespace "xpath" (Some x4) (xpath self) level "greater" ;;
  Ok (errors ++ e4).

(** Truth value of the [target] argument: [None] and the empty string
    are false. *)
Definition truthy (target : option string) : bool :=
  match target with
  | Some s => negb (String.eqb s EmptyString)
  | None => false
  end.

(** The opening [try] of [test]: what [xml] is bound to, or that parsing
    raised. *)
Inductive parsed : Type :=
| NotParsed
| Parsed (xml : Element)
| ParseFailed.

Definition parse_target (target : option string) : parsed :=
  match target with
  | Some s =>
      if truthy target
      then match ElementTree_parse s with
           | Ok x => Parsed x
           | Raise _ => ParseFailed
           end
      else NotParsed
  | None => NotParsed
  end.

(** The closing lines of [test]: an empty status becomes [[False]]. *)
Definition finish (status : list bool) (warnings : list ConsoleObject)
  : list bool * list ConsoleObject :=
  if length status =? 0 then ([false], warnings) else (status, warnings).

(** [test(target, level)]; the parsed tree is an [ElementTree] object,
    which is always true in a condition. *)
Fixpoint test (self : t) (target : option string) (level : nat) {struct self}
  : result (list bool * list ConsoleObject) :=
  let status := [] in
  let warnings := [] in
  match parse_target target with
  | ParseFailed =>
      if negb (strict self)
      then Ok (status ++ [false],
               warnings ++ [Error "Impossible to parse given element"])
      else Raise ValueError
  | NotParsed => Ok (finish status warnings)
  | Parsed xml =>
      xpath <- full_xpath self true None ;;
      let '(found, warnings) :=
        match ElementTree_findall xml xpath with
        | Ok l => (l, warnings)
        | Raise _ =>
            ([], warnings ++ [Error ("Unable to run xpath " ++ xpath)%string])
        end in
      '(status, warnings) <-
        (if 0 <? length found
         then Ok (status ++ [true], warnings)
         else w <- testNamespace self level ;; Ok (status ++ [false], w)) ;;
      '(status, warnings) <-
        match self with
        | Build _ _ _ _ _ _ (Some child) =>
            '(s, w) <- test child target (level + 1) ;;
            Ok (status ++ s, warnings ++ w)
        | Build _ _ _ _ _ _ None => Ok (status, warnings)
        end ;;
      Ok (finish status warnings)
  end.

End WithParser.

End Citation.

(** *** class Document *)

Module Document.

(** The object inside [<online/>].  [path] is stored as a string: the
    constructor raises in [os.path.basename] when it is [None]. *)
Record t : Type := Build {
  xml : Element;
  rewriting_rules : dict string string;
  strict : bool;
  db : option string;
  path : string;
  filename : string;
  validate : option string;
  namespaces : dict string string;
  citation : Citation.t
}.

Section WithParser.

Variable ElementTree_parse : string -> result Element.
Variable ElementTree_findall : Element -> string -> result (list Element).

(** [_retrieveNamespace()]: [abbreviation + ":"] maps to
    ["{" + nsURI + "}"]; the value is computed before the key. *)
Definition _retrieveNamespace (xml : Element) : result (dict string string) :=
  fold_left
    (fun acc namespace =>
       namespaces <- acc ;;
       uri <- add (Some "{"%string) (get namespace "nsURI") ;;
       value <- add (Some uri) (Some "}"%string) ;;
       key <- add (get namespace "abbreviation") (Some ":"%string) ;;
       Ok (dict_set String.eqb namespaces key value))
    (findall xml (ti "namespaceMapping")) (Ok []).

(** [_getFilePath()] *)
Definition _getFilePath (db : option string) (rewriting_rules : dict string string)
  : result (option string) :=
  replace_all_opt db rewriting_rules.

(** [os.path.basename(path)] of a value that may be [None], returned
    with the path it was computed from. *)
Definition basename_opt (p : option string) : result (string * string) :=
  match p with
  | Some s => Ok (s, basename s)
  | None => Raise TypeError
  end.

(** [Document(xml, rewriting_rules, strict)] *)
Definition __init__ (xml : xml_arg) (rewriting_rules : dict string string)
           (strict : bool) : result t :=
  self_xml <- match xml with
              | XElement e => Ok e
              | XStr s => ElementTree_parse s
              | XNone => Raise TypeError
              end ;;
  let db := get self_xml "docname" in
  path <- _getFilePath db rewriting_rules ;;
  '(path, filename) <- basename_opt path ;;
  validate <- match find self_xml (ti "validate") with
              | Some v => Ok (get v "schema")
              | None => Raise AttributeError
              end ;;
  namespaces <- _retrieveNamespace self_xml ;;
  citation_xml <- match find self_xml (ti "citationMapping") with
                  | Some m => Ok (of_find (find m (ti "citation")))
                  | None => Raise AttributeError
                  end ;;
  citation <- Citation.__init__ ElementTree_parse citation_xml namespaces strict ;;
  Ok (Build self_xml rewriting_rules strict db path filename
            validate namespaces citation).

(** [testCitation()].  The method declares no parameter besides [self]:
    a call that passes keyword arguments raises [TypeError] before the
    body runs.  [kwargs] are the keyword arguments of the call. *)
Definition testCitation (self : t) (kwargs : list (string * bool))
  : result (list bool * list ConsoleObject) :=
  match kwargs with
  | [] =>
      '(status, warnings) <-
        Citation.test ElementTree_parse ElementTree_findall
                      (citation self) (Some (path self)) 1 ;;
      Ok (status, warnings)
  | _ :: _ => Raise TypeError
  end.

(** [open(path, "r")] followed by [f.read()], of the Python library. *)
Variable read_file : string -> result string.

(** [getFile()]: the content of the file, or [None]; the second component
    is what the call prints. *)
Definition getFile (self : t) : result (option string * list ConsoleObject) :=
  match read_file (path self) with
  | Ok content => Ok (Some content, [])
  | Raise E =>
      if strict self
      then Raise E
      else Ok (None,
               [Error ("The file " ++ path self
                       ++ " does not exist or can't be opened")%string])
  end.

End WithParser.

End Document.

(** *** class Text, with its subclasses Edition and Translation *)

Module Text.

(** The two subclasses add nothing to [Text] but their class. *)
Inductive class : Type :=
| Edition
| Translation.

Definition class_eqb (a b : class) : bool :=
  match a, b with
  | Edition, Edition | Translation, Translation => true
  | _, _ => false
  end.

Definition titles_dict : Type := dict (option string) (option string).

Record t : Type := Build {
  cls : class;
  xml : Element;
  rewriting_rules : dict string string;
  strict : bool;
  id : option string;
  titles : titles_dict;
  document : Document.t
}.

(** The loop of [_retrieveTitles]: [titles[lang] = title.text] for every
    child carrying [tag_name], in document order. *)
Definition collect_titles (xml : Element) (tag_name : string) : titles_dict :=
  fold_left
    (fun titles title =>
       dict_set option_string_eqb titles (get title xml_lang) (text title))
    (findall xml tag_name) [].

Section WithParser.

Variable ElementTree_parse : string -> result Element.

(** [_retrieveTitles()]; the name [NoTitleException] is not bound in
    [texts.py], so the [raise] statement itself fails with [NameError]. *)
Definition _retrieveTitles (xml : Element) (strict : bool) : result titles_dict :=
  let titles := collect_titles xml (ti "label") in
  if strict && (length titles =? 0) then Raise NameError else Ok titles.

(** [Text(xml, rewriting_rules, strict)], reached through
    [Edition(...)] or [Translation(...)]; the Document is built with the
    default strictness. *)
Definition __init__ (cls : class) (xml : xml_arg)
           (rewriting_rules : dict string string) (strict : bool) : result t :=
  self_xml <- match xml with
              | XElement e => Ok e
              | XStr s => ElementTree_parse s
              | XNone => Raise TypeError
              end ;;
  id <- arg_get xml "projid" ;;
  titles <- _retrieveTitles self_xml strict ;;
  document <- Document.__init__ ElementTree_parse
                (of_find (find self_xml (ti "online"))) rewriting_rules false ;;
  Ok (Build cls self_xml rewriting_rules strict id titles document).

End WithParser.

(** [getTitle(lang)]; any failure inside the [try] becomes the [raise]
    of the handler, whose name is unbound in [texts.py]. *)
Definition getTitle (self : t) (lang : option string) : result (option string) :=
  match
    (defaulttitle <- first (dict_keys (titles self)) ;;
     default <- dict_getitem option_string_eqb (titles self) defaulttitle ;;
     Ok (dict_get option_string_eqb (titles self) lang default))
  with
  | Ok title => Ok title
  | Raise _ => Raise NameError
  end.

End Text.

(** ** [cts/xml/helpers.py] *)

Module Helpers.

Section WithParser.

Variable ElementTree_parse : string -> result Element.

(** Modelled from the spec: [cts/xml/helpers.py] is not among the sources.
    [xmlParsing] is the resolution step of a parseable source (a
    pre-parsed tree, or a string or path to parse) into one parsed tree;
    it is written as the constructors of [texts.py] write that step. *)
Definition xmlParsing (xml : xml_arg) : result Element :=
  match xml with
  | XElement e => Ok e
  | XStr s => ElementTree_parse s
  | XNone => Raise TypeError
  end.

End WithParser.

End Helpers.

(** ** [cts/xml/inventory.py] *)

(** *** class Work *)

Module Work.

Record t : Type := Build {
  strict : bool;
  rewriting_rules : dict string string;
  xml : Element;
  id : option string;
  titles : Text.titles_dict;
  editions : list Text.t;
  translations : list Text.t
}.

(** [getTexts()] *)
Definition getTexts (self : t) : list Text.t :=
  editions self ++ translations self.

(** [_retrieveTitles()]; here [NoTitleException] comes from
    [cts.xml.errors]. *)
Definition _retrieveTitles (xml : Element) (strict : bool)
  : result Text.titles_dict :=
  let titles := Text.collect_titles xml (ti "title") in
  if strict && (length titles =? 0) then Raise NoTitleException else Ok titles.

(** The body of the [try] in [getTitle]. *)
Definition getTitle_body (self : t) (lang : option string)
  : result (option string) :=
  let keysList := dict_keys (titles self) in
  defaulttitle <-
    (if mem option_string_eqb (Some "en"%string) keysList then Ok (Some "en"%string)
     else if mem option_string_eqb (Some "eng"%string) keysList
          then Ok (Some "eng"%string)
          else first (dict_keys (titles self))) ;;
  default <- dict_getitem option_string_eqb (titles self) defaulttitle ;;
  Ok (dict_get option_string_eqb (titles self) lang default).

(** [getTitle(lang)]: whatever the body raises is replaced by
    [NoTitleException]. *)
Definition getTitle (self : t) (lang : option string) : result (option string) :=
  match getTitle_body self lang with
  | Ok title => Ok title
  | Raise _ => Raise NoTitleException
  end.

Section WithParser.

Variable ElementTree_parse : string -> result Element.

(** [_retrieveEditions()]: every edition is built with [strict=False]. *)
Definition _retrieveEditions (xml : Element) (rewriting_rules : dict string string)
  : result (list Text.t) :=
  mapM (fun edition =>
          Text.__init__ ElementTree_parse Text.Edition (XElement edition)
                        rewriting_rules false)
       (findall xml (ti "edition")).

(** [_retrieveTranslations()] *)
Definition _retrieveTranslations (xml : Element)
           (rewriting_rules : dict string string) : result (list Text.t) :=
  mapM (fun translation =>
          Text.__init__ ElementTree_parse Text.Translation (XElement translation)
                        rewriting_rules false)
       (findall xml (ti "translation")).

(** [Work(xml, rewriting_rules, strict)] *)
Definition __init__ (xml : xml_arg) (rewriting_rules : dict string string)
           (strict : bool) : result t :=
  self_xml <- Helpers.xmlParsing ElementTree_parse xml ;;
  id <- arg_get xml "projid" ;;
  titles <- _retrieveTitles self_xml strict ;;
  editions <- _retrieveEditions self_xml rewriting_rules ;;
  translations <- _retrieveTranslations self_xml rewriting_rules ;;
  Ok (Build strict rewriting_rules self_xml id titles editions translations).

End WithParser.

End Work.

(** *** class TextGroup *)

Module TextGroup.

Record t : Type := Build {
  strict : bool;
  rewriting_rules : dict string string;
  xml : Element;
  id : option string;
  name : option string;
  works : list Work.t
}.

Definition getId (self : t) : option string := id self.

Definition getName (self : t) : option string := name self.

Section WithParser.

Variable ElementTree_parse : string -> result Element.

(** [_retrieveWorks()]: [strict] is not passed, so every Work takes the
    default. *)
Definition _retrieveWorks (xml : Element) (rewriting_rules : dict string string)
  : result (list Work.t) :=
  mapM (fun work =>
          Work.__init__ ElementTree_parse (XElement work) rewriting_rules false)
       (findall xml (ti "work")).

(** [TextGroup(xml, rewriting_rules, strict)] *)
Definition __init__ (xml : xml_arg) (rewriting_rules : dict string string)
           (strict : bool) : result t :=
  self_xml <- Helpers.xmlParsing ElementTree_parse xml ;;
  id <- arg_get xml "projid" ;;
  name <- match find self_xml (ti "groupname") with
          | Some g => Ok (text g)
          | None => Raise AttributeError
          end ;;
  works <- _retrieveWorks self_xml rewriting_rules ;;
  Ok (Build strict rewriting_rules self_xml id name works).

End WithParser.

End TextGroup.

(** *** class Inventory *)

Module Inventory.

Record t : Type := Build {
  strict : bool;
  rewriting_rules : dict string string;
  path : option string;
  xml : Element;
  textGroups : list TextGroup.t
}.

(** [getTexts(instanceOf)] *)
Definition getTexts (self : t) (instanceOf : list Text.class) : list Text.t :=
  flat_map
    (fun textgroup =>
       flat_map
         (fun work =>
            (if mem Text.class_eqb Text.Edition instanceOf
             then Work.editions work else [])
            ++ (if mem Text.class_eqb Text.Translation instanceOf
                then Work.translations work else []))
         (TextGroup.works textgroup))
    (textGroups self).

(** The default of [instanceOf]. *)
Definition instanceOf_default : list Text.class :=
  [Text.Edition; Text.Translation].

Section WithParser.

Variable ElementTree_parse : string -> result Element.
Variable ElementTree_findall : Element -> string -> result (list Element).
(** [os.path.exists] on a string. *)
Variable os_path_exists : string -> bool.

(** [_retrieveTextGroup()]: [strict] is not passed, so every TextGroup
    takes the default. *)
Definition _retrieveTextGroup (xml : Element) (rewriting_rules : dict string string)
  : result (list TextGroup.t) :=
  mapM (fun group =>
          TextGroup.__init__ ElementTree_parse (XElement group)
                             rewriting_rules false)
       (findall xml (ti "textgroup")).

(** [Inventory(xml, rewriting_rules, strict)]; [os.path.exists] accepts
    a string and raises [TypeError] on an element or on [None]. *)
Definition __init__ (xml : xml_arg) (rewriting_rules : dict string string)
           (strict : bool) : result t :=
  path <- match xml with
          | XStr s => Ok (if os_path_exists s then Some s else None)
          | XElement _ | XNone => Raise TypeError
          end ;;
  self_xml <- Helpers.xmlParsing ElementTree_parse xml ;;
  textGroups <- _retrieveTextGroup self_xml rewriting_rules ;;
  Ok (Build strict rewriting_rules path self_xml textGroups).

(** [testTextsCitation(ignore_replication)]: each call of
    [testCitation] passes the keyword argument [ignore_replication]. *)
Definition testTextsCitation (self : t) (ignore_replication : bool)
  : result (list (string * (list bool * list ConsoleObject))) :=
  let docs := getTexts self instanceOf_default in
  mapM (fun doc =>
          r <- Document.testCitation ElementTree_parse ElementTree_findall
                 (Text.document doc)
                 [("ignore_replication"%string, ignore_replication)] ;;
          Ok (Document.filename (Text.document doc), r))
       docs.

End WithParser.

End Inventory.

(** ** [cts/db.py] *)

(** *** class Credential *)

Module Credential.

(** A Python value as [from_dic] sees it: [None], a string ([str] or
    [unicode]), or an object of another type. *)
Inductive value : Type :=
| VNone
| VStr (s : string)
| VOther.

Record t : Type := Build {
  name : value;
  password : value
}.

(** [Credential(name, password)], with the defaults ["admin"] and [None]. *)
Definition __init__ (name password : option value) : t :=
  Build (match name with Some v => v | None => VStr "admin" end)
        (match password with Some v => v | None => VNone end).

Section WithBuiltins.

(** Whether the name [unicode] is bound: it is a builtin of Python 2 and
    is not one of Python 3. *)
Variable unicode_bound : bool.

(** [isinstance(v, (str, unicode))]: building the tuple of types fails
    when [unicode] is not bound. *)
Definition is_string (v : value) : result bool :=
  if unicode_bound
  then Ok (match v with VStr _ => true | VNone | VOther => false end)
  else Raise NameError.

(** [len(v)] *)
Definition len (v : value) : result nat :=
  match v with
  | VStr s => Ok (String.length s)
  | VNone | VOther => Raise TypeError
  end.

(** [from_dic(data)]: the updated credential and the returned tuple. *)
Definition from_dic (self : t) (data : dict string value)
  : result (t * (value * value)) :=
  self <-
    (match dict_lookup String.eqb data "name" with
     | Some v =>
         b <- is_string v ;;
         Ok (if b then Build v (password self) else self)
     | None => Ok self
     end) ;;
  self <-
    (match dict_lookup String.eqb data "password" with
     | Some v =>
         b <- is_string v ;;
         if b
         then n <- len v ;;
              Ok (if n =? 0 then Build (name self) VNone
                  else Build (name self) v)
         else Ok self
     | None => Ok self
     end) ;;
  Ok (self, (name self, password self)).

End WithBuiltins.

End Credential.

(** *** class DB *)

Module DB.

(** [_version_tuple(version)]: the parts between dots that are digits, as
    integers. *)
Definition _version_tuple (version : string) : result (list nat) :=
  mapM int (filter isdigit (split "."%char version)).

Section WithFile.

(** Modelled from the spec: [cts/files.py] is not among the sources.  A
    [File] is the resource of the acquisition layer; the database reads
    its [directory], and building it from a source, a target and a method
    may fail. *)
Variable File : Type.
Variable File_new : string -> string -> string -> result File.
Variable File_directory : File -> option string.
(** The type of the [user] argument. *)
Variable User : Type.

Record t : Type := Build {
  port : Z;
  software : string;
  version : list nat;
  method : string;
  path : string;
  (** [None] when the attribute is not set. *)
  user : option User;
  file : File;
  directory : option string;
  data_dir : string
}.

(** [_feed_file_instance(method, path, target)] *)
Definition _feed_file_instance (method path target : string) : result File :=
  File_new path target method.

(** [set_directory(directory)] on the fields it reads and writes: the
    new value of [self.directory], which is also returned. *)
Definition set_directory (file : File) (directory : option string)
  : option string :=
  match directory with
  | Some d => Some d
  | None => File_directory file
  end.

(** [set_port(port)]: the updated object and the returned port. *)
Definition set_port (self : t) (port : Z) : t * Z :=
  (Build port (software self) (version self) (method self) (path self)
         (user self) (file self) (directory self) (data_dir self),
   port).

(** [DB(software, version, method, path, data_dir, target, user, port)];
    [user] is [Some] for an argument that is true in a condition. *)
Definition __init__ (software version method path : string)
           (data_dir : option string) (target : string) (user : option User)
           (port : Z) : result t :=
  version <- _version_tuple version ;;
  file <- _feed_file_instance method path target ;;
  let directory := set_directory file None in
  default_data_dir <- add directory (Some "/data"%string) ;;
  let data_dir := match data_dir with
                  | Some d => d
                  | None => default_data_dir
                  end in
  Ok (Build port software version method path user file directory data_dir).

End WithFile.

End DB.

(** ** [cts/software/baseX.py] *)

Module BaseX.

Section WithFile.

Variable File : Type.
Variable File_new : string -> string -> string -> result File.
Variable File_directory : File -> option string.
Variable User : Type.

(** [BaseX(software, version, method, path, data_dir, target, user,
    port)]: the call of the parent constructor writes [port=8080]. *)
Definition __init__ (software version method path : string)
           (data_dir : option string) (target : string) (user : option User)
           (port : Z) : result (DB.t File User) :=
  DB.__init__ File_new File_directory software version method path
              data_dir target user 8080%Z.

End WithFile.

End BaseX.

(** ** Vocabulary of the statements *)

(** Structural induction over elements, with the hypothesis on every
    child. *)
Section ElementInduction.

Variable P : Element -> Prop.
Hypothesis step : forall tg at_ tx ch,
    Forall P ch -> P (mkElement tg at_ tx ch).

Fixpoint Element_induction (e : Element) : P e :=
  match e with
  | mkElement tg at_ tx ch =>
      step tg at_ tx
        ((fix children_ok (l : list Element) : Forall P l :=
            match l with
            | [] => Forall_nil P
            | c :: l' => Forall_cons c (Element_induction c) (children_ok l')
            end) ch)
  end.

End ElementInduction.

(** Induction along a citation chain, with the hypothesis on the child
    level when there is one. *)
Section CitationInduction.

Variable P : Citation.t -> Prop.
Hypothesis step : forall x l xp sc ns st child,
    match child with
    | Some c => P c
    | None => True
    end ->
    P (Citation.Build x l xp sc ns st child).

Fixpoint Citation_induction (c : Citation.t) : P c :=
  match c with
  | Citation.Build x l xp sc ns st child =>
      step x l xp sc ns st child
        (match child return match child with Some c => P c | None => True end with
         | Some c' => Citation_induction c'
         | None => I
         end)
  end.

End CitationInduction.

Module Levels.

(** The levels of a citation chain, outermost first. *)
Fixpoint chain (c : Citation.t) : list Citation.t :=
  match c with
  | Citation.Build _ _ _ _ _ _ None => [c]
  | Citation.Build _ _ _ _ _ _ (Some ch) => c :: chain ch
  end.

Definition is_some {A : Type} (o : option A) : bool :=
  match o with
  | Some _ => true
  | None => false
  end.

(** The level carries both of the attributes [full_xpath] concatenates. *)
Definition declares_paths (c : Citation.t) : bool :=
  is_some (Citation.xpath c) && is_some (Citation.scope c).

(** Every level of the chain declares [xpath] and [scope]. *)
Definition declared (c : Citation.t) : Prop :=
  forallb declares_paths (chain c) = true.

(** Every level of the chain carries the strictness flag [s]. *)
Definition strictness (s : bool) (c : Citation.t) : Prop :=
  Forall (fun l => Citation.strict l = s) (chain c).

(** A diagnostic of [testNamespace] names the attribute it is about. *)
Definition names_attribute (e : ConsoleObject) : Prop :=
  exists rest,
    e = Error ("scope's attribute for Citation Level " ++ rest)%string
    \/ e = Error ("xpath's attribute for Citation Level " ++ rest)%string.

Section WithParser.

Variable ElementTree_findall : Element -> string -> result (list Element).

(** What one level records for a parsed document: whether its path
    expression has at least one match. *)
Definition level_status (xml : Element) (c : Citation.t) : bool :=
  match Citation.full_xpath c true None with
  | Ok xpath =>
      match ElementTree_findall xml xpath with
      | Ok found => 0 <? length found
      | Raise _ => false
      end
  | Raise _ => false
  end.

End WithParser.

End Levels.

Module Titles.

(** The default title in the words of the specification: the title under
    ["en"] if there is one, else the one under ["eng"], else the first
    title of the mapping. *)
Definition default_title (titles : Text.titles_dict) : option (option string) :=
  match dict_lookup option_string_eqb titles (Some "en"%string) with
  | Some title => Some title
  | None =>
      match dict_lookup option_string_eqb titles (Some "eng"%string) with
      | Some title => Some title
      | None =>
          match titles with
          | (_, title) :: _ => Some title
          | [] => None
          end
      end
  end.

(** The titles gathered from a list of title elements, starting from
    the mapping [d]: the loop of [_retrieveTitles]. *)
Definition gather (l : list Element) (d : Text.titles_dict) : Text.titles_dict :=
  fold_left
    (fun titles title =>
       dict_set option_string_eqb titles (get title xml_lang) (text title))
    l d.

End Titles.

Module Rewrite.

(** Literal replacement of a non-empty [old] by [new], read left to
    right: where [old] stands, [new] is written and reading resumes after
    it; any other character is copied. *)
Inductive literal (old new : string) : string -> string -> Prop :=
| literal_end : literal old new EmptyString EmptyString
| literal_hit : forall rest out,
    literal old new rest out ->
    literal old new (old ++ rest)%string (new ++ out)%string
| literal_copy : forall c rest out,
    String.prefix old (String c rest) = false ->
    literal old new rest out ->
    literal old new (String c rest) (String c out).

(** Replacement of the empty string, which stands before every character
    and at the end: [new] is written at each of these places. *)
Inductive inserted (new : string) : string -> string -> Prop :=
| inserted_end : inserted new EmptyString new
| inserted_step : forall c rest out,
    inserted new rest out ->
    inserted new (String c rest) (new ++ String c out)%string.

(** One rule applied to [s]: the replacement of its key, empty or not. *)
Definition replaced (old new s out : string) : Prop :=
  match old with
  | EmptyString => inserted new s out
  | String _ _ => literal old new s out
  end.

(** The rules applied in order, each as a literal replacement. *)
Inductive rewritten : dict string string -> string -> string -> Prop :=
| rewritten_nil : forall s, rewritten [] s s
| rewritten_cons : forall old new rules s s' out,
    replaced old new s s' ->
    rewritten rules s' out ->
    rewritten ((old, new) :: rules) s out.

(** No rule key occurs in [s]. *)
Definition no_key_occurs (rules : dict string string) (s : string) : Prop :=
  forall old new, In (old, new) rules -> contains old s = false.

End Rewrite.

Module Strictness.

(** A text, its Document and every level of its citation scheme carry
    strict=False. *)
Definition text_lenient (t : Text.t) : Prop :=
  Text.strict t = false
  /\ Document.strict (Text.document t) = false
  /\ Levels.strictness false (Document.citation (Text.document t)).

(** A Work and everything below it carry strict=False. *)
Definition work_lenient (w : Work.t) : Prop :=
  Work.strict w = false
  /\ Forall text_lenient (Work.editions w)
  /\ Forall text_lenient (Work.translations w).

(** A TextGroup and everything below it carry strict=False. *)
Definition textgroup_lenient (g : TextGroup.t) : Prop :=
  TextGroup.strict g = false
  /\ Forall work_lenient (TextGroup.works g).

End Strictness.

(** ** Example data: a one-text inventory with a two-level scheme *)

Module Sample.

Definition tei_namespaces : dict string string :=
  [("tei:", "{http://www.tei-c.org/ns/1.0}")].

Definition line_citation : Element :=
  mkElement (ti "citation")
    [("label", "line"); ("xpath", "/tei:l[@n='?']");
     ("scope", "/tei:TEI/tei:text/tei:body/tei:div[@n='?']")]
    None [].

Definition book_citation : Element :=
  mkElement (ti "citation")
    [("label", "book"); ("xpath", "/tei:div[@n='?']");
     ("scope", "/tei:TEI/tei:text/tei:body")]
    None [line_citation].

(** A citation element that declares a label only. *)
Definition bare_citation : Element :=
  mkElement (ti "citation") [("label", "book")] None [].

Definition online : Element :=
  mkElement (ti "online") [("docname", "urn:cts:greekLit:tlg0012.tlg001")] None
    [mkElement (ti "validate") [("schema", "tei.rng")] None [];
     mkElement (ti "namespaceMapping")
       [("abbreviation", "tei"); ("nsURI", "http://www.tei-c.org/ns/1.0")] None [];
     mkElement (ti "citationMapping") [] None [book_citation]].

Definition edition : Element :=
  mkElement (ti "edition") [("projid", "greekLit:perseus-grc1")] None
    [mkElement (ti "label") [(xml_lang, "en")] (Some "Iliad (Greek)") []; online].

Definition title (lang : option string) (value : string) : Element :=
  mkElement (ti "title")
    (match lang with Some l => [(xml_lang, l)] | None => [] end)
    (Some value) [].

Definition work : Element :=
  mkElement (ti "work") [("projid", "greekLit:tlg001")] None
    [title (Some "en") "A"; title (Some "fr") "B"; edition].

(** The same work without any [title] child and without texts. *)
Definition untitled_work : Element :=
  mkElement (ti "work") [("projid", "greekLit:tlg002")] None [].

(** A work whose second title carries no [xml:lang]. *)
Definition work_with_bare_title : Element :=
  mkElement (ti "work") [("projid", "greekLit:tlg003")] None
    [title (Some "en") "A"; title None "X"].

Definition textgroup : Element :=
  mkElement (ti "textgroup") [("projid", "greekLit:tlg0012")] None
    [mkElement (ti "groupname") [] (Some "Homer") []; work].

Definition inventory : Element :=
  mkElement (ti "TextInventory") [] None [textgroup].

Definition rules : dict string string :=
  [("urn:cts:greekLit:", "/data/greek/")].

Definition tei_document : Element :=
  mkElement "{http://www.tei-c.org/ns/1.0}TEI" [] None [].

(** A file system with the inventory and the one document it names. *)
Definition parse (path : string) : result Element :=
  if String.eqb path "inventory.xml" then Ok inventory
  else if String.eqb path "/data/greek/tlg0012.tlg001" then Ok tei_document
  else Raise IOError.

Definition exists_ (path : string) : bool :=
  String.eqb path "inventory.xml".

(** Path engines: every expression matches once, none matches, every
    evaluation fails. *)
Definition findall_one (xml : Element) (xpath : string) : result (list Element) :=
  Ok [xml].

Definition findall_none (xml : Element) (xpath : string) : result (list Element) :=
  Ok [].

Definition findall_fails (xml : Element) (xpath : string) : result (list Element) :=
  Raise KeyError.

End Sample.

(** ** Vocabulary of the further properties *)

Module Paths.

(** No character of [s] is [sep]. *)
Definition free_of (sep : ascii) (s : string) : Prop :=
  all_chars (fun c => negb (Ascii.eqb c sep)) s = true.

(** [s] is empty or ends with [sep]. *)
Definition closed_by (sep : ascii) (s : string) : Prop :=
  s = EmptyString \/ exists s', s = (s' ++ String sep EmptyString)%string.

End Paths.

Module Namespaces.

(** A [namespaceMapping] element carries both of its attributes. *)
Definition complete (m : Element) : bool :=
  Levels.is_some (get m "abbreviation") && Levels.is_some (get m "nsURI").

(** One round of the loop of [_retrieveNamespace]. *)
Definition step (acc : result (dict string string)) (namespace : Element)
  : result (dict string string) :=
  namespaces <- acc ;;
  uri <- add (Some "{"%string) (get namespace "nsURI") ;;
  value <- add (Some uri) (Some "}"%string) ;;
  key <- add (get namespace "abbreviation") (Some ":"%string) ;;
  Ok (dict_set String.eqb namespaces key value).

(** The table entry of a complete mapping element. *)
Definition key_of (m : Element) : string :=
  (str (get m "abbreviation") ++ ":")%string.

Definition value_of (m : Element) : string :=
  ("{" ++ str (get m "nsURI") ++ "}")%string.

(** The table built from complete mapping elements, starting from [d]. *)
Definition table (l : list Element) (d : dict string string) : dict string string :=
  fold_left (fun d m => dict_set String.eqb d (key_of m) (value_of m)) l d.


End Namespaces.

Module Chain.

(** A level is what the constructor reads from its own element: the three
    attributes, the given namespace table and strictness, and as child the
    level built from the first [citation] child element. *)
Definition read_from_element (namespaces : dict string string) (strict : bool)
           (l : Citation.t) : Prop :=
  Citation.namespaces l = namespaces
  /\ Citation.strict l = strict
  /\ Citation.label l = get (Citation.xml l) "label"
  /\ Citation.xpath l = get (Citation.xml l) "xpath"
  /\ Citation.scope l = get (Citation.xml l) "scope"
  /\ Citation.children l
     = option_map (Citation.of_element namespaces strict)
                  (find (Citation.xml l) (ti "citation")).

End Chain.

Module Built.

Section WithParser.

Variable ElementTree_parse : string -> result Element.
Variable rules : dict string string.

(** [t] is the text that a Work builds from one of its child elements. *)
Definition text (cls : Text.class) (t : Text.t) : Prop :=
  exists x,
    Text.__init__ ElementTree_parse cls (XElement x) rules false = Ok t.

(** [w] is the Work that a TextGroup builds from one of its child
    elements. *)
Definition work (w : Work.t) : Prop :=
  exists x, Work.__init__ ElementTree_parse (XElement x) rules false = Ok w.

(** [g] is the TextGroup that an Inventory builds from one of its child
    elements. *)
Definition group (g : TextGroup.t) : Prop :=
  exists x, TextGroup.__init__ ElementTree_parse (XElement x) rules false = Ok g.

End WithParser.

End Built.

(** The class test of [getTexts] on one text. *)
Definition instance_of (instanceOf : list Text.class) (t : Text.t) : bool :=
  mem Text.class_eqb (Text.cls t) instanceOf.

(** Example data of the further properties. *)
Module Fixture.

(** A file system in which only the sample document can be read. *)
Definition read_file (path : string) : result string :=
  if String.eqb path "/data/greek/tlg0012.tlg001" then Ok "<TEI/>"%string
  else Raise IOError.

(** A work with an edition and a translation of the same document. *)
Definition translation : Element :=
  mkElement (ti "translation") [("projid", "greekLit:perseus-eng1")] None
    [mkElement (ti "label") [(xml_lang, "fr")] (Some "Iliade") [];
     mkElement (ti "label") [(xml_lang, "en")] (Some "Iliad") [];
     Sample.online].

Definition work : Element :=
  mkElement (ti "work") [("projid", "greekLit:tlg001")] None
    [Sample.title (Some "en") "A"; translation; Sample.edition].

Definition inventory : Element :=
  mkElement (ti "TextInventory") [] None
    [mkElement (ti "textgroup") [("projid", "greekLit:tlg0012")] None
       [mkElement (ti "groupname") [] (Some "Homer") []; work]].

Definition parse (path : string) : result Element :=
  if String.eqb path "inventory.xml" then Ok inventory
  else Sample.parse path.

End Fixture.

Module Shortcut.

(** [s] contains a letter or digit immediately followed by a colon. *)
Definition occurs (s : string) : Prop :=
  exists a c b,
    s = (a ++ String c (String ":" b))%string /\ Regex.alnum c = true.

(** [m] is a non-empty run of letters and digits followed by a colon. *)
Definition token (m : string) : Prop :=
  exists run,
    m = (run ++ ":")%string
    /\ run <> EmptyString
    /\ all_chars Regex.alnum run = true.

(** The diagnostics of [_testNamespace] for the attribute [name]. *)
Definition none_found (name : string) (level : nat) (original : string)
  : ConsoleObject :=
  Error (name ++ "'s attribute for Citation Level " ++ str_of_nat level
         ++ " has no namespaces shortcuts like 'tei:' ("
         ++ original ++ ")")%string.

Definition unbound (name : string) (level : nat) (original : string)
  : ConsoleObject :=
  Error (name ++ "'s attribute for Citation Level " ++ str_of_nat level
         ++ " has namespaces shortcuts with no bindings ("
         ++ original ++ ")")%string.

End Shortcut.

Module Ascii7.

(** Every character of [s] is a code point below 128. *)
Definition only (s : string) : Prop :=
  all_chars (fun c => nat_of_ascii c <? 128) s = true.

End Ascii7.

Module Store.

(** A file resource that is deployed under its target directory. *)
Definition new (source target method : string) : result string :=
  if String.eqb method "local" then Ok (target ++ "basex")%string
  else Raise IOError.

Definition directory (file : string) : option string := Some file.

End Store.

(** * Properties *)

Unset Implicit Arguments.

(** ** Results and dictionaries *)

Lemma bind_Ok_inv (A B : Type) (m : result A) (k : A -> result B) (b : B) :
  bind m k = Ok b -> exists a, m = Ok a /\ k a = Ok b.
Proof.
  destruct m as [a|e]; simpl; intros H; [exists a; auto | discriminate].
Qed.

Lemma mapM_Forall (A B : Type) (f : A -> result B) (P : B -> Prop) :
  (forall x y, f x = Ok y -> P y) ->
  forall l ys, mapM f l = Ok ys -> Forall P ys.
Proof.
  intros Hf l; induction l as [|x l IH]; simpl; intros ys H.
  - injection H as <-. constructor.
  - apply bind_Ok_inv in H as (y & Hy & H).
    apply bind_Ok_inv in H as (ys' & Hys & H).
    injection H as <-. constructor; eauto.
Qed.

Lemma option_string_eqb_eq (a b : option string) :
  option_string_eqb a b = true <-> a = b.
Proof.
  destruct a as [x|], b as [y|]; simpl; split; intros H;
    try discriminate; try reflexivity.
  - apply String.eqb_eq in H. now subst.
  - injection H as ->. apply String.eqb_refl.
Qed.

Lemma option_string_eqb_refl (a : option string) : option_string_eqb a a = true.
Proof. now apply option_string_eqb_eq. Qed.

Lemma option_string_eqb_neq (a b : option string) :
  option_string_eqb a b = false <-> a <> b.
Proof.
  rewrite <- option_string_eqb_eq. destruct (option_string_eqb a b); split;
    congruence.
Qed.

Section TitleDict.

Local Abbreviation lookup := (dict_lookup option_string_eqb (V := option string)).
Local Abbreviation set := (dict_set option_string_eqb (V := option string)).
Local Abbreviation gather := Titles.gather.

Lemma mem_keys_lookup (d : Text.titles_dict) (k : option string) :
  mem option_string_eqb k (dict_keys d) = Levels.is_some (lookup d k).
Proof.
  induction d as [|[k' v] d IH]; simpl; [reflexivity|].
  destruct (option_string_eqb k' k); simpl; [reflexivity | exact IH].
Qed.

Lemma lookup_set_same (d : Text.titles_dict) k v :
  lookup (set d k v) k = Some v.
Proof.
  induction d as [|[k' v'] d IH]; simpl.
  - now rewrite option_string_eqb_refl.
  - destruct (option_string_eqb k' k) eqn:E; simpl; rewrite E; auto.
Qed.

Lemma lookup_set_other (d : Text.titles_dict) k v k' :
  k <> k' -> lookup (set d k v) k' = lookup d k'.
Proof.
  intros Hne. induction d as [|[k0 v0] d IH]; simpl.
  - apply option_string_eqb_neq in Hne. now rewrite Hne.
  - destruct (option_string_eqb k0 k) eqn:E; simpl.
    + apply option_string_eqb_eq in E. subst k0.
      apply option_string_eqb_neq in Hne. now rewrite Hne.
    + destruct (option_string_eqb k0 k'); auto.
Qed.

Lemma set_not_nil (d : Text.titles_dict) k v : set d k v <> [].
Proof.
  destruct d as [|[k' v'] d]; simpl; [discriminate|].
  destruct (option_string_eqb k' k); discriminate.
Qed.

Lemma gather_not_nil l d : d <> [] -> gather l d <> [].
Proof.
  revert d; induction l as [|x l IH]; simpl; intros d H; [exact H|].
  apply IH, set_not_nil.
Qed.

Lemma gather_nil_inv l : gather l [] = [] -> l = [].
Proof.
  destruct l as [|x l]; [reflexivity|].
  intros H. exfalso.
  exact (gather_not_nil l _ (set_not_nil [] (get x xml_lang) (text x)) H).
Qed.

Lemma gather_lookup_other l d k :
  Forall (fun title => get title xml_lang <> k) l ->
  lookup (gather l d) k = lookup d k.
Proof.
  revert d; induction l as [|x l IH]; simpl; intros d H; [reflexivity|].
  inversion H as [|? ? Hx Hl]; subst.
  rewrite IH by exact Hl.
  now apply lookup_set_other.
Qed.

Lemma gather_lookup_last before title after d :
  Forall (fun t => get t xml_lang <> get title xml_lang) after ->
  lookup (gather (before ++ title :: after) d) (get title xml_lang)
  = Some (text title).
Proof.
  intros H. unfold Titles.gather. rewrite fold_left_app. simpl.
  fold (gather before d).
  fold (gather after (set (gather before d) (get title xml_lang) (text title))).
  rewrite gather_lookup_other by exact H.
  apply lookup_set_same.
Qed.

Lemma collect_titles_gather xml name :
  Text.collect_titles xml name = gather (findall xml name) [].
Proof. reflexivity. Qed.

End TitleDict.

(** ** Work titles *)

Section WorkTitles.

Local Abbreviation lookup := (dict_lookup option_string_eqb (V := option string)).

Lemma lookup_first_key (d : Text.titles_dict) k v rest :
  d = (k, v) :: rest -> lookup d k = Some v.
Proof. intros ->. simpl. now rewrite option_string_eqb_refl. Qed.

(** The default chosen by the code is the default of the specification,
    and the body of [getTitle] returns [titles.get(lang, default)]. *)
Lemma getTitle_body_default (w : Work.t) (lang : option string) :
  Work.titles w <> [] ->
  exists default,
    Titles.default_title (Work.titles w) = Some default
    /\ Work.getTitle_body w lang
       = Ok (dict_get option_string_eqb (Work.titles w) lang default).
Proof.
  intros Hne. unfold Work.getTitle_body, Titles.default_title.
  rewrite !mem_keys_lookup.
  destruct (lookup (Work.titles w) (Some "en"%string)) as [a|] eqn:Een; simpl.
  - exists a. unfold dict_getitem. rewrite Een. simpl. auto.
  - destruct (lookup (Work.titles w) (Some "eng"%string)) as [b|] eqn:Eeng; simpl.
    + exists b. unfold dict_getitem. rewrite Eeng. simpl. auto.
    + destruct (Work.titles w) as [|[k v] rest] eqn:Et; [congruence|].
      exists v. simpl. unfold dict_getitem.
      rewrite (lookup_first_key _ k v rest) by reflexivity.
      simpl. auto.
Qed.

Lemma getTitle_empty (w : Work.t) (lang : option string) :
  Work.titles w = [] -> Work.getTitle w lang = Raise NoTitleException.
Proof.
  intros H. unfold Work.getTitle, Work.getTitle_body. rewrite H. reflexivity.
Qed.

Lemma Work_init_inv parse e rules strict w :
  Work.__init__ parse (XElement e) rules strict = Ok w ->
  Work.titles w = Titles.gather (findall e (ti "title")) []
  /\ Work.strict w = strict.
Proof.
  unfold Work.__init__. simpl. unfold Work._retrieveTitles.
  rewrite collect_titles_gather.
  destruct (strict && _); simpl; [discriminate|].
  intros H.
  apply bind_Ok_inv in H as (eds & _ & H).
  apply bind_Ok_inv in H as (trs & _ & H).
  injection H as <-. simpl. auto.
Qed.

(** The first key of the mapping is the language of the first title
    element, and it holds that element's text unless a later title
    repeats the language. *)
Lemma gather_head t0 rest :
  exists v others,
    Titles.gather (t0 :: rest) [] = (get t0 xml_lang, v) :: others
    /\ (Forall (fun t => get t xml_lang <> get t0 xml_lang) rest -> v = text t0).
Proof.
  assert (G : forall l k v d,
             exists v' others,
               Titles.gather l ((k, v) :: d) = (k, v') :: others
               /\ (Forall (fun t => get t xml_lang <> k) l -> v' = v)).
  { induction l as [|x l IH]; intros k v d.
    - exists v, d. simpl. auto.
    - simpl. destruct (option_string_eqb k (get x xml_lang)) eqn:E.
      + destruct (IH k (text x) d) as (v' & others & Hg & _).
        exists v', others. split; [exact Hg|].
        intros HF. inversion HF as [|? ? Hx _]; subst.
        apply option_string_eqb_eq in E. congruence.
      + destruct (IH k v (dict_set option_string_eqb d (get x xml_lang) (text x)))
          as (v' & others & Hg & Hv).
        exists v', others. split; [exact Hg|].
        intros HF. inversion HF; subst. auto. }
  exact (G rest (get t0 xml_lang) (text t0) []).
Qed.

End WorkTitles.

(** C7.  For every Work whose title mapping is non-empty, [getTitle(lang)]
    returns the title stored under [lang] when [lang] is a key of the
    mapping; otherwise it returns the default title: the ["en"] title if
    present, else the ["eng"] title if present, else the first title in
    document order (the first entry of the mapping, whose key is the
    language of the first title element of a Work built from XML and whose
    value is that element's text when no later title repeats the
    language).  For titles [{"en": "A", "fr": "B"}], [getTitle("fr")] is
    ["B"], [getTitle("de")] is ["A"] and [getTitle()] is ["A"]. *)
Theorem Work_getTitle_resolution (w : Work.t) (Hne : Work.titles w <> []) :
  (forall lang title,
      dict_lookup option_string_eqb (Work.titles w) lang = Some title ->
      Work.getTitle w lang = Ok title)
  /\ (forall lang,
         dict_lookup option_string_eqb (Work.titles w) lang = None ->
         exists title,
           Titles.default_title (Work.titles w) = Some title
           /\ Work.getTitle w lang = Ok title)
  /\ (forall parse e rules strict t0 rest,
         Work.__init__ parse (XElement e) rules strict = Ok w ->
         findall e (ti "title") = t0 :: rest ->
         exists title others,
           Work.titles w = (get t0 xml_lang, title) :: others
           /\ (Forall (fun t => get t xml_lang <> get t0 xml_lang) rest ->
               title = text t0))
  /\ (Work.titles w = [(Some "en", Some "A"); (Some "fr", Some "B")] ->
      Work.getTitle w (Some "fr") = Ok (Some "B")
      /\ Work.getTitle w (Some "de") = Ok (Some "A")
      /\ Work.getTitle w None = Ok (Some "A")).
Proof.
  repeat split.
  - intros lang title Hl.
    destruct (getTitle_body_default w lang Hne) as (d & _ & Hb).
    unfold Work.getTitle. rewrite Hb. unfold dict_get. now rewrite Hl.
  - intros lang Hl.
    destruct (getTitle_body_default w lang Hne) as (d & Hd & Hb).
    exists d. split; [exact Hd|].
    unfold Work.getTitle. rewrite Hb. unfold dict_get. now rewrite Hl.
  - intros parse e rules strict t0 rest Hinit Hdoc.
    apply Work_init_inv in Hinit as [Ht _]. rewrite Ht, Hdoc.
    apply gather_head.
  - unfold Work.getTitle, Work.getTitle_body. rewrite H. reflexivity.
  - unfold Work.getTitle, Work.getTitle_body. rewrite H. reflexivity.
  - unfold Work.getTitle, Work.getTitle_body. rewrite H. reflexivity.
Qed.

Lemma Work_getTitle_resolution_witness :
  exists w,
    Work.__init__ Sample.parse (XElement Sample.work) Sample.rules false = Ok w
    /\ Work.titles w <> []
    /\ Work.getTitle w (Some "fr") = Ok (Some "B")
    /\ Work.getTitle w (Some "de") = Ok (Some "A")
    /\ Work.getTitle w None = Ok (Some "A").
Proof.
  eexists. split; [vm_compute; reflexivity|].
  split; [simpl; discriminate|].
  eapply Work_getTitle_resolution; [simpl; discriminate | reflexivity].
Defined.

(** C8.  Constructing a Work from XML containing zero title children
    raises NoTitleFound when strict=True; when strict=False the
    construction succeeds (its editions and translations being
    constructible), and any subsequent [getTitle] call, with any language
    argument, on that Work raises NoTitleFound. *)
Theorem Work_without_title parse (e : Element) rules
        (Hnone : findall e (ti "title") = []) :
  Work.__init__ parse (XElement e) rules true = Raise NoTitleException
  /\ (forall editions translations,
         Work._retrieveEditions parse e rules = Ok editions ->
         Work._retrieveTranslations parse e rules = Ok translations ->
         exists w, Work.__init__ parse (XElement e) rules false = Ok w)
  /\ (forall w,
         Work.__init__ parse (XElement e) rules false = Ok w ->
         forall lang, Work.getTitle w lang = Raise NoTitleException).
Proof.
  repeat split.
  - unfold Work.__init__. simpl. unfold Work._retrieveTitles.
    rewrite collect_titles_gather, Hnone. reflexivity.
  - intros editions translations He Ht.
    unfold Work.__init__. simpl. unfold Work._retrieveTitles.
    rewrite collect_titles_gather, Hnone. simpl.
    rewrite He. simpl. rewrite Ht. simpl. eauto.
  - intros w Hw lang. apply getTitle_empty.
    apply Work_init_inv in Hw as [Ht _]. now rewrite Ht, Hnone.
Qed.

Lemma Work_without_title_witness :
  findall Sample.untitled_work (ti "title") = []
  /\ Work.__init__ Sample.parse (XElement Sample.untitled_work) [] true
     = Raise NoTitleException
  /\ exists w,
      Work.__init__ Sample.parse (XElement Sample.untitled_work) [] false = Ok w
      /\ Work.getTitle w None = Raise NoTitleException
      /\ Work.getTitle w (Some "en") = Raise NoTitleException.
Proof.
  split; [reflexivity|].
  destruct (Work_without_title Sample.parse Sample.untitled_work []
              (eq_refl : findall Sample.untitled_work (ti "title") = []))
    as (Hstrict & Hlenient & Hlater).
  split; [exact Hstrict|].
  destruct (Hlenient [] [] eq_refl eq_refl) as [w Hw].
  exists w. split; [exact Hw|].
  split; apply (Hlater w Hw).
Defined.

(** C10.  If a Work's XML contains a title element carrying no xml:lang
    attribute, that title (the last such one) is stored in the title
    mapping under the key None, and a later [getTitle()] call with no
    language argument returns that title directly, whatever the
    en/eng/first-in-order default is. *)
Theorem title_without_lang parse (e : Element) rules strict w
        (before : list Element) (title : Element) (after : list Element)
        (Hinit : Work.__init__ parse (XElement e) rules strict = Ok w)
        (Hdoc : findall e (ti "title") = before ++ title :: after)
        (Hlang : get title xml_lang = None)
        (Hlast : Forall (fun t => get t xml_lang <> None) after) :
  dict_lookup option_string_eqb (Work.titles w) None = Some (text title)
  /\ Work.getTitle w None = Ok (text title).
Proof.
  apply Work_init_inv in Hinit as [Ht _].
  assert (Hl : dict_lookup option_string_eqb (Work.titles w) None
               = Some (text title)).
  { rewrite Ht, Hdoc, <- Hlang. apply gather_lookup_last. now rewrite Hlang. }
  split; [exact Hl|].
  assert (Hne : Work.titles w <> []).
  { intros E. rewrite E in Hl. discriminate. }
  destruct (getTitle_body_default w None Hne) as (d & _ & Hb).
  unfold Work.getTitle. rewrite Hb. unfold dict_get. now rewrite Hl.
Qed.

Lemma title_without_lang_witness :
  exists w,
    Work.__init__ Sample.parse (XElement Sample.work_with_bare_title) [] false
    = Ok w
    /\ Titles.default_title (Work.titles w) = Some (Some "A"%string)
    /\ dict_lookup option_string_eqb (Work.titles w) None = Some (Some "X"%string)
    /\ Work.getTitle w None = Ok (Some "X"%string).
Proof.
  eexists. split; [vm_compute; reflexivity|].
  split; [reflexivity|].
  apply (title_without_lang Sample.parse Sample.work_with_bare_title [] false _
           [Sample.title (Some "en"%string) "A"] (Sample.title None "X") []);
    [vm_compute; reflexivity | reflexivity | reflexivity | constructor].
Defined.

(** ** Rewrite rules *)

Lemma prefix_split (old s : string) :
  String.prefix old s = true -> exists rest, s = (old ++ rest)%string.
Proof.
  revert s; induction old as [|a old IH]; intros s H.
  - exists s. reflexivity.
  - destruct s as [|b s]; simpl in H; [discriminate|].
    destruct (ascii_dec a b) as [->|]; [|discriminate].
    destruct (IH s H) as [rest ->]. exists rest. reflexivity.
Qed.

Lemma prefix_append (old rest : string) :
  String.prefix old (old ++ rest)%string = true.
Proof.
  induction old as [|a old IH]; simpl.
  - destruct rest; reflexivity.
  - destruct (ascii_dec a a); [exact IH | congruence].
Qed.

Lemma replace_scan_skip (old new a b : string) :
  replace_scan old new (String.length a) (a ++ b)%string
  = replace_scan old new 0 b.
Proof.
  induction a as [|c a IH]; simpl; [reflexivity | exact IH].
Qed.

Lemma replace_scan_hit (old new rest : string) :
  old <> EmptyString ->
  replace_scan old new 0 (old ++ rest)%string
  = (new ++ replace_scan old new 0 rest)%string.
Proof.
  intros Hne. destruct old as [|c old]; [congruence|].
  pose proof (prefix_append (String c old) rest) as Hp.
  change ((String c old ++ rest)%string) with (String c (old ++ rest)%string)
    in Hp |- *.
  cbn [replace_scan]. rewrite Hp. f_equal.
  replace (String.length (String c old) - 1) with (String.length old)
    by (simpl; lia).
  apply replace_scan_skip.
Qed.

Lemma append_length (a b : string) :
  String.length (a ++ b)%string = String.length a + String.length b.
Proof. induction a; simpl; auto. Qed.

(** The scan of [str.replace] is the literal replacement. *)
Lemma replace_scan_literal (old new : string) :
  old <> EmptyString ->
  forall s, Rewrite.literal old new s (replace_scan old new 0 s).
Proof.
  intros Hne s.
  remember (String.length s) as n eqn:Hn.
  revert s Hn. induction n as [n IH] using lt_wf_ind. intros s Hn.
  destruct s as [|c s].
  - constructor.
  - destruct (String.prefix old (String c s)) eqn:Hp.
    + destruct (prefix_split _ _ Hp) as [rest Hs]. rewrite Hs.
      rewrite replace_scan_hit by exact Hne.
      constructor.
      apply (IH (String.length rest)); [|reflexivity].
      subst n. rewrite Hs, append_length.
      destruct old; [congruence | simpl; lia].
    + cbn [replace_scan]. rewrite Hp.
      constructor; [exact Hp|].
      apply (IH (String.length s)); [subst n; simpl; lia | reflexivity].
Qed.

Lemma replace_absent (old new s : string) :
  contains old s = false -> replace old new s = s.
Proof.
  intros H. destruct old as [|a old].
  - destruct s; simpl in H; discriminate.
  - unfold replace. induction s as [|c s IH].
    + reflexivity.
    + cbn [contains] in H. apply orb_false_iff in H as [Hp Hc].
      cbn [replace_scan]. rewrite Hp. f_equal. apply IH, Hc.
Qed.

Lemma replace_all_absent (rules : dict string string) (s : string) :
  Rewrite.no_key_occurs rules s -> replace_all s rules = s.
Proof.
  unfold replace_all. induction rules as [|[old new] rules IH]; intros H.
  - reflexivity.
  - simpl. rewrite replace_absent by (apply (H old new); now left).
    apply IH. intros o n Hin. apply (H o n). now right.
Qed.

(** [s.replace("", new)] writes [new] before every character and at the
    end. *)
Lemma replace_empty_inserted (new s : string) :
  Rewrite.inserted new s (replace_empty new s).
Proof. induction s as [|c s IH]; simpl; constructor; exact IH. Qed.

(** [s.replace(old, new)] is the replacement of [old], empty or not. *)
Lemma replace_replaced (old new s : string) :
  Rewrite.replaced old new s (replace old new s).
Proof.
  unfold Rewrite.replaced, replace. destruct old as [|a old].
  - apply replace_empty_inserted.
  - apply replace_scan_literal. discriminate.
Qed.

Lemma replace_all_rewritten (rules : dict string string) :
  forall s, Rewrite.rewritten rules s (replace_all s rules).
Proof.
  unfold replace_all. induction rules as [|[old new] rules IH]; intros s.
  - constructor.
  - simpl. apply Rewrite.rewritten_cons with (s' := replace old new s).
    + apply replace_replaced.
    + apply IH.
Qed.

Lemma append_inv_head (a b c : string) :
  (a ++ b)%string = (a ++ c)%string -> b = c.
Proof.
  induction a as [|x a IH]; simpl; intros H; [exact H|].
  injection H as H. now apply IH.
Qed.

(** The replacement of a non-empty key determines its result. *)
Lemma literal_functional (old new : string) :
  old <> EmptyString ->
  forall s out1,
    Rewrite.literal old new s out1 ->
    forall out2, Rewrite.literal old new s out2 -> out1 = out2.
Proof.
  intros Hne s out1 H1.
  induction H1 as [|rest out Hrest IH|c rest out Hp Hrest IH]; intros out2 H2.
  - inversion H2 as [|rest2 o2 H Heq|]; [reflexivity|].
    destruct old; [congruence | discriminate].
  - remember (old ++ rest)%string as s eqn:Hs.
    destruct H2 as [|rest2 o2 H|c rest2 o2 Hp H].
    + destruct old; [congruence | discriminate].
    + apply append_inv_head in Hs. subst rest2. f_equal. now apply IH.
    + rewrite Hs, prefix_append in Hp. discriminate.
  - remember (String c rest) as s eqn:Hs.
    destruct H2 as [|rest2 o2 H|c2 rest2 o2 Hp2 H].
    + discriminate.
    + rewrite prefix_append in Hp. discriminate.
    + injection Hs as -> ->. f_equal. now apply IH.
Qed.

Lemma inserted_functional (new : string) :
  forall s out1,
    Rewrite.inserted new s out1 ->
    forall out2, Rewrite.inserted new s out2 -> out1 = out2.
Proof.
  intros s out1 H1.
  induction H1 as [|c rest out Hrest IH]; intros out2 H2.
  - now inversion H2.
  - inversion H2 as [|c2 rest2 o2 H]; subst. do 2 f_equal. now apply IH.
Qed.

(** Applying the rules in order has one result only. *)
Lemma rewritten_functional (rules : dict string string) :
  forall s out1,
    Rewrite.rewritten rules s out1 ->
    forall out2, Rewrite.rewritten rules s out2 -> out1 = out2.
Proof.
  intros s out1 H1.
  induction H1 as [s|old new rules s s1 out Hstep Hrest IH]; intros out2 H2.
  - now inversion H2.
  - inversion H2 as [|old2 new2 rules2 s2 s2' o2 Hstep2 Hrest2]; subst.
    apply IH. replace s1 with s2'; [exact Hrest2|].
    unfold Rewrite.replaced in Hstep, Hstep2. destruct old as [|a old].
    + exact (inserted_functional new s s2' Hstep2 s1 Hstep).
    + exact (literal_functional (String a old) new ltac:(discriminate)
               s s2' Hstep2 s1 Hstep).
Qed.

Lemma Document_init_inv parse xml rules strict d :
  Document.__init__ parse xml rules strict = Ok d ->
  (exists dbs, Document.db d = Some dbs
               /\ Document.path d = replace_all dbs rules)
  /\ Document.strict d = strict
  /\ exists root, Document.citation d
                  = Citation.of_element (Document.namespaces d) strict root.
Proof.
  unfold Document.__init__. intros H.
  apply bind_Ok_inv in H as (self_xml & _ & H).
  apply bind_Ok_inv in H as (path & Hpath & H).
  apply bind_Ok_inv in H as ([p filename] & Hbase & H).
  apply bind_Ok_inv in H as (validate & _ & H).
  apply bind_Ok_inv in H as (namespaces & _ & H).
  apply bind_Ok_inv in H as (citation_xml & _ & H).
  apply bind_Ok_inv in H as (citation & Hcit & H).
  injection H as <-. simpl.
  unfold Document._getFilePath, replace_all_opt in Hpath.
  unfold Document.basename_opt in Hbase.
  unfold Citation.__init__ in Hcit.
  apply bind_Ok_inv in Hcit as (root & _ & Hcit). injection Hcit as <-.
  repeat split; eauto.
  destruct (get self_xml "docname") as [dbs|].
  - injection Hpath as <-. injection Hbase as <- _. eauto.
  - destruct rules; [|discriminate].
    injection Hpath as <-. discriminate.
Qed.

(** C9.  For every Document, the resolved file path equals the raw [db]
    value with each rewrite rule applied, in order, as a literal substring
    replacement (not a regex), whatever the rule keys are, the empty key
    included, and it is the only string obtained so: with rule
    [{"urn:cts:greekLit:": "/data/greek/"}] and
    [db = "urn:cts:greekLit:tlg0012.tlg001"] the path is
    ["/data/greek/tlg0012.tlg001"], with the empty key the value is put
    before every character and at the end, and whenever no rule key occurs
    as a substring of [db], the path equals [db] unchanged. *)
Theorem Document_path_rewriting parse xml rules strict d
        (Hinit : Document.__init__ parse xml rules strict = Ok d) :
  exists dbs,
    Document.db d = Some dbs
    /\ Document.path d = replace_all dbs rules
    /\ Rewrite.rewritten rules dbs (Document.path d)
    /\ (forall out, Rewrite.rewritten rules dbs out -> out = Document.path d)
    /\ (rules = [("urn:cts:greekLit:", "/data/greek/")] ->
        dbs = "urn:cts:greekLit:tlg0012.tlg001"%string ->
        Document.path d = "/data/greek/tlg0012.tlg001"%string)
    /\ (rules = [("urn.cts.greekLit.", "/data/greek/")] ->
        dbs = "urn:cts:greekLit:tlg0012.tlg001"%string ->
        Document.path d = dbs)
    /\ (rules = [(EmptyString, "-"%string)] ->
        dbs = "ab"%string ->
        Document.path d = "-a-b-"%string)
    /\ (Rewrite.no_key_occurs rules dbs -> Document.path d = dbs).
Proof.
  apply Document_init_inv in Hinit as ((dbs & Hdb & Hpath) & _).
  exists dbs. split; [exact Hdb|]. split; [exact Hpath|].
  rewrite Hpath.
  split; [apply replace_all_rewritten|].
  split; [|split; [|split; [|split]]].
  - intros out Hout.
    exact (rewritten_functional rules dbs out Hout _
             (replace_all_rewritten rules dbs)).
  - intros -> ->. reflexivity.
  - intros -> ->. reflexivity.
  - intros -> ->. reflexivity.
  - apply replace_all_absent.
Qed.

Lemma Document_path_rewriting_witness :
  exists d,
    Document.__init__ Sample.parse (XElement Sample.online) Sample.rules false
    = Ok d
    /\ Document.db d = Some "urn:cts:greekLit:tlg0012.tlg001"%string
    /\ Document.path d = "/data/greek/tlg0012.tlg001"%string.
Proof.
  eexists. split; [vm_compute; reflexivity|].
  destruct (Document_path_rewriting Sample.parse (XElement Sample.online)
              Sample.rules false _ eq_refl)
    as (dbs & Hdb & _ & _ & _ & Hex & _).
  split; [reflexivity|].
  injection Hdb as <-. apply Hex; reflexivity.
Defined.

(** ** Citation chains *)

Lemma chain_unfold (c : Citation.t) :
  Levels.chain c
  = c :: match Citation.children c with
         | Some child => Levels.chain child
         | None => []
         end.
Proof. destruct c as [x l xp sc ns st [child|]]; reflexivity. Qed.

Lemma chain_length (c : Citation.t) :
  length (Levels.chain c) = Citation.depth c.
Proof.
  induction c as [x l xp sc ns st child IH] using Citation_induction.
  destruct child as [child|]; simpl; [now rewrite IH | reflexivity].
Qed.

(** [_retrieveChildren]: the child is built from the first [citation]
    child element, with the parent's namespaces and strictness. *)
Lemma of_element_children ns strict (e : Element) :
  Citation.children (Citation.of_element ns strict e)
  = option_map (Citation.of_element ns strict) (find e (ti "citation")).
Proof.
  destruct e as [tg at_ tx ch]. unfold find. simpl.
  induction ch as [|c ch IH]; simpl; [reflexivity|].
  destruct (has_tag (ti "citation") c); [reflexivity | exact IH].
Qed.

Lemma of_element_strict ns strict (e : Element) :
  Citation.strict (Citation.of_element ns strict e) = strict.
Proof. destruct e; reflexivity. Qed.

(** The strictness given to a Citation is the strictness of every level
    below it. *)
Lemma of_element_strictness ns strict (e : Element) :
  Levels.strictness strict (Citation.of_element ns strict e).
Proof.
  induction e as [tg at_ tx ch IH] using Element_induction.
  unfold Levels.strictness. rewrite chain_unfold.
  constructor; [apply of_element_strict|].
  rewrite of_element_children.
  destruct (find (mkElement tg at_ tx ch) (ti "citation")) as [c|] eqn:Hf;
    simpl; [|constructor].
  apply find_some in Hf as [Hin _].
  rewrite Forall_forall in IH. exact (IH c Hin).
Qed.

(** ** The citation test *)

Section CitationTest.

Variable parse : string -> result Element.
Variable findall_ : Element -> string -> result (list Element).

Local Abbreviation test := (Citation.test parse findall_).
Local Abbreviation parse_target := (Citation.parse_target parse).

Lemma test_not_parsed c target level :
  parse_target target = Citation.NotParsed ->
  test c target level = Ok ([false], []).
Proof.
  intros H. destruct c as [x l xp sc ns st child].
  cbn [Citation.test]. rewrite H. reflexivity.
Qed.

Lemma test_parse_failed c target level :
  parse_target target = Citation.ParseFailed ->
  test c target level
  = if Citation.strict c then Raise ValueError
    else Ok ([false], [Error "Impossible to parse given element"]).
Proof.
  intros H. destruct c as [x l xp sc ns st child].
  cbn [Citation.test]. rewrite H. simpl. destruct st; reflexivity.
Qed.

(** One level of [test] on a parsed target whose path expression could
    be built. *)
Lemma test_parsed c target level xml xpath :
  parse_target target = Citation.Parsed xml ->
  Citation.full_xpath c true None = Ok xpath ->
  test c target level
  = ('(status, warnings) <-
       (if Levels.level_status findall_ xml c
        then Ok ([true], [])
        else w <- Citation.testNamespace c level ;; Ok ([false], w)) ;;
     match Citation.children c with
     | Some child =>
         '(s, w) <- test child target (level + 1) ;;
         Ok (status ++ s, warnings ++ w)
     | None => Ok (status, warnings)
     end).
Proof.
  intros Hp Hx. unfold Levels.level_status. rewrite Hx.
  destruct c as [x l xp sc ns st child].
  cbn [Citation.test]. rewrite Hp, Hx. cbn [bind].
  destruct (findall_ xml xpath) as [found|e]; cbn [length].
  - destruct (0 <? length found); cbn [bind].
    + destruct child as [child|]; cbn [Citation.children bind]; [|reflexivity].
      destruct (Citation.test parse findall_ child target (level + 1))
        as [[s w]|]; reflexivity.
    + destruct (Citation.testNamespace _ level) as [w|]; cbn [bind];
        [|reflexivity].
      destruct child as [child|]; cbn [Citation.children bind]; [|reflexivity].
      destruct (Citation.test parse findall_ child target (level + 1))
        as [[s w']|]; reflexivity.
  - cbn [Nat.ltb Nat.leb bind].
    destruct (Citation.testNamespace _ level) as [w|]; cbn [bind];
      [|reflexivity].
    destruct child as [child|]; cbn [Citation.children bind]; [|reflexivity].
    destruct (Citation.test parse findall_ child target (level + 1))
      as [[s w']|]; reflexivity.
Qed.

Lemma _testNamespace_returns name s original level condition :
  exists errors,
    Citation._testNamespace name (Some s) original level condition = Ok errors
    /\ Forall (fun e => exists rest,
                   e = Error (name ++ "'s attribute for Citation Level " ++ rest)%string)
              errors.
Proof.
  unfold Citation._testNamespace. cbn [Regex.shortcut_namespace_findall bind].
  destruct (_ && _).
  - eexists. split; [reflexivity|].
    apply Forall_cons; [|apply Forall_nil]. eexists. reflexivity.
  - destruct (_ && _).
    + eexists. split; [reflexivity|].
      apply Forall_cons; [|apply Forall_nil]. eexists. reflexivity.
    + eexists. split; [reflexivity|]. apply Forall_nil.
Qed.

Lemma testNamespace_returns c level xp sc :
  Citation.xpath c = Some xp ->
  Citation.scope c = Some sc ->
  exists errors,
    Citation.testNamespace c level = Ok errors
    /\ Forall Levels.names_attribute errors.
Proof.
  intros Hxp Hsc. unfold Citation.testNamespace, Citation.full_xpath.
  rewrite Hxp, Hsc. cbn [bind].
  destruct (_testNamespace_returns "scope" sc (Some sc) level "equal")
    as (e1 & -> & F1).
  cbn [bind].
  destruct (_testNamespace_returns "scope"
              (replace_all (replace "@n='?'" "@n" sc) (Citation.namespaces c))
              (Some sc) level "greater") as (e2 & -> & F2).
  cbn [bind].
  destruct (_testNamespace_returns "xpath" xp (Some xp) level "equal")
    as (e3 & -> & F3).
  cbn [bind].
  destruct (_testNamespace_returns "xpath"
              (replace_all (replace "@n='?'" "@n" xp) (Citation.namespaces c))
              (Some xp) level "greater") as (e4 & -> & F4).
  eexists. split; [reflexivity|].
  assert (S : forall e, Forall (fun e => exists rest,
                e = Error ("scope" ++ "'s attribute for Citation Level " ++ rest)%string) e
              -> Forall Levels.names_attribute e).
  { intros e. apply Forall_impl. intros a [rest ->]. exists rest. now left. }
  assert (X : forall e, Forall (fun e => exists rest,
                e = Error ("xpath" ++ "'s attribute for Citation Level " ++ rest)%string) e
              -> Forall Levels.names_attribute e).
  { intros e. apply Forall_impl. intros a [rest ->]. exists rest. now right. }
  apply Forall_app. split; [|now apply X].
  apply Forall_app. split; [|now apply X].
  apply Forall_app. split; [|now apply S].
  apply Forall_app. split; [apply Forall_nil | now apply S].
Qed.

Lemma declared_inv c :
  Levels.declared c ->
  (exists xp sc, Citation.xpath c = Some xp /\ Citation.scope c = Some sc)
  /\ match Citation.children c with
     | Some child => Levels.declared child
     | None => True
     end.
Proof.
  unfold Levels.declared. rewrite chain_unfold. simpl.
  intros H. apply andb_true_iff in H as [Hc Hrest]. split.
  - unfold Levels.declares_paths in Hc. apply andb_true_iff in Hc as [Hx Hs].
    destruct (Citation.xpath c) as [xp|]; [|discriminate].
    destruct (Citation.scope c) as [sc|]; [|discriminate]. eauto.
  - destruct (Citation.children c); [exact Hrest | exact I].
Qed.

Lemma full_xpath_returns c removeRoot xp sc :
  Citation.xpath c = Some xp ->
  Citation.scope c = Some sc ->
  exists xpath, Citation.full_xpath c removeRoot None = Ok xpath.
Proof.
  intros Hxp Hsc. unfold Citation.full_xpath. rewrite Hxp, Hsc. simpl. eauto.
Qed.

Lemma full_xpath_inv c removeRoot xpath :
  Citation.full_xpath c removeRoot None = Ok xpath ->
  exists xp sc, Citation.xpath c = Some xp /\ Citation.scope c = Some sc.
Proof.
  unfold Citation.full_xpath.
  destruct (Citation.scope c) as [sc|], (Citation.xpath c) as [xp|];
    simpl; try discriminate. eauto.
Qed.

(** On a parsed target, a chain that declares its paths is tested level
    by level, outermost first. *)
Lemma test_parsed_declared target xml c :
  parse_target target = Citation.Parsed xml ->
  Levels.declared c ->
  forall level,
  exists warnings,
    test c target level
    = Ok (map (Levels.level_status findall_ xml) (Levels.chain c), warnings).
Proof.
  intros Hp.
  induction c as [x l xp0 sc0 ns st child IH] using Citation_induction.
  intros Hd level.
  set (c := Citation.Build x l xp0 sc0 ns st child) in *.
  destruct (declared_inv c Hd) as ((xp & sc & Hxp & Hsc) & Hchild).
  destruct (full_xpath_returns c true xp sc Hxp Hsc) as [xpath Hx].
  destruct (testNamespace_returns c level xp sc Hxp Hsc) as (tn & Htn & _).
  rewrite (test_parsed c target level xml xpath Hp Hx), chain_unfold, Htn.
  cbn [Citation.children c map] in *.
  destruct child as [child|].
  - destruct (IH Hchild (level + 1)) as [w Hw].
    destruct (Levels.level_status findall_ xml c); cbn [bind]; rewrite Hw;
      cbn [bind]; eexists; reflexivity.
  - destruct (Levels.level_status findall_ xml c); cbn [bind];
      eexists; reflexivity.
Qed.

(** C5, as the code has it.  For every Citation chain of depth [n] whose
    levels all declare [xpath] and [scope], and every target whose parsing
    succeeds, [Citation.test] returns a status list of length exactly [n],
    one boolean per citation level actually evaluated, ordered outermost
    level first. *)
Theorem test_status_per_level c target level xml
        (Hparse : parse_target target = Citation.Parsed xml)
        (Hdeclared : Levels.declared c) :
  exists status warnings,
    test c target level = Ok (status, warnings)
    /\ length status = Citation.depth c
    /\ status = map (Levels.level_status findall_ xml) (Levels.chain c).
Proof.
  destruct (test_parsed_declared target xml c Hparse Hdeclared level)
    as [warnings H].
  exists (map (Levels.level_status findall_ xml) (Levels.chain c)), warnings.
  split; [exact H|]. split; [|reflexivity].
  rewrite length_map. apply chain_length.
Qed.

Lemma names_attribute_not_unresolvable e xpath :
  Levels.names_attribute e -> e <> Error ("Unable to run xpath " ++ xpath)%string.
Proof.
  intros [rest [-> | ->]] H; simpl in H; discriminate.
Qed.

(** C6.  In [Citation.test] on a successfully parsed target, when the
    level's path expression evaluates to zero matches (including when
    evaluation itself fails, which first appends an "Unable to run xpath"
    warning), the level records status false and its accumulated warnings
    are replaced by the output of [testNamespace], so that warning is not
    kept; the warnings of a child Citation's recursive test are then
    concatenated onto this level's warnings. *)
Theorem test_no_match c target level xml xpath
        (Hparse : parse_target target = Citation.Parsed xml)
        (Hxpath : Citation.full_xpath c true None = Ok xpath)
        (Hnone : findall_ xml xpath = Ok []
                 \/ exists e, findall_ xml xpath = Raise e) :
  exists diagnostics,
    Citation.testNamespace c level = Ok diagnostics
    /\ ~ In (Error ("Unable to run xpath " ++ xpath)%string) diagnostics
    /\ test c target level
       = match Citation.children c with
         | None => Ok ([false], diagnostics)
         | Some child =>
             '(s, w) <- test child target (level + 1) ;;
             Ok (false :: s, diagnostics ++ w)
         end.
Proof.
  destruct (full_xpath_inv c true xpath Hxpath) as (xp & sc & Hxp & Hsc).
  destruct (testNamespace_returns c level xp sc Hxp Hsc) as (tn & Htn & Hnames).
  exists tn. split; [exact Htn|]. split.
  - intros Hin. rewrite Forall_forall in Hnames.
    exact (names_attribute_not_unresolvable _ xpath (Hnames _ Hin) eq_refl).
  - rewrite (test_parsed c target level xml xpath Hparse Hxpath).
    assert (Hs : Levels.level_status findall_ xml c = false).
    { unfold Levels.level_status. rewrite Hxpath.
      destruct Hnone as [-> | [e ->]]; reflexivity. }
    rewrite Hs, Htn. cbn [bind].
    destruct (Citation.children c) as [child|]; reflexivity.
Qed.

(** A chain without strictness that declares its paths is tested without
    an exception, whatever the target. *)
Lemma test_lenient_returns c target level :
  Levels.strictness false c ->
  Levels.declared c ->
  returns (test c target level).
Proof.
  intros Hs Hd.
  destruct (parse_target target) as [|xml|] eqn:Hp.
  - rewrite (test_not_parsed c target level Hp). eexists. reflexivity.
  - destruct (test_parsed_declared target xml c Hp Hd level) as [w ->].
    eexists. reflexivity.
  - rewrite (test_parse_failed c target level Hp).
    unfold Levels.strictness in Hs. rewrite chain_unfold in Hs.
    inversion Hs as [|? ? Hc _]; subst. rewrite Hc. eexists. reflexivity.
Qed.

(** C2, as the code has it.  For every Citation constructed with
    strict=False whose levels declare [xpath] and [scope], and every
    target value (including unparseable targets and targets that yield no
    matches), [Citation.test(target, level)] returns a (status, warnings)
    pair and never raises; every Citation constructed with strict=True,
    whatever its levels declare, raises ValueError on a non-empty target
    that cannot be parsed. *)
Theorem test_never_raises_when_lenient xml namespaces :
  (forall c,
      Citation.__init__ parse xml namespaces false = Ok c ->
      Levels.declared c ->
      forall target level,
      exists status warnings, test c target level = Ok (status, warnings))
  /\ (forall c path E level,
         Citation.__init__ parse xml namespaces true = Ok c ->
         path <> EmptyString ->
         parse path = Raise E ->
         test c (Some path) level = Raise ValueError).
Proof.
  split.
  - intros c Hinit Hdeclared target level.
    unfold Citation.__init__ in Hinit.
    apply bind_Ok_inv in Hinit as (root & _ & Hc). injection Hc as <-.
    destruct (test_lenient_returns _ target level
                (of_element_strictness namespaces false root) Hdeclared)
      as [[status warnings] H].
    eauto.
  - intros c path E level Hinit Hne Hraise.
    unfold Citation.__init__ in Hinit.
    apply bind_Ok_inv in Hinit as (root & _ & Hc). injection Hc as <-.
    assert (Hp : parse_target (Some path) = Citation.ParseFailed).
    { unfold Citation.parse_target, Citation.truthy.
      apply String.eqb_neq in Hne. now rewrite Hne, Hraise. }
    rewrite (test_parse_failed _ (Some path) level Hp), of_element_strict.
    reflexivity.
Qed.

End CitationTest.

Lemma test_never_raises_when_lenient_witness :
  (exists status warnings,
      Citation.test Sample.parse Sample.findall_none
        (Citation.of_element Sample.tei_namespaces false Sample.book_citation)
        (Some "missing.xml"%string) 1
      = Ok (status, warnings))
  /\ Citation.test Sample.parse Sample.findall_none
       (Citation.of_element Sample.tei_namespaces true Sample.bare_citation)
       (Some "missing.xml"%string) 1
     = Raise ValueError.
Proof.
  split.
  - destruct (test_never_raises_when_lenient Sample.parse Sample.findall_none
                (XElement Sample.book_citation) Sample.tei_namespaces)
      as [H _].
    exact (H _ eq_refl eq_refl (Some "missing.xml"%string) 1).
  - destruct (test_never_raises_when_lenient Sample.parse Sample.findall_none
                (XElement Sample.bare_citation) Sample.tei_namespaces)
      as [_ H].
    exact (H _ "missing.xml"%string IOError 1 eq_refl
             ltac:(discriminate) eq_refl).
Defined.

(** C2 as stated fails: a Citation built with strict=True raises
    ValueError on a target that cannot be parsed; and a lenient Citation
    whose level declares no [xpath] raises TypeError on a target that is
    parsed. *)
Lemma test_raises_when_strict :
  Citation.__init__ Sample.parse (XElement Sample.book_citation)
                    Sample.tei_namespaces true
  = Ok (Citation.of_element Sample.tei_namespaces true Sample.book_citation)
  /\ Sample.parse "missing.xml" = Raise IOError
  /\ Citation.test Sample.parse Sample.findall_one
       (Citation.of_element Sample.tei_namespaces true Sample.book_citation)
       (Some "missing.xml"%string) 1
     = Raise ValueError
  /\ Citation.test Sample.parse Sample.findall_one
       (Citation.of_element Sample.tei_namespaces false Sample.bare_citation)
       (Some "/data/greek/tlg0012.tlg001"%string) 1
     = Raise TypeError.
Proof. repeat split; reflexivity. Qed.

(** C5 as stated fails: the chain built from a [citation] element that
    declares a label only has depth 1; the target is parsed; and
    [Citation.test] returns no status list, as the concatenation
    [scope + xpath] raises TypeError in [full_xpath]. *)
Lemma test_raises_when_undeclared :
  Citation.__init__ Sample.parse (XElement Sample.bare_citation)
                    Sample.tei_namespaces false
  = Ok (Citation.of_element Sample.tei_namespaces false Sample.bare_citation)
  /\ Citation.depth
       (Citation.of_element Sample.tei_namespaces false Sample.bare_citation)
     = 1
  /\ Citation.parse_target Sample.parse
       (Some "/data/greek/tlg0012.tlg001"%string)
     = Citation.Parsed Sample.tei_document
  /\ Citation.test Sample.parse Sample.findall_one
       (Citation.of_element Sample.tei_namespaces false Sample.bare_citation)
       (Some "/data/greek/tlg0012.tlg001"%string) 1
     = Raise TypeError
  /\ ~ (exists status warnings,
          Citation.test Sample.parse Sample.findall_one
            (Citation.of_element Sample.tei_namespaces false
                                 Sample.bare_citation)
            (Some "/data/greek/tlg0012.tlg001"%string) 1
          = Ok (status, warnings)
          /\ length status = 1).
Proof.
  split; [reflexivity|]. split; [reflexivity|]. split; [reflexivity|].
  split; [reflexivity|].
  intros (status & warnings & H & _). discriminate.
Qed.

Lemma test_status_per_level_witness :
  exists warnings,
    Citation.depth
      (Citation.of_element Sample.tei_namespaces false Sample.book_citation) = 2
    /\ Citation.test Sample.parse Sample.findall_one
         (Citation.of_element Sample.tei_namespaces false Sample.book_citation)
         (Some "/data/greek/tlg0012.tlg001"%string) 1
       = Ok ([true; true], warnings).
Proof.
  destruct (test_status_per_level Sample.parse Sample.findall_one
              (Citation.of_element Sample.tei_namespaces false Sample.book_citation)
              (Some "/data/greek/tlg0012.tlg001"%string) 1 Sample.tei_document
              eq_refl eq_refl)
    as (status & warnings & Htest & Hlen & Hstatus).
  exists warnings. split; [reflexivity|].
  rewrite Htest, Hstatus. reflexivity.
Defined.

Lemma test_no_match_witness :
  exists diagnostics child_warnings,
    Citation.testNamespace
      (Citation.of_element Sample.tei_namespaces false Sample.book_citation) 1
    = Ok diagnostics
    /\ Citation.test Sample.parse Sample.findall_fails
         (Citation.of_element Sample.tei_namespaces false Sample.book_citation)
         (Some "/data/greek/tlg0012.tlg001"%string) 1
       = Ok ([false; false], diagnostics ++ child_warnings).
Proof.
  destruct (test_no_match Sample.parse Sample.findall_fails
              (Citation.of_element Sample.tei_namespaces false Sample.book_citation)
              (Some "/data/greek/tlg0012.tlg001"%string) 1 Sample.tei_document
              _ eq_refl eq_refl (or_intror (ex_intro _ KeyError eq_refl)))
    as (diagnostics & Htn & _ & Htest).
  exists diagnostics. eexists. split; [exact Htn|].
  rewrite Htest. vm_compute. reflexivity.
Defined.

(** ** Namespace diagnostics *)

(** C4, at an input where it fails.  The scope [/tei:TEI/tei:text/tei:body]
    and the xpath [/tei:div[@n='?']] use the prefix [tei:] only, and the
    namespace table binds it; [testNamespace] still emits the "namespaces
    shortcuts with no bindings" diagnostic for both, because the rewritten
    strings contain the [http:] of the namespace URI that replaced the
    prefix, which the shortcut pattern matches. *)
Theorem bound_prefix_reported_unbound :
  let c := Citation.of_element Sample.tei_namespaces false Sample.book_citation in
  Citation.scope c = Some "/tei:TEI/tei:text/tei:body"%string
  /\ Citation.xpath c = Some "/tei:div[@n='?']"%string
  /\ Regex.findall_scan "" "/tei:TEI/tei:text/tei:body" = ["tei:"; "tei:"; "tei:"]%string
  /\ Regex.findall_scan "" "/tei:div[@n='?']" = ["tei:"]%string
  /\ dict_lookup String.eqb (Citation.namespaces c) "tei:"
     = Some "{http://www.tei-c.org/ns/1.0}"%string
  /\ Citation.full_xpath c false (Citation.scope c)
     = Ok ("/{http://www.tei-c.org/ns/1.0}TEI/{http://www.tei-c.org/ns/1.0}text"
           ++ "/{http://www.tei-c.org/ns/1.0}body")%string
  /\ Regex.findall_scan ""
       ("/{http://www.tei-c.org/ns/1.0}TEI/{http://www.tei-c.org/ns/1.0}text"
        ++ "/{http://www.tei-c.org/ns/1.0}body")
     = ["http:"; "http:"; "http:"]%string
  /\ Citation.testNamespace c 1
     = Ok [Error ("scope's attribute for Citation Level 1 has namespaces "
                  ++ "shortcuts with no bindings (/tei:TEI/tei:text/tei:body)");
           Error ("xpath's attribute for Citation Level 1 has namespaces "
                  ++ "shortcuts with no bindings (/tei:div[@n='?'])")]%string.
Proof. cbv zeta. repeat split; vm_compute; reflexivity. Qed.

(** ** Batch testing *)

(** The texts are listed in traversal order: text groups, then works,
    then the editions of a work before its translations. *)
Lemma getTexts_traversal_order inv :
  Inventory.getTexts inv Inventory.instanceOf_default
  = flat_map (fun group => flat_map Work.getTexts (TextGroup.works group))
             (Inventory.textGroups inv).
Proof. reflexivity. Qed.

Lemma testCitation_rejects_keywords parse findall_ d kw kws :
  Document.testCitation parse findall_ d (kw :: kws) = Raise TypeError.
Proof. reflexivity. Qed.

(** With at least one text in the inventory, the first call of
    [testCitation] fails on its keyword argument. *)
Lemma testTextsCitation_raises parse findall_ inv flag :
  Inventory.getTexts inv Inventory.instanceOf_default <> [] ->
  Inventory.testTextsCitation parse findall_ inv flag = Raise TypeError.
Proof.
  unfold Inventory.testTextsCitation.
  destruct (Inventory.getTexts inv Inventory.instanceOf_default) as [|doc docs];
    [congruence | reflexivity].
Qed.

Lemma testTextsCitation_empty parse findall_ inv flag :
  Inventory.getTexts inv Inventory.instanceOf_default = [] ->
  Inventory.testTextsCitation parse findall_ inv flag = Ok [].
Proof.
  unfold Inventory.testTextsCitation. intros ->. reflexivity.
Qed.

(** C1, at an input where it fails.  The inventory with one text group,
    one work and one edition has one text, whose Document tests to
    [([true, true], [])] when [testCitation] is called without arguments;
    [testTextsCitation] does not return the one pair but raises
    [TypeError], [testCitation] being called with the keyword
    [ignore_replication] that it does not declare. *)
Theorem testTextsCitation_sample_raises :
  exists inv text,
    Inventory.__init__ Sample.parse Sample.exists_ (XStr "inventory.xml")
                       Sample.rules false = Ok inv
    /\ Inventory.getTexts inv Inventory.instanceOf_default = [text]
    /\ Document.filename (Text.document text) = "tlg0012.tlg001"%string
    /\ Document.testCitation Sample.parse Sample.findall_one
         (Text.document text) []
       = Ok ([true; true], [])
    /\ Inventory.testTextsCitation Sample.parse Sample.findall_one inv false
       = Raise TypeError
    /\ Inventory.testTextsCitation Sample.parse Sample.findall_one inv true
       = Raise TypeError.
Proof.
  eexists. eexists.
  split; [vm_compute; reflexivity|].
  split; [vm_compute; reflexivity|].
  repeat split; vm_compute; reflexivity.
Qed.

(** ** Strictness *)

Lemma Text_init_lenient parse cls xml rules strict t :
  Text.__init__ parse cls xml rules strict = Ok t ->
  Text.strict t = strict
  /\ Document.strict (Text.document t) = false
  /\ Levels.strictness false (Document.citation (Text.document t)).
Proof.
  unfold Text.__init__. intros H.
  apply bind_Ok_inv in H as (self_xml & _ & H).
  apply bind_Ok_inv in H as (id & _ & H).
  apply bind_Ok_inv in H as (titles & _ & H).
  apply bind_Ok_inv in H as (document & Hdoc & H).
  injection H as <-. simpl.
  apply Document_init_inv in Hdoc as (_ & Hs & root & Hc).
  repeat split; [exact Hs|]. rewrite Hc. apply of_element_strictness.
Qed.

Lemma Work_init_lenient parse xml rules w :
  Work.__init__ parse xml rules false = Ok w -> Strictness.work_lenient w.
Proof.
  unfold Work.__init__. intros H.
  apply bind_Ok_inv in H as (self_xml & _ & H).
  apply bind_Ok_inv in H as (id & _ & H).
  apply bind_Ok_inv in H as (titles & _ & H).
  apply bind_Ok_inv in H as (editions & He & H).
  apply bind_Ok_inv in H as (translations & Ht & H).
  injection H as <-. unfold Strictness.work_lenient. simpl.
  split; [reflexivity|].
  split; [revert He | revert Ht]; apply mapM_Forall;
    intros x t Hx; exact (Text_init_lenient _ _ _ _ _ _ Hx).
Qed.

Lemma TextGroup_init_lenient parse xml rules g :
  TextGroup.__init__ parse xml rules false = Ok g ->
  Strictness.textgroup_lenient g.
Proof.
  unfold TextGroup.__init__. intros H.
  apply bind_Ok_inv in H as (self_xml & _ & H).
  apply bind_Ok_inv in H as (id & _ & H).
  apply bind_Ok_inv in H as (name & _ & H).
  apply bind_Ok_inv in H as (works & Hw & H).
  injection H as <-. unfold Strictness.textgroup_lenient. simpl.
  split; [reflexivity|].
  revert Hw. apply mapM_Forall.
  intros x w Hx. exact (Work_init_lenient _ _ _ _ Hx).
Qed.

(** C3, as the code has it.  For every Inventory constructed with
    strict=True, the Inventory itself carries strict=True and every entity
    it constructs beneath it (every TextGroup, every Work, every Edition
    and Translation, every Document and every Citation level) carries
    strict=False: the constructors below the root are called without the
    flag or with strict=False.  A flag given to a Document does apply to
    every level of its Citation chain. *)
Theorem strictness_stops_at_root parse exists_ xml rules inv
        (Hinit : Inventory.__init__ parse exists_ xml rules true = Ok inv) :
  Inventory.strict inv = true
  /\ Forall Strictness.textgroup_lenient (Inventory.textGroups inv)
  /\ Forall Strictness.text_lenient
            (Inventory.getTexts inv Inventory.instanceOf_default)
  /\ (forall xml' rules' strict d,
         Document.__init__ parse xml' rules' strict = Ok d ->
         Document.strict d = strict
         /\ Levels.strictness strict (Document.citation d)).
Proof.
  unfold Inventory.__init__ in Hinit.
  apply bind_Ok_inv in Hinit as (path & _ & H).
  apply bind_Ok_inv in H as (self_xml & _ & H).
  apply bind_Ok_inv in H as (groups & Hg & H).
  injection H as <-. simpl.
  assert (HG : Forall Strictness.textgroup_lenient groups).
  { revert Hg. apply mapM_Forall.
    intros x g Hx. exact (TextGroup_init_lenient _ _ _ _ Hx). }
  split; [reflexivity|]. split; [exact HG|]. split.
  - unfold Inventory.getTexts. simpl.
    apply Forall_flat_map. revert HG. apply Forall_impl.
    intros g [_ Hw]. apply Forall_flat_map. revert Hw. apply Forall_impl.
    intros w (_ & He & Ht). apply Forall_app. split; assumption.
  - intros xml' rules' strict d Hd.
    apply Document_init_inv in Hd as (_ & Hs & root & Hc).
    split; [exact Hs|]. rewrite Hc. apply of_element_strictness.
Qed.

Lemma strictness_stops_at_root_witness :
  exists inv text,
    Inventory.__init__ Sample.parse Sample.exists_ (XStr "inventory.xml")
                       Sample.rules true = Ok inv
    /\ Inventory.strict inv = true
    /\ Inventory.getTexts inv Inventory.instanceOf_default = [text]
    /\ Strictness.text_lenient text.
Proof.
  eexists. eexists.
  split; [vm_compute; reflexivity|].
  destruct (strictness_stops_at_root Sample.parse Sample.exists_
              (XStr "inventory.xml") Sample.rules _ eq_refl)
    as (Hroot & _ & Htexts & _).
  split; [exact Hroot|].
  split; [vm_compute; reflexivity|].
  exact (Forall_inv Htexts).
Defined.

(** C3 as stated fails: the inventory built with strict=True has a
    TextGroup, a Work, an Edition, a Document and a Citation that all
    carry strict=False. *)
Lemma strict_inventory_has_lenient_children :
  exists inv group work text,
    Inventory.__init__ Sample.parse Sample.exists_ (XStr "inventory.xml")
                       Sample.rules true = Ok inv
    /\ Inventory.strict inv = true
    /\ Inventory.textGroups inv = [group]
    /\ TextGroup.strict group = false
    /\ TextGroup.works group = [work]
    /\ Work.strict work = false
    /\ Work.editions work = [text]
    /\ Text.strict text = false
    /\ Document.strict (Text.document text) = false
    /\ Citation.strict (Document.citation (Text.document text)) = false.
Proof.
  do 4 eexists.
  split; [vm_compute; reflexivity|].
  repeat split; vm_compute; reflexivity.
Qed.

(** * Further properties of the code *)

(** ** Splitting and joining *)

Lemma append_assoc (a b c : string) :
  ((a ++ b) ++ c)%string = (a ++ (b ++ c))%string.
Proof. induction a as [|x a IH]; simpl; [reflexivity | now rewrite IH]. Qed.

Lemma append_nil_r (a : string) : (a ++ "")%string = a.
Proof. induction a as [|x a IH]; simpl; [reflexivity | now rewrite IH]. Qed.

Lemma split_scan_not_nil sep cur s : split_scan sep cur s <> [].
Proof.
  revert cur; induction s as [|c s IH]; intros cur; simpl; [discriminate|].
  destruct (Ascii.eqb c sep); [discriminate | apply IH].
Qed.

Lemma concat_cons sep x l :
  l <> [] -> String.concat sep (x :: l) = (x ++ sep ++ String.concat sep l)%string.
Proof. destruct l; [congruence | reflexivity]. Qed.

(** Joining the pieces of a split with the separator gives the string
    back. *)
Lemma join_split_scan sep cur s :
  join (String sep EmptyString) (split_scan sep cur s) = (cur ++ s)%string.
Proof.
  unfold join. revert cur; induction s as [|c s IH]; intros cur; simpl.
  - now rewrite append_nil_r.
  - destruct (Ascii.eqb c sep) eqn:E.
    + apply Ascii.eqb_eq in E. subst c.
      rewrite concat_cons by apply split_scan_not_nil.
      rewrite IH. reflexivity.
    + rewrite IH, append_assoc. reflexivity.
Qed.

Lemma join_split sep s : join (String sep EmptyString) (split sep s) = s.
Proof. apply (join_split_scan sep EmptyString s). Qed.

Lemma split_scan_free sep cur a :
  Paths.free_of sep a -> split_scan sep cur a = [(cur ++ a)%string].
Proof.
  unfold Paths.free_of. revert cur; induction a as [|c a IH]; intros cur H; simpl.
  - now rewrite append_nil_r.
  - simpl in H. apply andb_true_iff in H as [Hc Ha].
    apply negb_true_iff in Hc. rewrite Hc, IH by exact Ha.
    now rewrite append_assoc.
Qed.

Lemma split_scan_piece sep cur a b :
  Paths.free_of sep a ->
  split_scan sep cur (a ++ String sep b)%string
  = (cur ++ a)%string :: split_scan sep EmptyString b.
Proof.
  unfold Paths.free_of. revert cur; induction a as [|c a IH]; intros cur H; simpl.
  - rewrite Ascii.eqb_refl. now rewrite append_nil_r.
  - simpl in H. apply andb_true_iff in H as [Hc Ha].
    apply negb_true_iff in Hc. rewrite Hc, IH by exact Ha.
    now rewrite append_assoc.
Qed.

(** Splitting a join of separator-free pieces gives the pieces back. *)
Lemma split_join sep (pieces : list string) :
  pieces <> [] ->
  Forall (Paths.free_of sep) pieces ->
  split sep (join (String sep EmptyString) pieces) = pieces.
Proof.
  unfold split, join. induction pieces as [|p ps IH]; [congruence|].
  intros _ HF. inversion HF as [|? ? Hp Hps]; subst.
  destruct ps as [|q ps].
  - simpl. now apply split_scan_free.
  - rewrite concat_cons by discriminate.
    change (String sep "" ++ String.concat (String sep "") (q :: ps))%string
      with (String sep (String.concat (String sep "") (q :: ps))).
    rewrite split_scan_piece by exact Hp. simpl append at 1.
    f_equal. apply IH; [discriminate | exact Hps].
Qed.

(** ** Path expressions *)

Lemma full_xpath_unfold c removeRoot sc xp :
  Citation.scope c = Some sc ->
  Citation.xpath c = Some xp ->
  Citation.full_xpath c removeRoot None
  = Ok (replace_all
          (if removeRoot
           then join "/" ("." :: skipn 2 (split "/"%char
                                            (replace "@n='?'" "@n" (sc ++ xp)%string)))
           else replace "@n='?'" "@n" (sc ++ xp)%string)
          (Citation.namespaces c)).
Proof.
  intros Hs Hx. unfold Citation.full_xpath. rewrite Hs, Hx. reflexivity.
Qed.

(** X1.  [full_xpath(removeRoot=True)] drops the first two pieces of the path
    (for a path from the root, the empty piece before the first slash and
    the root step) and starts from the current node; a path with fewer
    than three pieces becomes the current node alone.  The namespace
    table is applied afterwards. *)
Theorem full_xpath_removes_root c sc xp
        (Hscope : Citation.scope c = Some sc)
        (Hxpath : Citation.xpath c = Some xp) :
  let p := replace "@n='?'" "@n" (sc ++ xp)%string in
  (forall a b rest,
      p = (a ++ "/" ++ b ++ "/" ++ rest)%string ->
      Paths.free_of "/" a -> Paths.free_of "/" b ->
      Citation.full_xpath c true None
      = Ok (replace_all ("./" ++ rest)%string (Citation.namespaces c)))
  /\ (forall a b,
         p = (a ++ "/" ++ b)%string ->
         Paths.free_of "/" a -> Paths.free_of "/" b ->
         Citation.full_xpath c true None
         = Ok (replace_all "." (Citation.namespaces c)))
  /\ (Paths.free_of "/" p ->
      Citation.full_xpath c true None
      = Ok (replace_all "." (Citation.namespaces c)))
  /\ Citation.full_xpath c false None = Ok (replace_all p (Citation.namespaces c)).
Proof.
  intros p. repeat split.
  - intros a b rest Hp Ha Hb.
    rewrite (full_xpath_unfold c true sc xp Hscope Hxpath). fold p.
    rewrite Hp. unfold split.
    change (a ++ "/" ++ b ++ "/" ++ rest)%string
      with (a ++ String "/" (b ++ String "/" rest))%string.
    rewrite split_scan_piece by exact Ha.
    rewrite split_scan_piece by exact Hb.
    cbn [skipn]. do 2 f_equal.
    change (join "/" ("."%string :: split_scan "/" "" rest))
      with (String.concat "/" ("."%string :: split_scan "/" "" rest)).
    rewrite concat_cons by apply split_scan_not_nil.
    pose proof (join_split_scan "/" "" rest) as J. unfold join in J.
    rewrite J. reflexivity.
  - intros a b Hp Ha Hb.
    rewrite (full_xpath_unfold c true sc xp Hscope Hxpath). fold p.
    rewrite Hp. unfold split.
    change (a ++ "/" ++ b)%string with (a ++ String "/" b)%string.
    rewrite split_scan_piece by exact Ha.
    rewrite split_scan_free by exact Hb. reflexivity.
  - intros Hp.
    rewrite (full_xpath_unfold c true sc xp Hscope Hxpath). fold p.
    unfold split. rewrite split_scan_free by exact Hp. reflexivity.
  - apply (full_xpath_unfold c false sc xp Hscope Hxpath).
Qed.

Lemma full_xpath_removes_root_witness :
  Citation.full_xpath
    (Citation.of_element Sample.tei_namespaces false Sample.book_citation)
    true None
  = Ok (replace_all "./tei:text/tei:body/tei:div[@n]" Sample.tei_namespaces).
Proof.
  destruct (full_xpath_removes_root
              (Citation.of_element Sample.tei_namespaces false Sample.book_citation)
              "/tei:TEI/tei:text/tei:body" "/tei:div[@n='?']" eq_refl eq_refl)
    as (H & _).
  exact (H ""%string "tei:TEI"%string "tei:text/tei:body/tei:div[@n]"%string
           eq_refl eq_refl eq_refl).
Defined.

(** ** File names *)

Lemma last_cons_not_nil (A : Type) (x : A) (l : list A) (d : A) :
  l <> [] -> last (x :: l) d = last l d.
Proof. destruct l; [congruence | reflexivity]. Qed.

Lemma free_of_app sep (a b : string) :
  Paths.free_of sep a -> Paths.free_of sep b -> Paths.free_of sep (a ++ b)%string.
Proof.
  unfold Paths.free_of. induction a as [|c a IH]; simpl; intros Ha Hb; [exact Hb|].
  apply andb_true_iff in Ha as [Hc Ha]. rewrite Hc. simpl. now apply IH.
Qed.

(** The last piece of a split has no separator, and what precedes it in
    the string is empty or ends with the separator. *)
Lemma last_split_scan sep s :
  forall cur,
    Paths.free_of sep cur ->
    exists dir,
      (cur ++ s)%string
      = (dir ++ last (split_scan sep cur s) EmptyString)%string
      /\ Paths.free_of sep (last (split_scan sep cur s) EmptyString)
      /\ Paths.closed_by sep dir.
Proof.
  induction s as [|c s IH]; intros cur Hcur; simpl.
  - exists EmptyString. rewrite append_nil_r. repeat split; [exact Hcur | now left].
  - destruct (Ascii.eqb c sep) eqn:E.
    + apply Ascii.eqb_eq in E. subst c.
      rewrite last_cons_not_nil by apply split_scan_not_nil.
      destruct (IH EmptyString eq_refl) as (dir & Heq & Hfree & Hclosed).
      exists (cur ++ String sep dir)%string. simpl in Heq.
      split; [|split; [exact Hfree|]].
      * rewrite append_assoc. simpl. now rewrite <- Heq.
      * right. destruct Hclosed as [-> | [d' ->]].
        -- exists cur. reflexivity.
        -- exists (cur ++ String sep d')%string. rewrite append_assoc. reflexivity.
    + assert (Hc : Paths.free_of sep (cur ++ String c "")%string).
      { apply free_of_app; [exact Hcur|]. unfold Paths.free_of. simpl.
        now rewrite E. }
      destruct (IH _ Hc) as (dir & Heq & Hfree & Hclosed).
      exists dir. rewrite append_assoc in Heq. simpl in Heq.
      repeat split; assumption.
Qed.

Lemma Document_init_fields parse xml rules strict d :
  Document.__init__ parse xml rules strict = Ok d ->
  Document.rewriting_rules d = rules
  /\ Document.filename d = basename (Document.path d).
Proof.
  unfold Document.__init__. intros H.
  apply bind_Ok_inv in H as (self_xml & _ & H).
  apply bind_Ok_inv in H as (path & _ & H).
  apply bind_Ok_inv in H as ([p filename] & Hbase & H).
  apply bind_Ok_inv in H as (validate & _ & H).
  apply bind_Ok_inv in H as (namespaces & _ & H).
  apply bind_Ok_inv in H as (citation_xml & _ & H).
  apply bind_Ok_inv in H as (citation & _ & H).
  injection H as <-. simpl. split; [reflexivity|].
  unfold Document.basename_opt in Hbase. destruct path; [|discriminate].
  now injection Hbase as <- <-.
Qed.

(** X2.  The file name of a Document is the part of its path after the last
    slash: it contains no slash, and the path is a directory part, empty
    or ending with a slash, followed by the file name. *)
Theorem Document_filename_of_path parse xml rules strict d
        (Hinit : Document.__init__ parse xml rules strict = Ok d) :
  Paths.free_of "/" (Document.filename d)
  /\ exists dir,
      Document.path d = (dir ++ Document.filename d)%string
      /\ Paths.closed_by "/" dir.
Proof.
  apply Document_init_fields in Hinit as [_ Hf]. rewrite Hf.
  destruct (last_split_scan "/" (Document.path d) EmptyString eq_refl)
    as (dir & Heq & Hfree & Hclosed).
  split; [exact Hfree|]. exists dir. split; [exact Heq | exact Hclosed].
Qed.

Lemma Document_filename_of_path_witness :
  exists d,
    Document.__init__ Sample.parse (XElement Sample.online) Sample.rules false
    = Ok d
    /\ Document.path d = ("/data/greek/" ++ Document.filename d)%string
    /\ Paths.free_of "/" (Document.filename d).
Proof.
  eexists. split; [vm_compute; reflexivity|].
  destruct (Document_filename_of_path Sample.parse (XElement Sample.online)
              Sample.rules false _ eq_refl) as (Hfree & _).
  split; [reflexivity | exact Hfree].
Defined.

(** ** Dictionaries in general *)

Section DictFacts.

Variables K V : Type.
Variable eqb : K -> K -> bool.
Hypothesis eqb_eq : forall a b, eqb a b = true <-> a = b.

Lemma eqb_refl_ k : eqb k k = true.
Proof. now apply eqb_eq. Qed.





Lemma dict_set_keys_In (d : dict K V) k v k' :
  In k' (dict_keys (dict_set eqb d k v)) <-> k' = k \/ In k' (dict_keys d).
Proof.
  unfold dict_keys. induction d as [|[k0 v0] d IH]; simpl.
  - intuition.
  - destruct (eqb k0 k) eqn:E; simpl.
    + apply eqb_eq in E. subst k0. intuition.
    + rewrite IH. intuition.
Qed.

(** Assignment keeps the keys of a dictionary distinct. *)
Lemma dict_set_NoDup (d : dict K V) k v :
  NoDup (dict_keys d) -> NoDup (dict_keys (dict_set eqb d k v)).
Proof.
  unfold dict_keys. induction d as [|[k0 v0] d IH]; simpl; intros H.
  - constructor; [intros [] | constructor].
  - inversion H as [|? ? Hnin Hd]; subst.
    destruct (eqb k0 k) eqn:E; simpl.
    + constructor; assumption.
    + constructor; [|now apply IH].
      intros Hin. apply (dict_set_keys_In d k v k0) in Hin as [->|Hin].
      * rewrite eqb_refl_ in E. discriminate.
      * exact (Hnin Hin).
Qed.

(** A key is in a dictionary exactly when looking it up finds a value. *)
Lemma dict_lookup_keys (d : dict K V) k :
  In k (dict_keys d) <-> exists v, dict_lookup eqb d k = Some v.
Proof.
  unfold dict_keys. induction d as [|[k0 v0] d IH]; simpl.
  - split; [intros [] | intros [v H]; discriminate].
  - destruct (eqb k0 k) eqn:E.
    + apply eqb_eq in E. split; eauto.
    + rewrite <- IH. split; [intros [->|H]; auto | auto].
      rewrite eqb_refl_ in E. discriminate.
Qed.

End DictFacts.

(** ** The namespace table of a Document *)


Lemma retrieveNamespace_fold xml :
  Document._retrieveNamespace xml
  = fold_left Namespaces.step (findall xml (ti "namespaceMapping")) (Ok []).
Proof. reflexivity. Qed.

Lemma step_raise_fold l e :
  fold_left Namespaces.step l (Raise e) = Raise e.
Proof. induction l as [|m l IH]; simpl; [reflexivity | exact IH]. Qed.

Lemma step_complete d m :
  Namespaces.complete m = true ->
  Namespaces.step (Ok d) m
  = Ok (dict_set String.eqb d (Namespaces.key_of m) (Namespaces.value_of m)).
Proof.
  unfold Namespaces.complete, Namespaces.step, Namespaces.key_of,
    Namespaces.value_of.
  destruct (get m "abbreviation"), (get m "nsURI"); simpl; try discriminate.
  reflexivity.
Qed.

Lemma step_incomplete d m :
  Namespaces.complete m = false -> Namespaces.step (Ok d) m = Raise TypeError.
Proof.
  unfold Namespaces.complete, Namespaces.step.
  destruct (get m "abbreviation"), (get m "nsURI"); simpl; try discriminate;
    reflexivity.
Qed.

(** [_retrieveNamespace] builds the table when every mapping element is
    complete, and raises [TypeError] otherwise. *)
Lemma fold_step_table l d :
  fold_left Namespaces.step l (Ok d)
  = if forallb Namespaces.complete l then Ok (Namespaces.table l d)
    else Raise TypeError.
Proof.
  revert d; induction l as [|m l IH]; intros d; cbn [fold_left forallb];
    [reflexivity|].
  destruct (Namespaces.complete m) eqn:E; cbn [andb].
  - rewrite step_complete by exact E. apply IH.
  - rewrite step_incomplete by exact E. apply step_raise_fold.
Qed.






(** ** What the constructors require *)

(** X4.  A Document is constructed from an element exactly when the element
    names its file ([docname]), has a [validate] child, has only complete
    [namespaceMapping] children and has a [citationMapping] child with a
    [citation] child; neither the strictness flag nor the rewrite rules
    change that. *)
Theorem Document_init_requirements parse (e : Element) rules strict :
  returns (Document.__init__ parse (XElement e) rules strict)
  <-> (exists db, get e "docname" = Some db)
      /\ (exists v, find e (ti "validate") = Some v)
      /\ forallb Namespaces.complete (findall e (ti "namespaceMapping")) = true
      /\ (exists m c, find e (ti "citationMapping") = Some m
                      /\ find m (ti "citation") = Some c).
Proof.
  split.
  - intros [d H]. unfold Document.__init__ in H. cbn [bind] in H.
    apply bind_Ok_inv in H as (path & Hpath & H).
    apply bind_Ok_inv in H as ([p filename] & Hbase & H).
    apply bind_Ok_inv in H as (validate & Hval & H).
    apply bind_Ok_inv in H as (namespaces & Hns & H).
    apply bind_Ok_inv in H as (citation_xml & Hmap & H).
    apply bind_Ok_inv in H as (citation & Hcit & _).
    split; [|split; [|split]].
    + unfold Document._getFilePath, replace_all_opt in Hpath.
      destruct (get e "docname") as [db|]; [eauto|].
      destruct rules; [|discriminate]. injection Hpath as <-. discriminate.
    + destruct (find e (ti "validate")); [eauto | discriminate].
    + rewrite retrieveNamespace_fold, fold_step_table in Hns.
      destruct (forallb _ _); [reflexivity | discriminate].
    + destruct (find e (ti "citationMapping")) as [m|]; [|discriminate].
      injection Hmap as <-. unfold Citation.__init__ in Hcit.
      destruct (find m (ti "citation")) as [c|] eqn:Hc;
        [exists m, c; auto | discriminate].
  - intros ((db & Hdb) & (v & Hv) & Hns & (m & c & Hm & Hc)).
    unfold Document.__init__, Document._getFilePath, Citation.__init__.
    cbn [bind]. rewrite Hdb, Hv, Hm, Hc.
    rewrite retrieveNamespace_fold, fold_step_table, Hns.
    eexists. reflexivity.
Qed.

(** X5.  A TextGroup is constructed from an element exactly when the element
    has a [groupname] child and each of its [work] children can be
    constructed; its name is the text of the first [groupname]. *)
Theorem TextGroup_init_requirements parse (e : Element) rules strict :
  (returns (TextGroup.__init__ parse (XElement e) rules strict)
   <-> (exists g, find e (ti "groupname") = Some g)
       /\ returns (TextGroup._retrieveWorks parse e rules))
  /\ (find e (ti "groupname") = None ->
      TextGroup.__init__ parse (XElement e) rules strict = Raise AttributeError)
  /\ (forall group,
         TextGroup.__init__ parse (XElement e) rules strict = Ok group ->
         exists g, find e (ti "groupname") = Some g
                   /\ TextGroup.getName group = text g
                   /\ TextGroup.getId group = get e "projid").
Proof.
  unfold TextGroup.__init__. cbn [Helpers.xmlParsing arg_get bind].
  split; [split|split].
  - intros [group H].
    destruct (find e (ti "groupname")) as [g|]; [|discriminate].
    cbn [bind] in H. apply bind_Ok_inv in H as (works & Hw & _).
    split; [eauto | exists works; exact Hw].
  - intros ((g & ->) & (works & Hw)). cbn [bind]. rewrite Hw.
    eexists. reflexivity.
  - intros ->. reflexivity.
  - intros group H.
    destruct (find e (ti "groupname")) as [g|]; [|discriminate].
    cbn [bind] in H. apply bind_Ok_inv in H as (works & Hw & H).
    injection H as <-. exists g. split; [reflexivity | split; reflexivity].
Qed.

Lemma TextGroup_init_requirements_witness :
  exists group,
    TextGroup.__init__ Sample.parse (XElement Sample.textgroup) Sample.rules true
    = Ok group
    /\ TextGroup.getName group = Some "Homer"%string.
Proof.
  destruct (TextGroup_init_requirements Sample.parse Sample.textgroup
              Sample.rules true) as (_ & _ & H).
  eexists. split; [vm_compute; reflexivity|].
  destruct (H _ eq_refl) as (g & Hg & Hname & _).
  injection Hg as <-. exact Hname.
Defined.

(** ** Citation chains read from XML *)

Lemma of_element_read ns strict (e : Element) :
  Chain.read_from_element ns strict (Citation.of_element ns strict e).
Proof.
  unfold Chain.read_from_element.
  rewrite of_element_children. destruct e; repeat split.
Qed.

Lemma of_element_chain_read ns strict (e : Element) :
  Forall (Chain.read_from_element ns strict)
         (Levels.chain (Citation.of_element ns strict e)).
Proof.
  induction e as [tg at_ tx ch IH] using Element_induction.
  rewrite chain_unfold. constructor; [apply of_element_read|].
  rewrite of_element_children.
  destruct (find (mkElement tg at_ tx ch) (ti "citation")) as [child|] eqn:Hf;
    simpl; [|constructor].
  apply find_some in Hf as [Hin _].
  rewrite Forall_forall in IH. exact (IH child Hin).
Qed.



Lemma Document_init_namespaces parse xml rules strict d :
  Document.__init__ parse xml rules strict = Ok d ->
  Document._retrieveNamespace (Document.xml d) = Ok (Document.namespaces d)
  /\ Citation.__init__ parse
       (match find (Document.xml d) (ti "citationMapping") with
        | Some m => of_find (find m (ti "citation"))
        | None => XNone
        end) (Document.namespaces d) strict
     = Ok (Document.citation d).
Proof.
  unfold Document.__init__. intros H.
  apply bind_Ok_inv in H as (self_xml & _ & H).
  apply bind_Ok_inv in H as (path & _ & H).
  apply bind_Ok_inv in H as ([p filename] & _ & H).
  apply bind_Ok_inv in H as (validate & _ & H).
  apply bind_Ok_inv in H as (namespaces & Hns & H).
  apply bind_Ok_inv in H as (citation_xml & Hmap & H).
  apply bind_Ok_inv in H as (citation & Hcit & H).
  injection H as <-. simpl. split; [exact Hns|].
  destruct (find self_xml (ti "citationMapping")); [|discriminate].
  injection Hmap as <-. exact Hcit.
Qed.

(** X7.  The namespace table a Document reads from its own mapping elements is
    the table of every level of its citation scheme, and the strictness of
    the Document is the strictness of every level. *)
Theorem Document_citation_shares_namespaces parse xml rules strict d
        (Hinit : Document.__init__ parse xml rules strict = Ok d) :
  Document._retrieveNamespace (Document.xml d) = Ok (Document.namespaces d)
  /\ Forall (fun l => Citation.namespaces l = Document.namespaces d
                      /\ Citation.strict l = Document.strict d)
            (Levels.chain (Document.citation d)).
Proof.
  pose proof (Document_init_inv _ _ _ _ _ Hinit) as (_ & Hs & _).
  apply Document_init_namespaces in Hinit as [Hns Hcit].
  split; [exact Hns|].
  unfold Citation.__init__ in Hcit.
  apply bind_Ok_inv in Hcit as (root & _ & Hc). injection Hc as Hc.
  rewrite <- Hc. generalize (of_element_chain_read (Document.namespaces d) strict root).
  apply Forall_impl. intros l (Hn & Hst & _). rewrite Hs. auto.
Qed.

Lemma Document_citation_shares_namespaces_witness :
  exists d,
    Document.__init__ Sample.parse (XElement Sample.online) Sample.rules false
    = Ok d
    /\ Document.namespaces d = Sample.tei_namespaces
    /\ Forall (fun l => Citation.namespaces l = Document.namespaces d
                        /\ Citation.strict l = Document.strict d)
              (Levels.chain (Document.citation d)).
Proof.
  eexists. split; [vm_compute; reflexivity|].
  split; [reflexivity|].
  exact (proj2 (Document_citation_shares_namespaces Sample.parse
                  (XElement Sample.online) Sample.rules false _ eq_refl)).
Defined.

(** ** The inventory tree *)

Lemma mapM_built (A B : Type) (f : A -> result B) l ys :
  mapM f l = Ok ys -> Forall (fun y => exists x, f x = Ok y) ys.
Proof. apply mapM_Forall. eauto. Qed.

Lemma Text_init_tree parse cls xml rules strict t :
  Text.__init__ parse cls xml rules strict = Ok t ->
  Text.cls t = cls
  /\ Text.rewriting_rules t = rules
  /\ Text.strict t = strict
  /\ xml = XElement (Text.xml t)
  /\ Text.id t = get (Text.xml t) "projid"
  /\ Text.titles t = Titles.gather (findall (Text.xml t) (ti "label")) []
  /\ Document.__init__ parse (of_find (find (Text.xml t) (ti "online")))
                       rules false
     = Ok (Text.document t).
Proof.
  unfold Text.__init__. intros H.
  apply bind_Ok_inv in H as (self_xml & Hxml & H).
  apply bind_Ok_inv in H as (id & Hid & H).
  apply bind_Ok_inv in H as (titles & Ht & H).
  apply bind_Ok_inv in H as (document & Hdoc & H).
  injection H as <-. simpl.
  destruct xml as [e| |]; try discriminate.
  injection Hxml as <-. injection Hid as <-.
  unfold Text._retrieveTitles in Ht. rewrite collect_titles_gather in Ht.
  destruct (strict && _); [discriminate|]. injection Ht as <-.
  split; [|split; [|split; [|split; [|split; [|split]]]]]; auto.
Qed.

Lemma Work_init_tree parse xml rules strict w :
  Work.__init__ parse xml rules strict = Ok w ->
  Work.rewriting_rules w = rules
  /\ Work.strict w = strict
  /\ Forall (Built.text parse rules Text.Edition) (Work.editions w)
  /\ Forall (Built.text parse rules Text.Translation) (Work.translations w).
Proof.
  unfold Work.__init__. intros H.
  apply bind_Ok_inv in H as (self_xml & _ & H).
  apply bind_Ok_inv in H as (id & _ & H).
  apply bind_Ok_inv in H as (titles & _ & H).
  apply bind_Ok_inv in H as (editions & He & H).
  apply bind_Ok_inv in H as (translations & Ht & H).
  injection H as <-. simpl.
  split; [reflexivity|]. split; [reflexivity|].
  split; [exact (mapM_built _ _ _ _ _ He) | exact (mapM_built _ _ _ _ _ Ht)].
Qed.

Lemma TextGroup_init_tree parse xml rules strict g :
  TextGroup.__init__ parse xml rules strict = Ok g ->
  TextGroup.rewriting_rules g = rules
  /\ TextGroup.strict g = strict
  /\ Forall (Built.work parse rules) (TextGroup.works g).
Proof.
  unfold TextGroup.__init__. intros H.
  apply bind_Ok_inv in H as (self_xml & _ & H).
  apply bind_Ok_inv in H as (id & _ & H).
  apply bind_Ok_inv in H as (name & _ & H).
  apply bind_Ok_inv in H as (works & Hw & H).
  injection H as <-. simpl.
  split; [reflexivity|]. split; [reflexivity|].
  exact (mapM_built _ _ _ _ _ Hw).
Qed.

Lemma Inventory_init_tree parse exists_ xml rules strict inv :
  Inventory.__init__ parse exists_ xml rules strict = Ok inv ->
  Inventory.rewriting_rules inv = rules
  /\ Inventory.strict inv = strict
  /\ Forall (Built.group parse rules) (Inventory.textGroups inv).
Proof.
  unfold Inventory.__init__. intros H.
  apply bind_Ok_inv in H as (path & _ & H).
  apply bind_Ok_inv in H as (self_xml & _ & H).
  apply bind_Ok_inv in H as (groups & Hg & H).
  injection H as <-. simpl.
  split; [reflexivity|]. split; [reflexivity|].
  exact (mapM_built _ _ _ _ _ Hg).
Qed.

(** A property of every text built below an inventory holds of every text
    that [getTexts] lists. *)
Lemma Inventory_texts_Forall parse exists_ xml rules strict inv
      (P : Text.t -> Prop) instanceOf :
  Inventory.__init__ parse exists_ xml rules strict = Ok inv ->
  (forall cls t, Built.text parse rules cls t -> P t) ->
  Forall P (Inventory.getTexts inv instanceOf).
Proof.
  intros Hinit HP.
  apply Inventory_init_tree in Hinit as (_ & _ & Hg).
  unfold Inventory.getTexts.
  apply Forall_flat_map. revert Hg. apply Forall_impl.
  intros g [x Hx]. apply TextGroup_init_tree in Hx as (_ & _ & Hw).
  apply Forall_flat_map. revert Hw. apply Forall_impl.
  intros w [y Hy]. apply Work_init_tree in Hy as (_ & _ & He & Ht).
  apply Forall_app. split.
  - destruct (mem _ _ _); [|constructor].
    revert He. apply Forall_impl. intros t. apply HP.
  - destruct (mem _ _ _); [|constructor].
    revert Ht. apply Forall_impl. intros t. apply HP.
Qed.



(** ** Listing the texts *)

Lemma filter_flat_map (A B : Type) (p : B -> bool) (f : A -> list B) l :
  filter p (flat_map f l) = flat_map (fun x => filter p (f x)) l.
Proof.
  induction l as [|x l IH]; simpl; [reflexivity|].
  now rewrite filter_app, IH.
Qed.

Lemma filter_all (A : Type) (p : A -> bool) (b : bool) l :
  Forall (fun x => p x = b) l -> filter p l = if b then l else [].
Proof.
  induction l as [|x l IH]; intros H; simpl.
  - now destruct b.
  - apply Forall_cons_iff in H as [Hx Hl]. rewrite Hx, (IH Hl).
    now destruct b.
Qed.

Lemma flat_map_ext_Forall (A B : Type) (f g : A -> list B) (P : A -> Prop) l :
  Forall P l -> (forall x, P x -> f x = g x) -> flat_map f l = flat_map g l.
Proof.
  intros HF Hfg. induction HF as [|x l Hx _ IH]; simpl; [reflexivity|].
  now rewrite (Hfg x Hx), IH.
Qed.

Lemma filter_no_class (l : list Text.t) : filter (instance_of []) l = [].
Proof. induction l as [|t l IH]; simpl; auto. Qed.

Lemma filter_classes_length (l : list Text.t) :
  length l
  = length (filter (instance_of [Text.Edition]) l)
    + length (filter (instance_of [Text.Translation]) l).
Proof.
  induction l as [|t l IH]; [reflexivity|].
  cbn [filter].
  assert (H : instance_of [Text.Edition] t
              = negb (instance_of [Text.Translation] t))
    by (unfold instance_of; destruct (Text.cls t); reflexivity).
  rewrite H. destruct (instance_of [Text.Translation] t); simpl; lia.
Qed.

(** X9.  [getTexts(instanceOf)] of a built inventory lists, in the order of
    the full list, exactly the texts whose class is in [instanceOf]: the
    order of [instanceOf] and repetitions in it do not matter, and an
    empty [instanceOf] lists nothing. *)
Theorem getTexts_filters_by_class parse exists_ xml rules strict inv
        (Hinit : Inventory.__init__ parse exists_ xml rules strict = Ok inv) :
  (forall instanceOf,
      Inventory.getTexts inv instanceOf
      = filter (instance_of instanceOf)
               (Inventory.getTexts inv Inventory.instanceOf_default))
  /\ Forall (fun t => Text.cls t = Text.Edition)
            (Inventory.getTexts inv [Text.Edition])
  /\ Forall (fun t => Text.cls t = Text.Translation)
            (Inventory.getTexts inv [Text.Translation])
  /\ Inventory.getTexts inv [] = []
  /\ length (Inventory.getTexts inv Inventory.instanceOf_default)
     = length (Inventory.getTexts inv [Text.Edition])
       + length (Inventory.getTexts inv [Text.Translation]).
Proof.
  apply Inventory_init_tree in Hinit as (_ & _ & Hg).
  assert (Hwork : forall g, Built.group parse rules g ->
            Forall (fun w =>
                      Forall (fun t => Text.cls t = Text.Edition) (Work.editions w)
                      /\ Forall (fun t => Text.cls t = Text.Translation)
                                (Work.translations w))
                   (TextGroup.works g)).
  { intros g [x Hx]. apply TextGroup_init_tree in Hx as (_ & _ & Hw).
    revert Hw. apply Forall_impl. intros w [y Hy].
    apply Work_init_tree in Hy as (_ & _ & He & Ht).
    split; [revert He | revert Ht]; apply Forall_impl; intros t [z Hz];
      now apply Text_init_tree in Hz. }
  assert (Hfilter : forall instanceOf,
            Inventory.getTexts inv instanceOf
            = filter (instance_of instanceOf)
                     (Inventory.getTexts inv Inventory.instanceOf_default)).
  { intros instanceOf. unfold Inventory.getTexts.
    rewrite filter_flat_map.
    apply flat_map_ext_Forall with (P := Built.group parse rules); [exact Hg|].
    intros g Hgb. rewrite filter_flat_map.
    apply flat_map_ext_Forall with (1 := Hwork g Hgb).
    intros w [He Ht]. cbn [mem existsb Inventory.instanceOf_default
                              Text.class_eqb orb].
    rewrite filter_app.
    rewrite (filter_all _ (instance_of instanceOf)
               (mem Text.class_eqb Text.Edition instanceOf) (Work.editions w)).
    - rewrite (filter_all _ (instance_of instanceOf)
                 (mem Text.class_eqb Text.Translation instanceOf)
                 (Work.translations w)); [reflexivity|].
      revert Ht. apply Forall_impl. intros t Hc. unfold instance_of.
      now rewrite Hc.
    - revert He. apply Forall_impl. intros t Hc. unfold instance_of.
      now rewrite Hc. }
  assert (Hcls : forall cls,
            Forall (fun t => Text.cls t = cls) (Inventory.getTexts inv [cls])).
  { intros cls. rewrite Hfilter. apply Forall_forall. intros t Hin.
    apply filter_In in Hin as [_ Hin]. unfold instance_of in Hin. simpl in Hin.
    destruct (Text.cls t), cls; simpl in Hin; try discriminate; reflexivity. }
  split; [exact Hfilter|]. split; [apply Hcls|]. split; [apply Hcls|].
  split.
  - rewrite Hfilter. apply filter_no_class.
  - rewrite (Hfilter [Text.Edition]), (Hfilter [Text.Translation]).
    apply filter_classes_length.
Qed.

Lemma getTexts_filters_by_class_witness :
  exists inv edition translation,
    Inventory.__init__ Fixture.parse Sample.exists_ (XStr "inventory.xml")
                       Sample.rules false = Ok inv
    /\ Inventory.getTexts inv Inventory.instanceOf_default
       = [edition; translation]
    /\ Inventory.getTexts inv [Text.Translation; Text.Edition]
       = [edition; translation]
    /\ Inventory.getTexts inv [Text.Translation] = [translation].
Proof.
  do 3 eexists.
  split; [vm_compute; reflexivity|].
  split; [vm_compute; reflexivity|].
  destruct (getTexts_filters_by_class Fixture.parse Sample.exists_
              (XStr "inventory.xml") Sample.rules false _ eq_refl)
    as (H & _).
  split; rewrite H; vm_compute; reflexivity.
Defined.

(** ** Reading the file of a Document *)

Lemma getFile_cases read d :
  Document.getFile read d
  = match read (Document.path d) with
    | Ok content => Ok (Some content, [])
    | Raise E =>
        if Document.strict d then Raise E
        else Ok (None,
                 [Error ("The file " ++ Document.path d
                         ++ " does not exist or can't be opened")%string])
    end.
Proof. reflexivity. Qed.

(** X10.  Every Document below an Inventory is lenient, whatever the strictness
    of the Inventory, so [getFile] never raises on it: it returns the
    content and prints nothing when the file can be read, and returns
    [None] after printing one message that names the path when it cannot.
    A strict Document instead raises the very exception of the read. *)
Theorem getFile_of_inventory_text parse exists_ xml rules strict inv read
        (Hinit : Inventory.__init__ parse exists_ xml rules strict = Ok inv) :
  Forall (fun t =>
            let d := Text.document t in
            (forall content,
                read (Document.path d) = Ok content ->
                Document.getFile read d = Ok (Some content, []))
            /\ (forall E,
                   read (Document.path d) = Raise E ->
                   Document.getFile read d
                   = Ok (None,
                         [Error ("The file " ++ Document.path d
                                 ++ " does not exist or can't be opened")%string])))
         (Inventory.getTexts inv Inventory.instanceOf_default)
  /\ (forall d E,
         Document.strict d = true ->
         read (Document.path d) = Raise E ->
         Document.getFile read d = Raise E).
Proof.
  split.
  - apply (Inventory_texts_Forall _ _ _ _ _ _ _ _ Hinit).
    intros cls t [x Hx].
    apply Text_init_tree in Hx as (_ & _ & _ & _ & _ & _ & Hd).
    apply Document_init_inv in Hd as (_ & Hs & _).
    cbv zeta. rewrite getFile_cases, Hs. split.
    + intros content ->. reflexivity.
    + intros E ->. reflexivity.
  - intros d E Hs Hr. rewrite getFile_cases, Hr, Hs. reflexivity.
Qed.

Lemma getFile_of_inventory_text_witness :
  exists inv text,
    Inventory.__init__ Sample.parse Sample.exists_ (XStr "inventory.xml")
                       Sample.rules true = Ok inv
    /\ Inventory.getTexts inv Inventory.instanceOf_default = [text]
    /\ Document.getFile Fixture.read_file (Text.document text)
       = Ok (Some "<TEI/>"%string, [])
    /\ Document.getFile (fun _ => Raise IOError) (Text.document text)
       = Ok (None,
             [Error "The file /data/greek/tlg0012.tlg001 does not exist or can't be opened"]).
Proof.
  eexists. eexists.
  split; [vm_compute; reflexivity|].
  split; [vm_compute; reflexivity|].
  split.
  - destruct (getFile_of_inventory_text Sample.parse Sample.exists_
                (XStr "inventory.xml") Sample.rules true _ Fixture.read_file
                eq_refl) as (H & _).
    apply Forall_inv in H. destruct H as [H _].
    exact (H "<TEI/>"%string eq_refl).
  - destruct (getFile_of_inventory_text Sample.parse Sample.exists_
                (XStr "inventory.xml") Sample.rules true _
                (fun _ => Raise IOError) eq_refl) as (H & _).
    apply Forall_inv in H. destruct H as [_ H].
    exact (H IOError eq_refl).
Defined.

(** ** Batch testing, in general *)

(** X11.  [testTextsCitation] returns exactly when the inventory lists no text,
    and then returns the empty list; with at least one text it raises
    [TypeError], for either value of [ignore_replication] and whatever the
    documents contain. *)
Theorem testTextsCitation_returns_iff_no_text parse findall_ inv flag :
  (returns (Inventory.testTextsCitation parse findall_ inv flag)
   <-> Inventory.getTexts inv Inventory.instanceOf_default = [])
  /\ (forall results,
         Inventory.testTextsCitation parse findall_ inv flag = Ok results ->
         results = [])
  /\ (Inventory.getTexts inv Inventory.instanceOf_default <> [] ->
      Inventory.testTextsCitation parse findall_ inv flag = Raise TypeError).
Proof.
  assert (Hraise := testTextsCitation_raises parse findall_ inv flag).
  assert (Hempty := testTextsCitation_empty parse findall_ inv flag).
  split; [split|split].
  - intros [results H].
    destruct (Inventory.getTexts inv Inventory.instanceOf_default) eqn:E;
      [reflexivity|].
    rewrite Hraise in H by discriminate. discriminate.
  - intros E. rewrite (Hempty E). eexists. reflexivity.
  - intros results H.
    destruct (Inventory.getTexts inv Inventory.instanceOf_default) eqn:E.
    + rewrite (Hempty eq_refl) in H. now injection H as <-.
    + rewrite Hraise in H by discriminate. discriminate.
  - exact Hraise.
Qed.

(** ** What the constructors accept *)

(** X12.  [Text] reads [projid] from the raw argument, so it cannot be
    constructed from a path: when the path parses, the constructor raises
    [AttributeError].  [Citation] and [Document] accept a path:
    constructing from a path is constructing from the root that the path
    parses to, and raises what the parser raises when it does not parse. *)
Theorem constructors_and_paths parse (path : string) rules strict :
  (forall cls t, Text.__init__ parse cls (XStr path) rules strict <> Ok t)
  /\ (forall root cls,
         parse path = Ok root ->
         Text.__init__ parse cls (XStr path) rules strict
         = Raise AttributeError)
  /\ (forall namespaces,
         returns (Citation.__init__ parse (XStr path) namespaces strict)
         <-> returns (parse path))
  /\ (forall namespaces,
         Citation.__init__ parse (XStr path) namespaces strict
         = (root <- parse path ;;
            Citation.__init__ parse (XElement root) namespaces strict))
  /\ Document.__init__ parse (XStr path) rules strict
     = (root <- parse path ;;
        Document.__init__ parse (XElement root) rules strict).
Proof.
  split; [|split; [|split; [|split]]].
  - intros cls t H. apply Text_init_tree in H as (_ & _ & _ & Hx & _).
    discriminate.
  - intros root cls Hp. unfold Text.__init__. cbn [arg_get]. rewrite Hp.
    reflexivity.
  - intros namespaces. unfold Citation.__init__.
    destruct (parse path) as [root|e]; split; intros [x H];
      try discriminate; eexists; reflexivity.
  - intros namespaces. unfold Citation.__init__.
    destruct (parse path); reflexivity.
  - unfold Document.__init__. destruct (parse path); reflexivity.
Qed.

Lemma constructors_and_paths_witness :
  Text.__init__ Sample.parse Text.Edition (XStr "inventory.xml") Sample.rules
                false
  = Raise AttributeError
  /\ returns (Citation.__init__ Sample.parse (XStr "inventory.xml") [] false).
Proof.
  destruct (constructors_and_paths Sample.parse "inventory.xml" Sample.rules
              false) as (_ & H & Hc & _).
  split.
  - exact (H Sample.inventory Text.Edition eq_refl).
  - apply Hc. exists Sample.inventory. reflexivity.
Defined.

Lemma testTextsCitation_returns_iff_no_text_witness :
  Inventory.testTextsCitation Sample.parse Sample.findall_one
    (Inventory.Build true [] None Sample.tei_document []) false
  = Ok [].
Proof.
  destruct (testTextsCitation_returns_iff_no_text Sample.parse
              Sample.findall_one
              (Inventory.Build true [] None Sample.tei_document []) false)
    as ([_ H] & Hres & _).
  destruct (H eq_refl) as [results Hr].
  rewrite Hr. f_equal. exact (Hres results Hr).
Defined.

(** ** Titles of works and texts *)

Lemma gather_NoDup l d :
  NoDup (dict_keys d) -> NoDup (dict_keys (Titles.gather l d)).
Proof.
  revert d; induction l as [|x l IH]; intros d H; simpl; [exact H|].
  apply IH, dict_set_NoDup; [exact option_string_eqb_eq | exact H].
Qed.

Lemma gather_keys l d lang :
  In lang (dict_keys (Titles.gather l d))
  <-> In lang (dict_keys d) \/ exists title, In title l /\ get title xml_lang = lang.
Proof.
  revert d; induction l as [|x l IH]; intros d; simpl.
  - split; [auto | intros [H | (t & [] & _)]; exact H].
  - rewrite IH.
    rewrite (dict_set_keys_In _ _ option_string_eqb option_string_eqb_eq).
    split.
    + intros [[-> | H] | (t & Hin & Hl)]; eauto.
    + intros [H | (t & [<- | Hin] & Hl)]; eauto.
Qed.

(** X13.  The title mapping of a Work built from XML has one entry per language
    that a [title] child declares (a missing [xml:lang] counting as the
    language [None]), no language twice, and under each language the text
    of the last title that declares it. *)
Theorem Work_titles_mapping parse (e : Element) rules strict w
        (Hinit : Work.__init__ parse (XElement e) rules strict = Ok w) :
  NoDup (dict_keys (Work.titles w))
  /\ (forall lang,
         In lang (dict_keys (Work.titles w))
         <-> exists title,
             In title (findall e (ti "title")) /\ get title xml_lang = lang)
  /\ (forall before title after,
         findall e (ti "title") = before ++ title :: after ->
         Forall (fun t => get t xml_lang <> get title xml_lang) after ->
         dict_lookup option_string_eqb (Work.titles w) (get title xml_lang)
         = Some (text title)).
Proof.
  apply Work_init_inv in Hinit as [Ht _]. rewrite Ht.
  split; [apply gather_NoDup; constructor|]. split.
  - intros lang. rewrite gather_keys. simpl. tauto.
  - intros before title after -> Hafter. now apply gather_lookup_last.
Qed.

Lemma Work_titles_mapping_witness :
  exists w,
    Work.__init__ Sample.parse (XElement Sample.work) Sample.rules false = Ok w
    /\ dict_keys (Work.titles w) = [Some "en"; Some "fr"]%string
    /\ dict_lookup option_string_eqb (Work.titles w) (Some "fr"%string)
       = Some (Some "B"%string).
Proof.
  eexists. split; [vm_compute; reflexivity|].
  split; [reflexivity|].
  destruct (Work_titles_mapping Sample.parse Sample.work Sample.rules false _
              eq_refl) as (_ & _ & H).
  exact (H [Sample.title (Some "en"%string) "A"]
           (Sample.title (Some "fr"%string) "B") [] eq_refl (Forall_nil _)).
Defined.

(** X14.  [Text.getTitle(lang)] returns the title stored under [lang] when there
    is one and otherwise the first title of the mapping: unlike
    [Work.getTitle] it does not prefer ["en"] or ["eng"], so a Work and a
    text with the same titles can answer an unknown language differently.
    On a text without any title it raises. *)
Theorem Text_getTitle_first_title (t : Text.t) :
  (forall key title0 rest lang,
      Text.titles t = (key, title0) :: rest ->
      Text.getTitle t lang
      = Ok (match dict_lookup option_string_eqb (Text.titles t) lang with
            | Some title => title
            | None => title0
            end))
  /\ (forall key title0 rest lang english w,
         Text.titles t = (key, title0) :: rest ->
         Work.titles w = Text.titles t ->
         dict_lookup option_string_eqb (Text.titles t) lang = None ->
         dict_lookup option_string_eqb (Text.titles t) (Some "en"%string)
         = Some english ->
         Text.getTitle t lang = Ok title0
         /\ Work.getTitle w lang = Ok english)
  /\ (Text.titles t = [] ->
      forall lang, exists E, Text.getTitle t lang = Raise E).
Proof.
  assert (Hfirst : forall key title0 rest lang,
             Text.titles t = (key, title0) :: rest ->
             Text.getTitle t lang
             = Ok (match dict_lookup option_string_eqb (Text.titles t) lang with
                   | Some title => title
                   | None => title0
                   end)).
  { intros key title0 rest lang Ht. unfold Text.getTitle, dict_getitem.
    rewrite Ht at 1. cbn [dict_keys map fst first bind].
    rewrite (lookup_first_key _ key title0 rest Ht). reflexivity. }
  split; [exact Hfirst|]. split.
  - intros key title0 rest lang english w Ht Hw Hl Hen.
    rewrite (Hfirst key title0 rest lang Ht), Hl. split; [reflexivity|].
    assert (Hne : Work.titles w <> []) by (rewrite Hw, Ht; discriminate).
    destruct (getTitle_body_default w lang Hne) as (d & Hd & Hb).
    unfold Work.getTitle. rewrite Hb. unfold dict_get. rewrite Hw, Hl.
    unfold Titles.default_title in Hd. rewrite Hw, Hen in Hd.
    now injection Hd as <-.
  - intros Ht lang. unfold Text.getTitle. rewrite Ht. simpl. eauto.
Qed.

Lemma Text_getTitle_first_title_witness :
  exists inv edition translation,
    Inventory.__init__ Fixture.parse Sample.exists_ (XStr "inventory.xml")
                       Sample.rules false = Ok inv
    /\ Inventory.getTexts inv Inventory.instanceOf_default
       = [edition; translation]
    /\ Text.getTitle translation (Some "de"%string) = Ok (Some "Iliade"%string)
    /\ Text.getTitle translation (Some "en"%string) = Ok (Some "Iliad"%string).
Proof.
  do 3 eexists.
  split; [vm_compute; reflexivity|].
  split; [vm_compute; reflexivity|].
  split.
  - match goal with
    | |- Text.getTitle ?t _ = _ =>
        destruct (Text_getTitle_first_title t) as (H & _);
        exact (H _ _ _ (Some "de"%string) eq_refl)
    end.
  - match goal with
    | |- Text.getTitle ?t _ = _ =>
        destruct (Text_getTitle_first_title t) as (H & _);
        exact (H _ _ _ (Some "en"%string) eq_refl)
    end.
Defined.

(** ** The citation test, whatever the chain *)

Lemma depth_positive (c : Citation.t) : 1 <= Citation.depth c.
Proof. destruct c as [x l xp sc ns st [child|]]; simpl; lia. Qed.

Lemma depth_unfold (c : Citation.t) :
  Citation.depth c
  = match Citation.children c with
    | Some child => S (Citation.depth child)
    | None => 1
    end.
Proof. destruct c as [x l xp sc ns st [child|]]; reflexivity. Qed.

Lemma test_parsed_raise parse findall_ c target level xml E :
  Citation.parse_target parse target = Citation.Parsed xml ->
  Citation.full_xpath c true None = Raise E ->
  Citation.test parse findall_ c target level = Raise E.
Proof.
  intros Hp Hx. destruct c as [x l xp sc ns st child].
  cbn [Citation.test]. rewrite Hp, Hx. reflexivity.
Qed.

(** What a level contributes when the whole test returns: one boolean,
    and no warning when the boolean is true. *)
Lemma test_parsed_inv parse findall_ c target level xml status warnings :
  Citation.parse_target parse target = Citation.Parsed xml ->
  Citation.test parse findall_ c target level = Ok (status, warnings) ->
  exists b w rest_status rest_warnings,
    status = b :: rest_status
    /\ warnings = w ++ rest_warnings
    /\ (b = true -> w = [])
    /\ match Citation.children c with
       | Some child =>
           Citation.test parse findall_ child target (level + 1)
           = Ok (rest_status, rest_warnings)
       | None => rest_status = [] /\ rest_warnings = []
       end.
Proof.
  intros Hp H.
  destruct (Citation.full_xpath c true None) as [xpath|E] eqn:Hx.
  - rewrite (test_parsed parse findall_ c target level xml xpath Hp Hx) in H.
    apply bind_Ok_inv in H as ([st w] & Hlevel & H).
    assert (Hst : exists b, st = [b] /\ (b = true -> w = [])).
    { destruct (Levels.level_status findall_ xml c).
      - injection Hlevel as <- <-. eauto.
      - apply bind_Ok_inv in Hlevel as (tn & _ & Hl). injection Hl as <- <-.
        exists false. split; [reflexivity | discriminate]. }
    destruct Hst as (b & -> & Hb).
    exists b, w.
    destruct (Citation.children c) as [child|].
    + apply bind_Ok_inv in H as ([s w'] & Hchild & H).
      injection H as <- <-. exists s, w'. auto.
    + injection H as <- <-. exists [], []. rewrite app_nil_r. auto.
  - rewrite (test_parsed_raise parse findall_ c target level xml E Hp Hx) in H.
    discriminate.
Qed.

(** X15.  Whenever [test] returns, the status list is [[False]] if the target
    was absent or could not be parsed, and holds exactly one boolean per
    level if it was parsed; it is never empty and never longer than the
    chain. *)
Theorem test_status_bounds parse findall_ c target level status warnings
        (Hret : Citation.test parse findall_ c target level
                = Ok (status, warnings)) :
  1 <= length status <= Citation.depth c
  /\ (forall xml,
         Citation.parse_target parse target = Citation.Parsed xml ->
         length status = Citation.depth c)
  /\ ((forall xml,
          Citation.parse_target parse target <> Citation.Parsed xml) ->
      status = [false]).
Proof.
  assert (Hparsed : forall xml,
             Citation.parse_target parse target = Citation.Parsed xml ->
             length status = Citation.depth c).
  { intros xml Hp. revert level status warnings Hret.
    induction c as [x l xp sc ns st child IH] using Citation_induction.
    intros level status warnings Hret.
    apply (test_parsed_inv _ _ _ _ _ xml _ _ Hp) in Hret
      as (b & w & rs & rw & -> & _ & _ & Hchild).
    rewrite depth_unfold. cbn [Citation.children] in *.
    destruct child as [child|].
    - simpl. f_equal. exact (IH _ _ _ Hchild).
    - destruct Hchild as [-> _]. reflexivity. }
  assert (Hother : (forall xml,
             Citation.parse_target parse target <> Citation.Parsed xml) ->
             status = [false]).
  { intros Hn. destruct (Citation.parse_target parse target) as [|xml|] eqn:Hp.
    - rewrite (test_not_parsed parse findall_ c target level Hp) in Hret.
      now injection Hret as <- _.
    - exfalso. exact (Hn xml eq_refl).
    - rewrite (test_parse_failed parse findall_ c target level Hp) in Hret.
      destruct (Citation.strict c); [discriminate|].
      now injection Hret as <- _. }
  split; [|split; [exact Hparsed | exact Hother]].
  pose proof (depth_positive c) as Hd.
  destruct (Citation.parse_target parse target) as [|xml|] eqn:Hp.
  - rewrite Hother by discriminate. simpl. lia.
  - rewrite (Hparsed xml eq_refl). lia.
  - rewrite Hother by discriminate. simpl. lia.
Qed.

Lemma test_status_bounds_witness :
  exists status warnings,
    Citation.test Sample.parse Sample.findall_none
      (Citation.of_element Sample.tei_namespaces false Sample.book_citation)
      (Some "missing.xml"%string) 1
    = Ok (status, warnings)
    /\ status = [false].
Proof.
  eexists. eexists. split; [vm_compute; reflexivity|].
  match goal with
  | |- ?s = _ =>
      destruct (test_status_bounds Sample.parse Sample.findall_none
                  (Citation.of_element Sample.tei_namespaces false
                                       Sample.book_citation)
                  (Some "missing.xml"%string) 1 s _ eq_refl) as (_ & _ & H);
      apply H; intros xml; vm_compute; discriminate
  end.
Defined.

(** X16.  A test that reports every level as matched reports no warning. *)
Theorem test_all_true_no_warning parse findall_ c target level status warnings
        (Hret : Citation.test parse findall_ c target level
                = Ok (status, warnings))
        (Hall : forallb (fun b => b) status = true) :
  warnings = []
  /\ exists xml, Citation.parse_target parse target = Citation.Parsed xml.
Proof.
  destruct (Citation.parse_target parse target) as [|xml|] eqn:Hp.
  - rewrite (test_not_parsed parse findall_ c target level Hp) in Hret.
    injection Hret as <- _. discriminate.
  - split; [|eauto]. revert level status warnings Hret Hall.
    induction c as [x l xp sc ns st child IH] using Citation_induction.
    intros level status warnings Hret Hall.
    apply (test_parsed_inv _ _ _ _ _ xml _ _ Hp) in Hret
      as (b & w & rs & rw & -> & -> & Hb & Hchild).
    simpl in Hall. apply andb_true_iff in Hall as [-> Hrs].
    rewrite (Hb eq_refl). cbn [Citation.children] in *.
    destruct child as [child|].
    + simpl. exact (IH _ _ _ Hchild Hrs).
    + now destruct Hchild as [_ ->].
  - rewrite (test_parse_failed parse findall_ c target level Hp) in Hret.
    destruct (Citation.strict c); [discriminate|].
    injection Hret as <- _. discriminate.
Qed.

Lemma test_all_true_no_warning_witness :
  exists warnings,
    Citation.test Sample.parse Sample.findall_one
      (Citation.of_element Sample.tei_namespaces false Sample.book_citation)
      (Some "/data/greek/tlg0012.tlg001"%string) 1
    = Ok ([true; true], warnings)
    /\ warnings = [].
Proof.
  eexists. split; [vm_compute; reflexivity|].
  exact (proj1 (test_all_true_no_warning Sample.parse Sample.findall_one
                  (Citation.of_element Sample.tei_namespaces false
                                       Sample.book_citation)
                  (Some "/data/greek/tlg0012.tlg001"%string) 1
                  [true; true] [] eq_refl eq_refl)).
Defined.

(** X17.  Without a parsed document the chain is not walked.  An absent or
    empty target gives [([False], [])] without consulting the parser; a
    target that fails to parse gives one [False] and one message for a
    lenient Citation, and [ValueError], not the parser's exception, for a
    strict one.  Only the strictness of the first level matters, and
    neither the depth of the chain nor its attributes do. *)
Theorem test_without_document parse findall_ c level :
  (forall target,
      Citation.truthy target = false ->
      Citation.test parse findall_ c target level = Ok ([false], []))
  /\ (forall path E,
         path <> EmptyString ->
         parse path = Raise E ->
         Citation.test parse findall_ c (Some path) level
         = if Citation.strict c then Raise ValueError
           else Ok ([false], [Error "Impossible to parse given element"])).
Proof.
  split.
  - intros target Ht. apply test_not_parsed.
    unfold Citation.parse_target. destruct target; [now rewrite Ht | reflexivity].
  - intros path E Hne Hp. apply test_parse_failed.
    unfold Citation.parse_target, Citation.truthy.
    apply String.eqb_neq in Hne. now rewrite Hne, Hp.
Qed.

Lemma test_without_document_witness :
  Citation.test Sample.parse Sample.findall_one
    (Citation.of_element Sample.tei_namespaces true Sample.bare_citation)
    (Some ""%string) 1
  = Ok ([false], [])
  /\ Citation.test Sample.parse Sample.findall_one
       (Citation.of_element Sample.tei_namespaces false Sample.book_citation)
       (Some "missing.xml"%string) 1
     = Ok ([false], [Error "Impossible to parse given element"]).
Proof.
  split.
  - apply test_without_document. reflexivity.
  - exact (proj2 (test_without_document Sample.parse Sample.findall_one
                    (Citation.of_element Sample.tei_namespaces false
                                         Sample.book_citation) 1)
             "missing.xml"%string IOError
             ltac:(discriminate) eq_refl).
Defined.

(** ** The shortcut pattern and the namespace diagnostics *)

Lemma alnum_colon : Regex.alnum ":" = false.
Proof. reflexivity. Qed.

Lemma occurs_cons c s :
  Shortcut.occurs (String c s)
  <-> (Regex.alnum c = true /\ exists b, s = String ":" b) \/ Shortcut.occurs s.
Proof.
  unfold Shortcut.occurs. split.
  - intros (a & x & b & Heq & Hx). destruct a as [|y a]; simpl in Heq.
    + injection Heq as -> ->. left. eauto.
    + injection Heq as -> ->. right. eauto.
  - intros [(Hc & b & ->) | (a & x & b & -> & Hx)].
    + exists EmptyString, c, b. auto.
    + exists (String c a), x, b. auto.
Qed.

Lemma occurs_nil : ~ Shortcut.occurs EmptyString.
Proof. intros (a & c & b & H & _). destruct a; discriminate. Qed.

(** The scan finds nothing when no letter or digit is followed by a
    colon, and something otherwise, the run being read counting as what
    precedes [s]. *)
Lemma findall_scan_cases run s :
  (Regex.findall_scan run s = []
   /\ ~ (Shortcut.occurs s
         \/ (run <> EmptyString /\ exists b, s = String ":" b)))
  \/ (Regex.findall_scan run s <> []
      /\ (Shortcut.occurs s
          \/ (run <> EmptyString /\ exists b, s = String ":" b))).
Proof.
  revert run; induction s as [|c s IH]; intros run; simpl.
  - left. split; [reflexivity|].
    intros [H | (_ & b & H)]; [exact (occurs_nil H) | discriminate].
  - destruct (Regex.alnum c) eqn:Hc.
    + destruct (IH (run ++ String c "")%string) as [[E Hn] | [E Hy]].
      * left. split; [exact E|]. intros H. apply Hn. clear Hn.
        destruct H as [Ho | (_ & b & Hb)].
        -- apply occurs_cons in Ho as [(_ & b & ->) | Ho]; [|now left].
           right. split; [destruct run; discriminate | eauto].
        -- injection Hb as -> _. rewrite alnum_colon in Hc. discriminate.
      * right. split; [exact E|]. left. apply occurs_cons.
        destruct Hy as [Ho | (_ & b & ->)]; [now right | left; eauto].
    + destruct (Ascii.eqb c ":" && negb (String.eqb run "")) eqn:E.
      * right. split; [discriminate|]. right.
        apply andb_true_iff in E as [E1 E2].
        apply Ascii.eqb_eq in E1. apply negb_true_iff in E2.
        apply String.eqb_neq in E2. subst c. eauto.
      * destruct (IH EmptyString) as [[F Hn] | [F Hy]].
        -- left. split; [exact F|]. intros H. apply Hn. clear Hn.
           destruct H as [Ho | (Hr & b & Hb)].
           ++ apply occurs_cons in Ho as [(Hc' & _) | Ho]; [|now left].
              rewrite Hc in Hc'. discriminate.
           ++ injection Hb as -> _. apply String.eqb_neq in Hr.
              rewrite Ascii.eqb_refl, Hr in E. discriminate.
        -- right. split; [exact F|]. left. apply occurs_cons. right.
           destruct Hy as [Ho | (Hr & _)]; [exact Ho | congruence].
Qed.

Lemma findall_scan_nil s :
  Regex.findall_scan "" s = [] <-> ~ Shortcut.occurs s.
Proof.
  destruct (findall_scan_cases "" s) as [[E Hn] | [E Hy]].
  - split; [tauto | auto].
  - split; [congruence|]. intros Hn. exfalso.
    destruct Hy as [Ho | (Hr & _)]; [exact (Hn Ho) | congruence].
Qed.

Lemma findall_scan_occurs s :
  Regex.findall_scan "" s <> [] <-> Shortcut.occurs s.
Proof.
  destruct (findall_scan_cases "" s) as [[E Hn] | [E Hy]].
  - split; [congruence | tauto].
  - split; [|auto]. intros _.
    destruct Hy as [Ho | (Hr & _)]; [exact Ho | congruence].
Qed.

Lemma all_chars_app p (a b : string) :
  all_chars p (a ++ b)%string = all_chars p a && all_chars p b.
Proof.
  induction a as [|c a IH]; simpl; [reflexivity|].
  now rewrite IH, andb_assoc.
Qed.

Lemma findall_scan_tokens run s :
  all_chars Regex.alnum run = true ->
  Forall Shortcut.token (Regex.findall_scan run s).
Proof.
  revert run; induction s as [|c s IH]; intros run Hrun; simpl; [constructor|].
  destruct (Regex.alnum c) eqn:Hc.
  - apply IH. rewrite all_chars_app, Hrun. simpl. now rewrite Hc.
  - destruct (Ascii.eqb c ":" && negb (String.eqb run "")) eqn:E.
    + apply andb_true_iff in E as [_ E]. apply negb_true_iff in E.
      apply String.eqb_neq in E.
      constructor; [|now apply IH]. exists run. auto.
    + now apply IH.
Qed.

(** X18.  The pattern [[a-zA-Z0-9]+:] finds nothing in a string exactly when no
    letter or digit of the string is immediately followed by a colon, and
    every match it returns is a non-empty run of letters and digits
    followed by a colon. *)
Theorem shortcut_namespace_findall_matches (s : string) :
  (Regex.shortcut_namespace_findall (Some s) = Ok [] <-> ~ Shortcut.occurs s)
  /\ (exists found,
         Regex.shortcut_namespace_findall (Some s) = Ok found
         /\ Forall Shortcut.token found)
  /\ Regex.shortcut_namespace_findall None = Raise TypeError.
Proof.
  unfold Regex.shortcut_namespace_findall. split; [|split].
  - split.
    + intros H. injection H as H. now apply findall_scan_nil.
    + intros H. f_equal. now apply findall_scan_nil.
  - eexists. split; [reflexivity|]. now apply findall_scan_tokens.
  - reflexivity.
Qed.

Lemma _testNamespace_cases name s original level :
  Citation._testNamespace name (Some s) (Some original) level "equal"
  = Ok (if length (Regex.findall_scan "" s) =? 0
        then [Shortcut.none_found name level original] else [])
  /\ Citation._testNamespace name (Some s) (Some original) level "greater"
     = Ok (if 0 <? length (Regex.findall_scan "" s)
           then [Shortcut.unbound name level original] else []).
Proof.
  unfold Citation._testNamespace. cbn [Regex.shortcut_namespace_findall bind].
  split.
  - cbn [String.eqb Ascii.eqb Bool.eqb andb].
    destruct (length _ =? 0); reflexivity.
  - cbn [String.eqb Ascii.eqb Bool.eqb andb].
    destruct (0 <? length _); reflexivity.
Qed.

Lemma length_zero_nil (A : Type) (l : list A) :
  (length l =? 0) = true <-> l = [].
Proof. destruct l; simpl; split; congruence. Qed.

(** X19.  [testNamespace] needs both attributes: it raises [TypeError] when
    [scope] or [xpath] is absent.  When both are present it returns at
    most four diagnostics, the two about [scope] before the two about
    [xpath]: the first of each pair is there exactly when the raw string
    has no letter or digit followed by a colon, the second exactly when
    the string rewritten by [full_xpath] has one. *)
Theorem testNamespace_diagnostics c level :
  (Citation.scope c = None \/ Citation.xpath c = None ->
   Citation.testNamespace c level = Raise TypeError)
  /\ (forall sc xp,
         Citation.scope c = Some sc ->
         Citation.xpath c = Some xp ->
         let rewritten s :=
           replace_all (replace "@n='?'" "@n" s) (Citation.namespaces c) in
         exists e1 e2 e3 e4,
           Citation.testNamespace c level = Ok (e1 ++ e2 ++ e3 ++ e4)
           /\ length (e1 ++ e2 ++ e3 ++ e4) <= 4
           /\ (e1 = [Shortcut.none_found "scope" level sc]
               /\ ~ Shortcut.occurs sc
               \/ e1 = [] /\ Shortcut.occurs sc)
           /\ (e2 = [Shortcut.unbound "scope" level sc]
               /\ Shortcut.occurs (rewritten sc)
               \/ e2 = [] /\ ~ Shortcut.occurs (rewritten sc))
           /\ (e3 = [Shortcut.none_found "xpath" level xp]
               /\ ~ Shortcut.occurs xp
               \/ e3 = [] /\ Shortcut.occurs xp)
           /\ (e4 = [Shortcut.unbound "xpath" level xp]
               /\ Shortcut.occurs (rewritten xp)
               \/ e4 = [] /\ ~ Shortcut.occurs (rewritten xp))).
Proof.
  split.
  - intros H. unfold Citation.testNamespace.
    destruct (Citation.scope c) as [sc|] eqn:Hs; [|reflexivity].
    destruct H as [H | H]; [discriminate|]. rewrite H.
    destruct (_testNamespace_cases "scope" sc sc level) as [-> _].
    cbn [bind]. unfold Citation.full_xpath. cbn [bind].
    destruct (_testNamespace_cases "scope"
                (replace_all (replace "@n='?'" "@n" sc) (Citation.namespaces c))
                sc level) as [_ ->].
    reflexivity.
  - intros sc xp Hs Hx rewritten.
    assert (Hnone : forall name s,
               (if length (Regex.findall_scan "" s) =? 0
                then [Shortcut.none_found name level s] else [])
               = [Shortcut.none_found name level s] /\ ~ Shortcut.occurs s
               \/ (if length (Regex.findall_scan "" s) =? 0
                   then [Shortcut.none_found name level s] else []) = []
                  /\ Shortcut.occurs s).
    { intros name s.
      destruct (length (Regex.findall_scan "" s) =? 0) eqn:E.
      - left. split; [reflexivity|]. apply length_zero_nil in E.
        now apply findall_scan_nil.
      - right. split; [reflexivity|]. apply findall_scan_occurs.
        intros F. rewrite F in E. discriminate. }
    assert (Hunb : forall name s r,
               (if 0 <? length (Regex.findall_scan "" r)
                then [Shortcut.unbound name level s] else [])
               = [Shortcut.unbound name level s] /\ Shortcut.occurs r
               \/ (if 0 <? length (Regex.findall_scan "" r)
                   then [Shortcut.unbound name level s] else []) = []
                  /\ ~ Shortcut.occurs r).
    { intros name s r.
      destruct (Regex.findall_scan "" r) eqn:F.
      - right. split; [reflexivity|]. now apply findall_scan_nil.
      - left. split; [reflexivity|]. apply findall_scan_occurs.
        rewrite F. discriminate. }
    unfold Citation.testNamespace, Citation.full_xpath. rewrite Hs, Hx.
    destruct (_testNamespace_cases "scope" sc sc level) as [-> _].
    destruct (_testNamespace_cases "xpath" xp xp level) as [-> _].
    cbn [bind].
    destruct (_testNamespace_cases "scope" (rewritten sc) sc level) as [_ E2].
    destruct (_testNamespace_cases "xpath" (rewritten xp) xp level) as [_ E4].
    unfold rewritten in E2, E4. rewrite E2. cbn [bind]. rewrite E4. cbn [bind].
    fold (rewritten sc). fold (rewritten xp).
    exists (if length (Regex.findall_scan "" sc) =? 0
            then [Shortcut.none_found "scope" level sc] else []),
           (if 0 <? length (Regex.findall_scan "" (rewritten sc))
            then [Shortcut.unbound "scope" level sc] else []),
           (if length (Regex.findall_scan "" xp) =? 0
            then [Shortcut.none_found "xpath" level xp] else []),
           (if 0 <? length (Regex.findall_scan "" (rewritten xp))
            then [Shortcut.unbound "xpath" level xp] else []).
    split; [cbn [app]; rewrite <- !app_assoc; reflexivity|].
    split.
    + rewrite !length_app.
      destruct (length (Regex.findall_scan "" sc) =? 0),
        (0 <? length (Regex.findall_scan "" (rewritten sc))),
        (length (Regex.findall_scan "" xp) =? 0),
        (0 <? length (Regex.findall_scan "" (rewritten xp))); simpl; lia.
    + split; [apply Hnone|]. split; [apply Hunb|].
      split; [apply Hnone | apply Hunb].
Qed.

Lemma testNamespace_diagnostics_witness :
  Citation.testNamespace
    (Citation.of_element Sample.tei_namespaces false Sample.bare_citation) 1
  = Raise TypeError
  /\ exists errors,
      Citation.testNamespace
        (Citation.of_element [] false Sample.line_citation) 2
      = Ok errors
      /\ length errors <= 4.
Proof.
  split.
  - apply testNamespace_diagnostics. now left.
  - destruct (testNamespace_diagnostics
                (Citation.of_element [] false Sample.line_citation) 2)
      as [_ H].
    destruct (H _ _ eq_refl eq_refl) as (e1 & e2 & e3 & e4 & Heq & Hlen & _).
    eexists. split; [exact Heq | exact Hlen].
Defined.

Lemma occurs_append (a v b : string) :
  Shortcut.occurs v -> Shortcut.occurs (a ++ v ++ b)%string.
Proof.
  intros (x & c & y & -> & Hc).
  exists (a ++ x)%string, c, (y ++ b)%string. split; [|exact Hc].
  rewrite !append_assoc. reflexivity.
Qed.

(** Where [old] occurs, [str.replace] writes [new]. *)
Lemma replace_scan_writes (old new s : string) :
  old <> EmptyString ->
  contains old s = true ->
  exists a b, replace_scan old new 0 s = (a ++ new ++ b)%string.
Proof.
  intros Hne. induction s as [|c s IH]; intros H.
  - destruct old; [congruence | discriminate].
  - cbn [contains] in H. cbn [replace_scan].
    destruct (String.prefix old (String c s)) eqn:Hp.
    + exists EmptyString. eexists. reflexivity.
    + simpl in H. destruct (IH H) as (a & b & ->).
      exists (String c a), b. reflexivity.
Qed.

(** X20.  With a table of one binding whose URI itself holds a letter or digit
    followed by a colon (the [http:] of a usual namespace URI), a scope
    that uses the bound prefix is reported as having shortcuts with no
    bindings. *)
Theorem bound_prefix_with_scheme_is_reported c level key uri sc xp
        (Htable : Citation.namespaces c = [(key, uri)])
        (Hkey : key <> EmptyString)
        (Hscope : Citation.scope c = Some sc)
        (Hxpath : Citation.xpath c = Some xp)
        (Huses : contains key (replace "@n='?'" "@n" sc) = true)
        (Huri : Shortcut.occurs uri) :
  exists errors,
    Citation.testNamespace c level = Ok errors
    /\ In (Shortcut.unbound "scope" level sc) errors.
Proof.
  unfold Citation.testNamespace, Citation.full_xpath.
  rewrite Hscope, Hxpath, Htable.
  destruct (_testNamespace_cases "scope" sc sc level) as [-> _].
  destruct (_testNamespace_cases "xpath" xp xp level) as [-> _].
  cbn [bind].
  destruct (_testNamespace_cases "scope"
              (replace_all (replace "@n='?'" "@n" sc) [(key, uri)]) sc level)
    as [_ ->].
  cbn [bind].
  destruct (_testNamespace_cases "xpath"
              (replace_all (replace "@n='?'" "@n" xp) [(key, uri)]) xp level)
    as [_ ->].
  cbn [bind]. eexists. split; [reflexivity|].
  assert (Ho : Shortcut.occurs
                 (replace_all (replace "@n='?'" "@n" sc) [(key, uri)])).
  { unfold replace_all. cbn [fold_left fst snd].
    destruct key as [|k key]; [congruence|].
    destruct (replace_scan_writes (String k key) uri _ Hkey Huses)
      as (a & b & Hw).
    change (replace (String k key) uri (replace "@n='?'" "@n" sc))
      with (replace_scan (String k key) uri 0 (replace "@n='?'" "@n" sc)).
    rewrite Hw. now apply occurs_append. }
  apply findall_scan_occurs in Ho.
  destruct (Regex.findall_scan "" (replace_all _ _)) eqn:F; [congruence|].
  apply in_or_app. left. apply in_or_app. left. apply in_or_app. right.
  simpl. now left.
Qed.

Lemma bound_prefix_with_scheme_is_reported_witness :
  exists errors,
    Citation.testNamespace
      (Citation.of_element Sample.tei_namespaces false Sample.line_citation) 2
    = Ok errors
    /\ In (Shortcut.unbound "scope" 2
             "/tei:TEI/tei:text/tei:body/tei:div[@n='?']") errors.
Proof.
  apply (bound_prefix_with_scheme_is_reported
           (Citation.of_element Sample.tei_namespaces false Sample.line_citation)
           2 "tei:" "{http://www.tei-c.org/ns/1.0}"
           "/tei:TEI/tei:text/tei:body/tei:div[@n='?']" "/tei:l[@n='?']");
    try reflexivity; [discriminate|].
  exists "{htt"%string, "p"%char, "//www.tei-c.org/ns/1.0}"%string.
  split; reflexivity.
Defined.

(** ** Version numbers *)

Lemma int_scan_uint (d : Decimal.uint) (acc : nat) :
  int_scan acc (NilEmpty.string_of_uint d) = Ok (Nat.of_uint_acc d acc).
Proof.
  revert acc; induction d; intros acc; cbn [NilEmpty.string_of_uint int_scan];
    [reflexivity | ..];
    match goal with
    | |- (if decimal ?c then _ else _) = _ =>
        change (decimal c) with true; cbv iota;
        let v := eval vm_compute in (nat_of_ascii c - 48) in
        change (nat_of_ascii c - 48) with v
    end;
    rewrite IHd; cbn [Nat.of_uint_acc]; rewrite Nat.tail_mul_spec;
    do 2 f_equal; lia.
Qed.

Lemma string_of_uint_digits (d : Decimal.uint) :
  all_chars decimal (NilEmpty.string_of_uint d) = true.
Proof. induction d; simpl; auto. Qed.

Lemma str_of_nat_cases (n : nat) :
  str_of_nat n = "0"%string /\ Nat.to_uint n = Decimal.Nil
  \/ str_of_nat n = NilEmpty.string_of_uint (Nat.to_uint n)
     /\ str_of_nat n <> EmptyString.
Proof.
  unfold str_of_nat, NilZero.string_of_uint.
  destruct (Nat.to_uint n); [left; auto | ..]; right; split;
    simpl; try reflexivity; discriminate.
Qed.

Lemma str_of_nat_digits (n : nat) :
  all_chars decimal (str_of_nat n) = true /\ str_of_nat n <> EmptyString.
Proof.
  destruct (str_of_nat_cases n) as [[-> _] | [-> Hne]].
  - split; [reflexivity | discriminate].
  - split; [apply string_of_uint_digits | exact Hne].
Qed.

Lemma int_within_limit (s : string) (value : nat) :
  s <> EmptyString ->
  String.length s <= int_max_str_digits ->
  int_scan 0 s = Ok value ->
  int s = Ok value.
Proof.
  intros Hne Hlen Hscan. unfold int. destruct s as [|c s]; [congruence|].
  rewrite Hscan. cbn [bind]. apply Nat.ltb_ge in Hlen. now rewrite Hlen.
Qed.

(** [int(str(n)) == n], for a number that [int] converts. *)
Lemma int_str_of_nat (n : nat) :
  String.length (str_of_nat n) <= int_max_str_digits ->
  int (str_of_nat n) = Ok n.
Proof.
  intros Hlen. destruct (str_of_nat_digits n) as [_ Hne].
  apply int_within_limit; [exact Hne | exact Hlen |].
  destruct (str_of_nat_cases n) as [[E Hnil] | [E _]].
  - rewrite E. cbn. f_equal.
    rewrite <- (DecimalNat.Unsigned.of_to n), Hnil. reflexivity.
  - rewrite E, int_scan_uint. f_equal.
    apply (DecimalNat.Unsigned.of_to n).
Qed.

Lemma all_chars_impl (p q : ascii -> bool) (s : string) :
  (forall c, p c = true -> q c = true) ->
  all_chars p s = true -> all_chars q s = true.
Proof.
  intros Hpq. induction s as [|c s IH]; simpl; [reflexivity|].
  intros H. apply andb_true_iff in H as [Hc Hs].
  now rewrite (Hpq c Hc), IH.
Qed.

Lemma decimal_not_dot c : decimal c = true -> negb (Ascii.eqb c ".") = true.
Proof.
  intros H. apply negb_true_iff. destruct (Ascii.eqb c ".") eqn:E; [|reflexivity].
  apply Ascii.eqb_eq in E. subst c. discriminate.
Qed.

Lemma isdigit_str_of_nat (n : nat) : isdigit (str_of_nat n) = true.
Proof.
  destruct (str_of_nat_digits n) as [Hd Hne]. unfold isdigit.
  apply String.eqb_neq in Hne. rewrite Hne. simpl.
  revert Hd. apply all_chars_impl. intros c Hc. unfold isdigit_char.
  now rewrite Hc.
Qed.

Lemma mapM_int_str (l : list nat) :
  Forall (fun n => String.length (str_of_nat n) <= int_max_str_digits) l ->
  mapM int (map str_of_nat l) = Ok l.
Proof.
  induction l as [|n l IH]; intros H; cbn [map mapM]; [reflexivity|].
  apply Forall_cons_iff in H as [Hn Hl].
  now rewrite (int_str_of_nat n Hn), (IH Hl).
Qed.

Lemma filter_isdigit_str (l : list nat) :
  filter isdigit (map str_of_nat l) = map str_of_nat l.
Proof.
  induction l as [|n l IH]; simpl; [reflexivity|].
  now rewrite isdigit_str_of_nat, IH.
Qed.

Lemma version_tuple_pieces (pieces : list string) :
  pieces <> [] ->
  Forall (Paths.free_of ".") pieces ->
  DB._version_tuple (join "." pieces) = mapM int (filter isdigit pieces).
Proof.
  intros Hne HF. unfold DB._version_tuple.
  now rewrite (split_join "." pieces Hne HF).
Qed.

(** X21.  A version written as decimal numbers separated by dots is read back
    as those numbers, provided each number is written with at most as
    many digits as [int] converts (4300 by default):
    [_version_tuple(".".join(str(n) for n in l))] is [l], the empty
    version string giving the empty tuple. *)
Theorem version_tuple_round_trip (l : list nat)
        (Hdigits : Forall (fun n => String.length (str_of_nat n)
                                    <= int_max_str_digits) l) :
  DB._version_tuple (join "." (map str_of_nat l)) = Ok l.
Proof.
  destruct l as [|n l]; [reflexivity|].
  rewrite version_tuple_pieces.
  - rewrite filter_isdigit_str. now apply mapM_int_str.
  - discriminate.
  - apply Forall_forall. intros p Hin. apply in_map_iff in Hin as (m & <- & _).
    destruct (str_of_nat_digits m) as [Hd _]. revert Hd.
    apply all_chars_impl. exact decimal_not_dot.
Qed.

Lemma version_tuple_round_trip_witness :
  DB._version_tuple "8.0.12" = Ok [8; 0; 12].
Proof.
  apply (version_tuple_round_trip [8; 0; 12]).
  repeat (apply Forall_cons; [apply Nat.leb_le; vm_compute; reflexivity|]).
  apply Forall_nil.
Defined.

Lemma isdigit_ascii7_decimal (p : string) :
  Ascii7.only p -> isdigit p = true ->
  all_chars decimal p = true /\ p <> EmptyString.
Proof.
  unfold Ascii7.only, isdigit. intros Ha Hd.
  apply andb_true_iff in Hd as [Hne Hd]. split.
  - clear Hne. induction p as [|c p IH]; [reflexivity|].
    simpl in *. apply andb_true_iff in Ha as [Hc Ha].
    apply andb_true_iff in Hd as [Hdc Hd].
    rewrite (IH Ha Hd), andb_true_r.
    unfold isdigit_char in Hdc. apply Nat.ltb_lt in Hc.
    destruct (decimal c); [reflexivity|]. simpl in Hdc.
    repeat (apply orb_true_iff in Hdc as [Hdc | Hdc]);
      apply Nat.eqb_eq in Hdc; lia.
  - apply negb_true_iff, String.eqb_neq in Hne. exact Hne.
Qed.

Lemma int_scan_decimal (p : string) (acc : nat) :
  all_chars decimal p = true -> returns (int_scan acc p).
Proof.
  revert acc; induction p as [|c p IH]; intros acc H; simpl.
  - eexists. reflexivity.
  - simpl in H. apply andb_true_iff in H as [Hc Hp]. rewrite Hc. now apply IH.
Qed.

Lemma split_scan_all p sep cur s :
  all_chars p cur = true -> all_chars p s = true ->
  Forall (fun piece => all_chars p piece = true) (split_scan sep cur s).
Proof.
  revert cur; induction s as [|c s IH]; intros cur Hcur Hs; simpl.
  - constructor; [exact Hcur | constructor].
  - simpl in Hs. apply andb_true_iff in Hs as [Hc Hs].
    destruct (Ascii.eqb c sep).
    + constructor; [exact Hcur | now apply IH].
    + apply IH; [|exact Hs]. rewrite all_chars_app, Hcur. simpl. now rewrite Hc.
Qed.

Lemma int_scan_raises (p : string) (acc : nat) (E : exn) :
  int_scan acc p = Raise E -> E = ValueError.
Proof.
  revert acc; induction p as [|c p IH]; intros acc; cbn [int_scan];
    [discriminate|].
  destruct (decimal c); [apply IH | congruence].
Qed.

(** [int] raises nothing but [ValueError]. *)
Lemma int_raises (p : string) (E : exn) : int p = Raise E -> E = ValueError.
Proof.
  unfold int. destruct p as [|c p]; [congruence|].
  destruct (int_scan 0 (String c p)) as [value|E'] eqn:Hscan; cbn [bind].
  - destruct (int_max_str_digits <? _); congruence.
  - intros H. injection H as <-. exact (int_scan_raises _ _ _ Hscan).
Qed.

(** [int] refuses a string of more digits than the limit. *)
Lemma int_beyond_limit (p : string) :
  int_max_str_digits < String.length p -> int p = Raise ValueError.
Proof.
  intros Hlen. destruct (int p) as [value|E] eqn:Hint.
  - exfalso. unfold int in Hint. destruct p as [|c p]; [discriminate|].
    destruct (int_scan 0 (String c p)); cbn [bind] in Hint; [|discriminate].
    apply Nat.ltb_lt in Hlen. rewrite Hlen in Hint. discriminate.
  - f_equal. exact (int_raises p E Hint).
Qed.

Lemma mapM_int_raises (l : list string) (p : string) :
  In p l -> int p = Raise ValueError -> mapM int l = Raise ValueError.
Proof.
  induction l as [|x l IH]; intros Hin Hp; [destruct Hin|].
  cbn [mapM]. destruct (int x) as [value|E] eqn:Hx; cbn [bind].
  - destruct Hin as [-> | Hin]; [congruence|].
    now rewrite (IH Hin Hp).
  - f_equal. exact (int_raises x E Hx).
Qed.

(** X22.  [_version_tuple] keeps the dot-separated pieces that are digit
    strings and drops the others without complaint; on a version string
    of characters below 128 whose pieces are no longer than the digits
    [int] converts (4300 by default) it never raises, and a digit piece
    longer than that makes it raise [ValueError].  Version strings range
    over code points below 256. *)
Theorem version_tuple_keeps_digit_pieces :
  (forall pieces,
      pieces <> [] ->
      Forall (Paths.free_of ".") pieces ->
      DB._version_tuple (join "." pieces) = mapM int (filter isdigit pieces))
  /\ (forall version,
         Ascii7.only version ->
         Forall (fun piece => String.length piece <= int_max_str_digits)
                (split "."%char version) ->
         returns (DB._version_tuple version))
  /\ (forall version piece,
         In piece (split "."%char version) ->
         isdigit piece = true ->
         int_max_str_digits < String.length piece ->
         DB._version_tuple version = Raise ValueError)
  /\ (forall version numbers,
         DB._version_tuple version = Ok numbers ->
         length numbers <= length (split "."%char version)).
Proof.
  split; [exact version_tuple_pieces|]. split; [|split].
  - intros version Ha Hlen. unfold DB._version_tuple.
    pose proof (split_scan_all _ "." EmptyString version eq_refl Ha) as HF.
    fold (split "." version) in HF.
    revert Hlen.
    induction HF as [|p ps Hp _ IH]; intros Hlen; cbn [filter];
      [eexists; reflexivity|].
    apply Forall_cons_iff in Hlen as [Hlp Hlps].
    destruct (isdigit p) eqn:Hd; [|exact (IH Hlps)].
    destruct (isdigit_ascii7_decimal p Hp Hd) as [Hdec Hne].
    destruct (int_scan_decimal p 0 Hdec) as [n Hn].
    cbn [mapM]. rewrite (int_within_limit p n Hne Hlp Hn). cbn [bind].
    destruct (IH Hlps) as [ns ->]. eexists. reflexivity.
  - intros version piece Hin Hd Hlen. unfold DB._version_tuple.
    apply (mapM_int_raises _ piece).
    + apply filter_In. split; assumption.
    + now apply int_beyond_limit.
  - intros version numbers. unfold DB._version_tuple.
    generalize (split "."%char version). intros pieces. revert numbers.
    induction pieces as [|p ps IH]; intros numbers H; simpl in *.
    + injection H as <-. simpl. lia.
    + destruct (isdigit p).
      * simpl in H. apply bind_Ok_inv in H as (n & _ & H).
        apply bind_Ok_inv in H as (ns & Hns & H). injection H as <-.
        simpl. specialize (IH ns Hns). lia.
      * specialize (IH numbers H). lia.
Qed.

Lemma version_tuple_keeps_digit_pieces_witness :
  DB._version_tuple "8.0-beta.12" = Ok [8; 12].
Proof.
  destruct version_tuple_keeps_digit_pieces as (H & _).
  exact (H ["8"; "0-beta"; "12"]%string ltac:(discriminate)
           ltac:(repeat constructor)).
Defined.

(** ** Credentials *)

(** X23.  Where [unicode] is a builtin (Python 2), [from_dic] never raises.  It
    takes the name and the password from the dictionary when they are
    strings and leaves the others as they were; an empty password string
    in the dictionary becomes [None]; the returned pair is the updated
    credential; applying the same dictionary again changes nothing; and
    the password is the empty string afterwards exactly when it was the
    empty string before and the dictionary holds no string under
    ["password"], so a credential built with an empty password keeps
    it. *)
Theorem from_dic_updates (c : Credential.t) (data : dict string Credential.value) :
  exists c',
    Credential.from_dic true c data
    = Ok (c', (Credential.name c', Credential.password c'))
    /\ Credential.name c'
       = match dict_lookup String.eqb data "name" with
         | Some (Credential.VStr s) => Credential.VStr s
         | _ => Credential.name c
         end
    /\ Credential.password c'
       = match dict_lookup String.eqb data "password" with
         | Some (Credential.VStr s) =>
             if String.length s =? 0 then Credential.VNone
             else Credential.VStr s
         | _ => Credential.password c
         end
    /\ Credential.from_dic true c' data
       = Ok (c', (Credential.name c', Credential.password c'))
    /\ (Credential.password c' = Credential.VStr EmptyString
        <-> Credential.password c = Credential.VStr EmptyString
            /\ forall s, dict_lookup String.eqb data "password"
                         <> Some (Credential.VStr s)).
Proof.
  destruct c as [n p].
  exists (Credential.Build
            (match dict_lookup String.eqb data "name" with
             | Some (Credential.VStr s) => Credential.VStr s
             | _ => n
             end)
            (match dict_lookup String.eqb data "password" with
             | Some (Credential.VStr s) =>
                 if String.length s =? 0 then Credential.VNone
                 else Credential.VStr s
             | _ => p
             end)).
  unfold Credential.from_dic, Credential.is_string.
  cbn [Credential.name Credential.password].
  destruct (dict_lookup String.eqb data "name") as [[| sn |]|];
    destruct (dict_lookup String.eqb data "password") as [[| sp |]|];
    cbn [bind Credential.len Credential.name Credential.password];
    try (destruct (String.length sp =? 0) eqn:E);
    cbn [bind Credential.len Credential.name Credential.password];
    (split; [reflexivity|]); (split; [reflexivity|]); (split; [reflexivity|]);
    (split; [reflexivity|]);
    (split; [intros H | intros [H Hnone]]);
    try discriminate;
    try (split; [exact H | intros s; discriminate]);
    try exact H;
    try (exfalso; exact (Hnone sp eq_refl)).
  all: injection H as ->; discriminate.
Qed.

(** X24.  Where [unicode] is not a builtin (Python 3), [from_dic] raises
    [NameError] as soon as the dictionary has a [name] or a [password]
    key, and otherwise returns the credential unchanged. *)
Theorem from_dic_without_unicode (c : Credential.t)
        (data : dict string Credential.value) :
  (dict_lookup String.eqb data "name" = None ->
   dict_lookup String.eqb data "password" = None ->
   Credential.from_dic false c data
   = Ok (c, (Credential.name c, Credential.password c)))
  /\ ((exists v, dict_lookup String.eqb data "name" = Some v)
      \/ (exists v, dict_lookup String.eqb data "password" = Some v) ->
      Credential.from_dic false c data = Raise NameError).
Proof.
  unfold Credential.from_dic, Credential.is_string. split.
  - intros -> ->. reflexivity.
  - intros [[v ->] | [v ->]]; [reflexivity|].
    destruct (dict_lookup String.eqb data "name"); reflexivity.
Qed.

Lemma from_dic_without_unicode_witness :
  Credential.from_dic false (Credential.__init__ None None)
                      [("password", Credential.VStr "secret")]%string
  = Raise NameError
  /\ Credential.from_dic false (Credential.__init__ None None)
                         [("port", Credential.VOther)]%string
     = Ok (Credential.__init__ None None, (Credential.VStr "admin", Credential.VNone)).
Proof.
  destruct (from_dic_without_unicode (Credential.__init__ None None)
              [("password", Credential.VStr "secret")]%string) as [_ H1].
  destruct (from_dic_without_unicode (Credential.__init__ None None)
              [("port", Credential.VOther)]%string) as [H2 _].
  split; [apply H1; right; eexists; reflexivity | exact (H2 eq_refl eq_refl)].
Defined.

(** ** Databases *)

Section Databases.

Variable File : Type.
Variable File_new : string -> string -> string -> result File.
Variable File_directory : File -> option string.
Variable User : Type.

Lemma DB_init_inv software version method path data_dir target
      (user : option User) port db :
  DB.__init__ File_new File_directory software version method path
              data_dir target user port = Ok db ->
  DB.port db = port
  /\ DB._version_tuple version = Ok (DB.version db)
  /\ File_new path target method = Ok (DB.file db)
  /\ DB.user db = user
  /\ exists dir,
      File_directory (DB.file db) = Some dir
      /\ DB.directory db = Some dir
      /\ DB.data_dir db
         = match data_dir with
           | Some d => d
           | None => (dir ++ "/data")%string
           end.
Proof.
  unfold DB.__init__, DB._feed_file_instance, DB.set_directory. intros H.
  apply bind_Ok_inv in H as (v & Hv & H).
  apply bind_Ok_inv in H as (f & Hf & H).
  apply bind_Ok_inv in H as (dd & Hdd & H).
  injection H as <-. cbn.
  destruct (File_directory f) as [dir|]; [|discriminate].
  injection Hdd as <-.
  split; [reflexivity|]. split; [exact Hv|]. split; [exact Hf|].
  split; [reflexivity|]. exists dir. auto.
Qed.

(** X25.  A BaseX database always listens on port 8080: the [port] argument of
    its constructor is not passed on, so two constructions that differ
    only in the port give the same result, whereas the parent class keeps
    the port it is given. *)
Theorem BaseX_port_is_fixed software version method path data_dir target
        (user : option User) port :
  (forall port',
      BaseX.__init__ File_new File_directory software version method path
                     data_dir target user port
      = BaseX.__init__ File_new File_directory software version method path
                       data_dir target user port')
  /\ (forall db,
         BaseX.__init__ File_new File_directory software version method path
                        data_dir target user port = Ok db ->
         DB.port db = 8080%Z)
  /\ (forall db,
         DB.__init__ File_new File_directory software version method path
                     data_dir target user port = Ok db ->
         DB.port db = port).
Proof.
  split; [reflexivity|]. split.
  - intros db H. unfold BaseX.__init__ in H. now apply DB_init_inv in H.
  - intros db H. now apply DB_init_inv in H.
Qed.

(** X26.  The data directory of a database is the [data_dir] argument when one
    is given and otherwise [data] under the directory of its file.  The
    default is computed first in either case: when the file has no
    directory the construction raises [TypeError] even though a
    [data_dir] was given. *)
Theorem DB_data_directory software version method path data_dir target
        (user : option User) port :
  (forall db,
      DB.__init__ File_new File_directory software version method path
                  data_dir target user port = Ok db ->
      exists dir,
        File_directory (DB.file db) = Some dir
        /\ DB.directory db = Some dir
        /\ DB.data_dir db
           = match data_dir with
             | Some d => d
             | None => (dir ++ "/data")%string
             end)
  /\ (forall numbers file,
         DB._version_tuple version = Ok numbers ->
         File_new path target method = Ok file ->
         File_directory file = None ->
         DB.__init__ File_new File_directory software version method path
                     data_dir target user port = Raise TypeError).
Proof.
  split.
  - intros db H. now apply DB_init_inv in H.
  - intros numbers file Hv Hf Hd.
    unfold DB.__init__, DB._feed_file_instance, DB.set_directory.
    rewrite Hv. cbn [bind]. rewrite Hf. cbn [bind]. rewrite Hd. reflexivity.
Qed.

End Databases.

Lemma BaseX_port_is_fixed_witness :
  exists db,
    BaseX.__init__ Store.new Store.directory "basex" "8.0" "local" "basex.jar"
                   None "./" (None : option unit) 1984%Z
    = Ok db
    /\ DB.port db = 8080%Z.
Proof.
  eexists. split; [vm_compute; reflexivity|].
  destruct (BaseX_port_is_fixed string Store.new Store.directory unit
              "basex" "8.0" "local" "basex.jar" None "./" None 1984%Z)
    as (_ & H & _).
  exact (H _ eq_refl).
Defined.

Lemma DB_data_directory_witness :
  exists db,
    DB.__init__ Store.new Store.directory "basex" "8.0" "local" "basex.jar"
                None "./" (None : option unit) 1984%Z
    = Ok db
    /\ DB.data_dir db = "./basex/data"%string
    /\ DB.version db = [8; 0].
Proof.
  eexists. split; [vm_compute; reflexivity|].
  destruct (DB_data_directory string Store.new Store.directory unit
              "basex" "8.0" "local" "basex.jar" None "./" None 1984%Z)
    as (H & _).
  destruct (H _ eq_refl) as (dir & Hdir & _ & Hdata).
  injection Hdir as <-. split; [exact Hdata | reflexivity].
Defined.

(** ** What strictness changes for a Work *)

(** X27.  For a Work with at least one [title] child the strictness flag
    changes nothing but the flag stored in the object: the strict
    construction raises what the lenient one raises, and otherwise builds
    the same titles, editions and translations. *)
Theorem Work_strictness_only_without_title parse (e : Element) rules
        (Htitled : findall e (ti "title") <> []) :
  Work.__init__ parse (XElement e) rules true
  = (w <- Work.__init__ parse (XElement e) rules false ;;
     Ok (Work.Build true (Work.rewriting_rules w) (Work.xml w) (Work.id w)
                    (Work.titles w) (Work.editions w) (Work.translations w))).
Proof.
  unfold Work.__init__, Work._retrieveTitles.
  cbn [Helpers.xmlParsing arg_get bind].
  rewrite collect_titles_gather.
  destruct (Titles.gather (findall e (ti "title")) []) as [|kv d] eqn:Hg.
  - apply gather_nil_inv in Hg. contradiction.
  - cbn [length Nat.eqb andb bind].
    destruct (Work._retrieveEditions parse e rules) as [eds|E]; [|reflexivity].
    cbn [bind].
    destruct (Work._retrieveTranslations parse e rules) as [trs|E];
      reflexivity.
Qed.

Lemma Work_strictness_only_without_title_witness :
  exists w,
    Work.__init__ Sample.parse (XElement Sample.work) Sample.rules true = Ok w
    /\ Work.strict w = true
    /\ dict_keys (Work.titles w) = [Some "en"; Some "fr"]%string.
Proof.
  rewrite (Work_strictness_only_without_title Sample.parse Sample.work
             Sample.rules ltac:(discriminate)).
  eexists. split; [vm_compute; reflexivity|]. split; reflexivity.
Defined.
